(** * ml-recommendation-svc: risk scoring and fairness auditing

    A shallow embedding of
    [src/models/student_risk_model.py] (module [RiskModel]) and
    [src/services/bias_detection.py] (module [BiasDetection]).

    Numbers.  Python [float] values are modelled twice.

    - Modules [RiskModel] and [BiasDetection] read them as exact rationals
      [Q]: comparisons are the comparisons of the source, arithmetic is
      exact, and equalities between computed numbers are stated with [==]
      ([Qeq]).  The properties stated on this reading are those that
      rounding does not disturb: bounds, monotonicity, the structure of
      the data, the cache and the analysis loop.
    - Modules [RiskModel64] and [BiasDetection64] compute on IEEE 754
      binary64 numbers, as CPython does.  Every property that depends on
      comparing a computed number with a cut (the 0.3 cut of the
      explanation, the 0.05 band of the trend, the tables of the
      fairness evaluators) is stated there.

    Python [int] counts ([len], [sum(1 for ...)]) are [nat]. *)

From Stdlib Require Import QArith Qminmax Qabs ZArith NArith List String Ascii Bool.
From Stdlib Require Import Lia Lqa Permutation Sorted.
From Stdlib Require Import Floats.
Import ListNotations.

Open Scope string_scope.
Open Scope list_scope.
Open Scope Q_scope.

(** ** Exceptions and the error monad *)

Inductive exn : Type :=
| JSONDecodeError
| KeyError (key : string)
| ValueError (what : string)
| TypeError (what : string)
| AttributeError (what : string)
| ScoringError (what : string)
| IllTyped (field : string)
| ZeroDivisionError (what : string)
| OverflowError (what : string).

Inductive result (A : Type) : Type :=
| Return (a : A)
| Raise (e : exn).
Arguments Return {A} a.
Arguments Raise {A} e.

Definition bind {A B} (m : result A) (k : A -> result B) : result B :=
  match m with
  | Return a => k a
  | Raise e => Raise e
  end.

Declare Scope result_scope.
Delimit Scope result_scope with result.
Notation "x <- m ;; k" := (bind m (fun x => k))
  (at level 61, m at next level, right associativity) : result_scope.
Open Scope result_scope.

Fixpoint mapM {A B} (f : A -> result B) (l : list A) : result (list B) :=
  match l with
  | [] => Return []
  | a :: l' => b <- f a ;; bs <- mapM f l' ;; Return (b :: bs)
  end.

(** ** Python dictionaries with string keys

    A [dict] keeps its keys in insertion order; it is an association list
    in which every key occurs once. *)

Definition dict (V : Type) : Type := list (string * V).

Fixpoint dict_get {V} (d : dict V) (k : string) : option V :=
  match d with
  | [] => None
  | (k', v) :: d' => if String.eqb k' k then Some v else dict_get d' k
  end.

(** [d[k] = v]: overwrite in place when the key exists, append otherwise. *)
Fixpoint dict_set {V} (d : dict V) (k : string) (v : V) : dict V :=
  match d with
  | [] => [(k, v)]
  | (k', v') :: d' =>
      if String.eqb k' k then (k', v) :: d' else (k', v') :: dict_set d' k v
  end.

Definition dict_keys {V} (d : dict V) : list string := map fst d.
Definition dict_values {V} (d : dict V) : list V := map snd d.

(** ** Sums over lists of rationals *)

Fixpoint Qsum (l : list Q) : Q :=
  match l with
  | [] => 0
  | x :: l' => x + Qsum l'
  end.

Definition Qof_nat (n : nat) : Q := inject_Z (Z.of_nat n).

(** [a <= b] and [a < b] on floats. *)
Definition Qleb (a b : Q) : bool := Qle_bool a b.
Definition Qltb (a b : Q) : bool := negb (Qle_bool b a).

(** [sum(values)]: Python adds from the left, starting at 0. *)
Definition py_sum (l : list Q) : Q := fold_left Qplus l 0.

(** What a loop that appends at most one element per iteration builds. *)
Fixpoint collect {A B} (f : A -> option B) (l : list A) : list B :=
  match l with
  | [] => []
  | a :: l' => match f a with
               | Some b => b :: collect f l'
               | None => collect f l'
               end
  end.

(** [sum(1 for x in l if f(x))] *)
Definition count {A} (f : A -> bool) (l : list A) : nat := List.length (filter f l).

(** [int(x)] on a float: truncation towards zero. *)
Definition py_int (x : Q) : Z := Z.quot (Qnum x) (Zpos (Qden x)).

Module RiskModel.

(** *** Enumerations ([str, Enum] classes) *)

Inductive RiskLevel : Type := LOW | MODERATE | HIGH | CRITICAL.
Inductive RiskTrend : Type := INCREASING | STABLE | DECREASING.
Inductive FeatureCategory : Type := ACADEMIC | ENGAGEMENT | BEHAVIORAL | TEMPORAL.

Definition RiskLevel_value (l : RiskLevel) : string :=
  match l with
  | LOW => "low" | MODERATE => "moderate" | HIGH => "high" | CRITICAL => "critical"
  end.

Definition RiskTrend_value (t : RiskTrend) : string :=
  match t with
  | INCREASING => "increasing" | STABLE => "stable" | DECREASING => "decreasing"
  end.

Definition FeatureCategory_value (c : FeatureCategory) : string :=
  match c with
  | ACADEMIC => "academic" | ENGAGEMENT => "engagement"
  | BEHAVIORAL => "behavioral" | TEMPORAL => "temporal"
  end.

(** Iteration order of [for cat in FeatureCategory]. *)
Definition FeatureCategory_members : list FeatureCategory :=
  [ACADEMIC; ENGAGEMENT; BEHAVIORAL; TEMPORAL].

Definition FeatureCategory_eqb (a b : FeatureCategory) : bool :=
  match a, b with
  | ACADEMIC, ACADEMIC | ENGAGEMENT, ENGAGEMENT
  | BEHAVIORAL, BEHAVIORAL | TEMPORAL, TEMPORAL => true
  | _, _ => false
  end.

(** The ordinal position of a tier, used to state monotonicity. *)
Definition RiskLevel_rank (l : RiskLevel) : nat :=
  match l with
  | LOW => 0 | MODERATE => 1 | HIGH => 2 | CRITICAL => 3
  end.

(** *** Feature definitions *)

Record FeatureDefinition : Type := {
  name : string;
  category : FeatureCategory;
  description : string;
  risk_direction : string;
  threshold_low : option Q;
  threshold_high : option Q;
  importance_weight : Q;
  recommendation_template : option string
}.

(** [_get_risk_level] *)
Definition _get_risk_level (risk_score : Q) : RiskLevel :=
  if Qle_bool 0.75 risk_score then CRITICAL
  else if Qle_bool 0.5 risk_score then HIGH
  else if Qle_bool 0.25 risk_score then MODERATE
  else LOW.

(** [_normalize_risk_contribution] *)
Definition _normalize_risk_contribution (feature_def : FeatureDefinition) (value : Q) : Q :=
  match threshold_low feature_def, threshold_high feature_def with
  | Some lo, Some hi =>
      if String.eqb (risk_direction feature_def) "high_is_risk" then
        if Qleb value lo then 0
        else if Qleb hi value then 1
        else (value - lo) / (hi - lo)
      else
        if Qleb hi value then 0
        else if Qleb value lo then 1
        else 1 - (value - lo) / (hi - lo)
  | _, _ => 0.5
  end.

(** *** Prediction records *)

(** [current_value: float | str] *)
Inductive scalar : Type :=
| VFloat (q : Q)
| VStr (s : string).

Record RiskFactor : Type := {
  rf_feature : string;
  rf_category : FeatureCategory;
  rf_description : string;
  rf_current_value : scalar;
  rf_contribution : Q;
  rf_severity : string;
  rf_threshold : option Q;
  rf_recommendation : option string
}.

Record ProtectiveFactor : Type := {
  pf_feature : string;
  pf_category : FeatureCategory;
  pf_description : string;
  pf_current_value : scalar;
  pf_contribution : Q
}.

(** *** The feature catalog *)

Definition feature (n : string) (c : FeatureCategory) (d : string) (dir : string)
    (lo hi w : Q) (t : string) : FeatureDefinition :=
  {| name := n; category := c; description := d; risk_direction := dir;
     threshold_low := Some lo; threshold_high := Some hi;
     importance_weight := w; recommendation_template := Some t |}.

Definition RISK_FEATURES : list FeatureDefinition := [
  feature "current_mastery" ACADEMIC
    "Current overall mastery level across all skills"
    "low_is_risk" 0.4 0.7 0.15
    "Consider focused practice on skills below 50% mastery";
  feature "mastery_trend_7d" ACADEMIC
    "Change in mastery level over the last 7 days"
    "low_is_risk" (-0.1) 0.05 0.12
    "Mastery is declining; review recent learning activities";
  feature "skill_gaps_count" ACADEMIC
    "Number of skills below 50% mastery"
    "high_is_risk" 2 5 0.08
    "Target the {value} skills that need the most improvement";
  feature "correct_first_attempt_rate" ACADEMIC
    "Proportion of questions answered correctly on first attempt"
    "low_is_risk" 0.4 0.7 0.07
    "Consider prerequisite skill review before new content";
  feature "mastery_vs_class" ACADEMIC
    "Performance relative to class average"
    "low_is_risk" (-0.2) 0.0 0.05
    "Student may benefit from peer tutoring or additional support";
  feature "days_since_last_session" ENGAGEMENT
    "Number of days since last learning session"
    "high_is_risk" 3 7 0.11
    "Re-engage student with motivating content or check-in";
  feature "session_frequency_7d" ENGAGEMENT
    "Number of learning sessions in the last 7 days"
    "low_is_risk" 2 5 0.10
    "Encourage more frequent, shorter practice sessions";
  feature "completion_rate" ENGAGEMENT
    "Proportion of assigned activities completed"
    "low_is_risk" 0.5 0.8 0.09
    "Break down assignments into smaller, achievable goals";
  feature "session_abandonment_rate" ENGAGEMENT
    "Proportion of sessions ended early without completion"
    "high_is_risk" 0.1 0.3 0.06
    "Investigate potential frustration or distraction issues";
  feature "avg_session_duration" ENGAGEMENT
    "Average time spent per session in minutes"
    "low_is_risk" 5 15 0.04
    "Encourage sustained engagement with appropriate breaks";
  feature "frustration_signals" BEHAVIORAL
    "Detected frustration events (rapid wrong answers, resets)"
    "high_is_risk" 3 8 0.08
    "Provide scaffolding or reduce difficulty temporarily";
  feature "help_request_rate" BEHAVIORAL
    "Rate of help/hint requests per activity"
    "high_is_risk" 0.3 0.6 0.04
    "Consider if content is at appropriate difficulty level";
  feature "hint_dependency_ratio" BEHAVIORAL
    "Ratio of correct answers following hints to total correct"
    "high_is_risk" 0.3 0.6 0.03
    "Gradually reduce hint availability to build independence";
  feature "time_of_day_variance" TEMPORAL
    "Consistency of learning time (lower is more consistent)"
    "high_is_risk" 2 6 0.02
    "Help establish consistent learning routine";
  feature "weekend_engagement_ratio" TEMPORAL
    "Ratio of weekend to weekday engagement"
    "low_is_risk" 0.1 0.5 0.01
    "Encourage balanced learning schedule"
].

(** [self.feature_names] *)
Definition feature_names : list string := map name RISK_FEATURES.

(** *** Feature vectors

    [features: dict[str, float]]; an entry may hold [None]. *)

Definition features_t : Type := dict (option Q).

(** [features.get(k)], where a stored [None] and a missing key both give
    [None]. *)
Definition features_get (features : features_t) (k : string) : option Q :=
  match dict_get features k with
  | Some (Some v) => Some v
  | _ => None
  end.

(** [_prepare_features] *)
Definition _prepare_features (features : features_t) : list Q :=
  map (fun feature_name =>
         match dict_get features feature_name with
         | Some (Some value) => value
         | Some None => 0.0
         | None => 0.0
         end) feature_names.

(** [_calculate_confidence] *)
Definition _calculate_confidence (features : features_t) (risk_prob : Q) : Q :=
  let available :=
    List.length (filter (fun f => match features_get features f with
                                  | Some _ => true | None => false end)
                        feature_names) in
  let completeness := Qof_nat available / Qof_nat (List.length feature_names) in
  let certainty := Qabs (risk_prob - 0.5) * 2 in
  0.6 * completeness + 0.4 * certainty.

(** [category_scores[k].append(x)] on a dict of lists. *)
Fixpoint dict_append {V} (d : dict (list V)) (k : string) (x : V) : dict (list V) :=
  match d with
  | [] => []
  | (k', l) :: d' =>
      if String.eqb k' k then (k', l ++ [x]) :: d' else (k', l) :: dict_append d' k x
  end.

(** The first loop of [_calculate_category_scores]: one catalog entry. *)
Definition category_scores_step (features : features_t)
    (category_scores : dict (list Q)) (feature_def : FeatureDefinition)
    : dict (list Q) :=
  match features_get features (name feature_def) with
  | None => category_scores
  | Some value =>
      let risk_contribution := _normalize_risk_contribution feature_def value in
      dict_append category_scores (FeatureCategory_value (category feature_def))
        (risk_contribution * importance_weight feature_def)
  end.

(** The denominator: the weights of every catalog feature of the category. *)
Definition category_weight_sum (category : string) : Q :=
  py_sum (map importance_weight
            (filter (fun f => String.eqb (FeatureCategory_value (RiskModel.category f)) category)
                    RISK_FEATURES)).

(** [_calculate_category_scores] *)
Definition _calculate_category_scores (features : features_t) : dict Q :=
  let category_scores :=
    fold_left (category_scores_step features) RISK_FEATURES
      (map (fun cat => (FeatureCategory_value cat, @nil Q)) FeatureCategory_members) in
  map (fun '(category, values) =>
         match values with
         | [] => (category, 0.0)
         | _ :: _ => (category, py_sum values / category_weight_sum category)
         end) category_scores.

(** *** Ranking

    [list.sort(key=..., reverse=True)] is stable: among equal keys the
    original order is kept.  Insertion from the right puts each element
    before the first later element whose key is not greater. *)

Section Sorting.
Context {A : Type} (key : A -> Q).

Fixpoint insert_desc (x : A) (l : list A) : list A :=
  match l with
  | [] => [x]
  | y :: l' => if Qltb (key x) (key y) then y :: insert_desc x l' else x :: y :: l'
  end.

Definition sort_desc (l : list A) : list A := fold_right insert_desc [] l.
End Sorting.

(** [template.format(value=text)] for the one replacement field the catalog
    uses: every occurrence of [{value}] is replaced by [text]. *)
Fixpoint format_go (text : string) (skip : nat) (t : string) : string :=
  match t with
  | EmptyString => EmptyString
  | String c rest =>
      match skip with
      | S k => format_go text k rest
      | O =>
          if String.prefix "{value}" t
          then (text ++ format_go text 6 rest)%string
          else String c (format_go text 0 rest)
      end
  end.

Definition format_value (template text : string) : string := format_go text 0 template.

Section Explain.
(** [str] of a Python [int] and of a [float], as [str.format] renders them. *)
Variable str_int : Z -> string.
Variable str_float : Q -> string.

(** [int(value) if isinstance(value, float) and value == int(value) else value],
    rendered. *)
Definition render_value (value : Q) : string :=
  if Qeq_bool value (inject_Z (py_int value)) then str_int (py_int value)
  else str_float value.

(** The body of the loop of [_identify_risk_factors] for one catalog entry:
    the factor appended, if any.  In exact arithmetic; which features pass
    the 0.3 cut in the program is stated on [RiskModel64.risk_factor_of]. *)
Definition risk_factor_of (features : features_t) (feature_def : FeatureDefinition)
    : option RiskFactor :=
  match features_get features (name feature_def) with
  | None => None
  | Some value =>
      let contribution := _normalize_risk_contribution feature_def value in
      if Qltb 0.3 contribution then
        let severity :=
          if Qltb 0.7 contribution then "high"
          else if Qltb 0.5 contribution then "medium" else "low" in
        let recommendation :=
          match recommendation_template feature_def with
          | Some t => if String.eqb t EmptyString then None
                      else Some (format_value t (render_value value))
          | None => None
          end in
        Some {| rf_feature := name feature_def;
                rf_category := category feature_def;
                rf_description := description feature_def;
                rf_current_value := VFloat value;
                rf_contribution := contribution * importance_weight feature_def;
                rf_severity := severity;
                rf_threshold :=
                  if String.eqb (risk_direction feature_def) "high_is_risk"
                  then threshold_high feature_def else threshold_low feature_def;
                rf_recommendation := recommendation |}
      else None
  end.

(** [_identify_risk_factors] *)
Definition _identify_risk_factors (features : features_t) (risk_score : Q)
    : list RiskFactor :=
  sort_desc rf_contribution (collect (risk_factor_of features) RISK_FEATURES).

(** The loop body of [_identify_protective_factors], in exact arithmetic
    (on binary64: [RiskModel64.protective_factor_of]). *)
Definition protective_factor_of (features : features_t) (feature_def : FeatureDefinition)
    : option ProtectiveFactor :=
  match features_get features (name feature_def) with
  | None => None
  | Some value =>
      let contribution := _normalize_risk_contribution feature_def value in
      if Qltb contribution 0.3 then
        Some {| pf_feature := name feature_def;
                pf_category := category feature_def;
                pf_description := description feature_def;
                pf_current_value := VFloat value;
                pf_contribution := (1 - contribution) * importance_weight feature_def |}
      else None
  end.

(** [_identify_protective_factors] *)
Definition _identify_protective_factors (features : features_t)
    : list ProtectiveFactor :=
  sort_desc pf_contribution (collect (protective_factor_of features) RISK_FEATURES).
End Explain.

(** *** Timestamps

    A naive [datetime], the text [isoformat()] gives for it and
    [datetime.fromisoformat] on the two shapes [isoformat()] emits
    ([YYYY-MM-DDTHH:MM:SS] and the same followed by [.ffffff]).  Python
    reads further shapes (another separator, a date alone, shorter times,
    offsets); they are outside this model, which answers [ValueError] for
    them, and no property below concerns them. *)

Record datetime : Type := {
  dt_year : N; dt_month : N; dt_day : N;
  dt_hour : N; dt_minute : N; dt_second : N; dt_microsecond : N
}.

Definition is_leap (y : N) : bool :=
  ((y mod 4 =? 0) && (negb (y mod 100 =? 0) || (y mod 400 =? 0)))%N.

Definition days_in_month (y m : N) : N :=
  match m with
  | 1 | 3 | 5 | 7 | 8 | 10 | 12 => 31
  | 4 | 6 | 9 | 11 => 30
  | 2 => if is_leap y then 29 else 28
  | _ => 0
  end%N.

(** The ranges the [datetime] constructor enforces. *)
Definition datetime_ok (d : datetime) : bool :=
  ((1 <=? dt_year d) && (dt_year d <=? 9999) &&
   (1 <=? dt_month d) && (dt_month d <=? 12) &&
   (1 <=? dt_day d) && (dt_day d <=? days_in_month (dt_year d) (dt_month d)) &&
   (dt_hour d <? 24) && (dt_minute d <? 60) && (dt_second d <? 60) &&
   (dt_microsecond d <? 1000000))%N.

Definition digit_char (d : N) : ascii := ascii_of_N (48 + d).

Definition digit_of (c : ascii) : option N :=
  let n := N_of_ascii c in
  if ((48 <=? n) && (n <=? 57))%N then Some (n - 48)%N else None.

(** [w] zero-padded decimal digits of [n], followed by [k]. *)
Fixpoint put_digits (w : nat) (n : N) (k : string) : string :=
  match w with
  | O => k
  | S w' => String (digit_char ((n / 10 ^ N.of_nat w') mod 10)) (put_digits w' n k)
  end.

Fixpoint read_digits (w : nat) (acc : N) (s : string) : option (N * string) :=
  match w with
  | O => Some (acc, s)
  | S w' =>
      match s with
      | String c s' =>
          match digit_of c with
          | Some d => read_digits w' (10 * acc + d) s'
          | None => None
          end
      | EmptyString => None
      end
  end.

Definition read_char (c : ascii) (s : string) : option string :=
  match s with
  | String c' s' => if Ascii.eqb c c' then Some s' else None
  | EmptyString => None
  end.

Definition isoformat (d : datetime) : string :=
  put_digits 4 (dt_year d) (String "-" (
  put_digits 2 (dt_month d) (String "-" (
  put_digits 2 (dt_day d) (String "T" (
  put_digits 2 (dt_hour d) (String ":" (
  put_digits 2 (dt_minute d) (String ":" (
  put_digits 2 (dt_second d) (
    if (dt_microsecond d =? 0)%N then EmptyString
    else String "." (put_digits 6 (dt_microsecond d) EmptyString)))))))))))).

Definition obind {A B} (m : option A) (k : A -> option B) : option B :=
  match m with Some a => k a | None => None end.

Definition parse_isoformat (s : string) : option datetime :=
  obind (read_digits 4 0 s) (fun '(y, s) =>
  obind (read_char "-" s) (fun s =>
  obind (read_digits 2 0 s) (fun '(mo, s) =>
  obind (read_char "-" s) (fun s =>
  obind (read_digits 2 0 s) (fun '(dd, s) =>
  obind (read_char "T" s) (fun s =>
  obind (read_digits 2 0 s) (fun '(h, s) =>
  obind (read_char ":" s) (fun s =>
  obind (read_digits 2 0 s) (fun '(mi, s) =>
  obind (read_char ":" s) (fun s =>
  obind (read_digits 2 0 s) (fun '(se, s) =>
  obind (match s with
         | EmptyString => Some 0%N
         | _ => obind (read_char "." s) (fun s =>
                obind (read_digits 6 0 s) (fun '(us, s) =>
                match s with EmptyString => Some us | _ => None end))
         end) (fun us =>
  let d := {| dt_year := y; dt_month := mo; dt_day := dd; dt_hour := h;
              dt_minute := mi; dt_second := se; dt_microsecond := us |} in
  if datetime_ok d then Some d else None)))))))))))).

Definition fromisoformat (s : string) : result datetime :=
  match parse_isoformat s with
  | Some d => Return d
  | None => Raise (ValueError "Invalid isoformat string")
  end.

Record RiskPrediction : Type := {
  student_id : string;
  timestamp : datetime;
  risk_score : Q;
  risk_level : RiskLevel;
  confidence : Q;
  category_scores : dict Q;
  top_risk_factors : list RiskFactor;
  protective_factors : list ProtectiveFactor;
  risk_trend : RiskTrend;
  previous_risk_score : option Q;
  score_change : option Q;
  model_version : string
}.

(** *** JSON

    The Python value [json.loads] returns and [json.dumps] takes. *)

#[warnings="-register-all"]
Inductive json : Type :=
| JNull
| JBool (b : bool)
| JNum (q : Q)
| JStr (s : string)
| JArr (items : list json)
| JObj (members : list (string * json)).

(** A text held by Redis, as [json.loads] sees it: either it rejects the
    text, or the text denotes a JSON value. *)
Inductive text : Type :=
| Unparseable (raw : string)
| Document (j : json).

Definition json_loads (t : text) : result json :=
  match t with
  | Unparseable _ => Raise JSONDecodeError
  | Document j => Return j
  end.

Definition json_dumps (j : json) : text := Document j.

(** [if cached:] on a text: only the empty text is false. *)
Definition truthy (t : text) : bool :=
  match t with
  | Unparseable EmptyString => false
  | _ => true
  end.

Definition JOpt {A} (f : A -> json) (o : option A) : json :=
  match o with Some a => f a | None => JNull end.

Definition JScalar (v : scalar) : json :=
  match v with VFloat q => JNum q | VStr s => JStr s end.

(** [obj[k]] *)
Definition obj_index (obj : json) (k : string) : result json :=
  match obj with
  | JObj d => match dict_get d k with
              | Some v => Return v
              | None => Raise (KeyError k)
              end
  | _ => Raise (TypeError "not subscriptable by str")
  end.

(** [obj.get(k)] *)
Definition obj_get (obj : json) (k : string) : result json :=
  match obj with
  | JObj d => match dict_get d k with
              | Some v => Return v
              | None => Return JNull
              end
  | _ => Raise (AttributeError "get")
  end.

(** [for f in v] *)
Definition iterate (v : json) : result (list json) :=
  match v with
  | JArr l => Return l
  | JObj d => Return (map (fun kv => JStr (fst kv)) d)
  | JStr s => Return (map (fun c => JStr (String c EmptyString)) (list_ascii_of_string s))
  | _ => Raise (TypeError "not iterable")
  end.

(** Python stores whatever value the document holds, unchecked; the
    records here are typed, so a document with a value of another type
    is outside the model and is reported as [IllTyped].  No property
    below says that the program raises on such a document. *)
Definition as_str (field : string) (v : json) : result string :=
  match v with JStr s => Return s | _ => Raise (IllTyped field) end.

Definition as_float (field : string) (v : json) : result Q :=
  match v with JNum q => Return q | _ => Raise (IllTyped field) end.

Definition as_scalar (field : string) (v : json) : result scalar :=
  match v with
  | JNum q => Return (VFloat q)
  | JStr s => Return (VStr s)
  | _ => Raise (IllTyped field)
  end.

Definition as_opt_float (field : string) (v : json) : result (option Q) :=
  match v with
  | JNull => Return None
  | JNum q => Return (Some q)
  | _ => Raise (IllTyped field)
  end.

Definition as_opt_str (field : string) (v : json) : result (option string) :=
  match v with
  | JNull => Return None
  | JStr s => Return (Some s)
  | _ => Raise (IllTyped field)
  end.

Definition as_float_dict (field : string) (v : json) : result (dict Q) :=
  match v with
  | JObj d => mapM (fun '(k, x) => q <- as_float field x ;; Return (k, q)) d
  | _ => Raise (IllTyped field)
  end.

(** [RiskLevel(v)], [RiskTrend(v)], [FeatureCategory(v)] *)
Definition RiskLevel_of (v : json) : result RiskLevel :=
  match v with
  | JStr s =>
      if String.eqb s "low" then Return LOW
      else if String.eqb s "moderate" then Return MODERATE
      else if String.eqb s "high" then Return HIGH
      else if String.eqb s "critical" then Return CRITICAL
      else Raise (ValueError "RiskLevel")
  | _ => Raise (ValueError "RiskLevel")
  end.

Definition RiskTrend_of (v : json) : result RiskTrend :=
  match v with
  | JStr s =>
      if String.eqb s "increasing" then Return INCREASING
      else if String.eqb s "stable" then Return STABLE
      else if String.eqb s "decreasing" then Return DECREASING
      else Raise (ValueError "RiskTrend")
  | _ => Raise (ValueError "RiskTrend")
  end.

Definition FeatureCategory_of (v : json) : result FeatureCategory :=
  match v with
  | JStr s =>
      if String.eqb s "academic" then Return ACADEMIC
      else if String.eqb s "engagement" then Return ENGAGEMENT
      else if String.eqb s "behavioral" then Return BEHAVIORAL
      else if String.eqb s "temporal" then Return TEMPORAL
      else Raise (ValueError "FeatureCategory")
  | _ => Raise (ValueError "FeatureCategory")
  end.

(** [datetime.fromisoformat(v)] *)
Definition datetime_of (v : json) : result datetime :=
  match v with
  | JStr s => fromisoformat s
  | _ => Raise (TypeError "fromisoformat: argument must be str")
  end.

(** [_calculate_trend], in exact arithmetic (on binary64:
    [RiskModel64._calculate_trend]). *)
Definition _calculate_trend (current_score : Q) (previous_score : option Q)
    : RiskTrend * option Q :=
  match previous_score with
  | None => (STABLE, None)
  | Some previous =>
      let change := current_score - previous in
      if Qltb 0.05 change then (INCREASING, Some change)
      else if Qltb change (-0.05) then (DECREASING, Some change)
      else (STABLE, Some change)
  end.

(** *** Serialization *)

Definition serialize_risk_factor (f : RiskFactor) : json :=
  JObj [
    ("feature", JStr (rf_feature f));
    ("category", JStr (FeatureCategory_value (rf_category f)));
    ("description", JStr (rf_description f));
    ("current_value", JScalar (rf_current_value f));
    ("contribution", JNum (rf_contribution f));
    ("severity", JStr (rf_severity f));
    ("threshold", JOpt JNum (rf_threshold f));
    ("recommendation", JOpt JStr (rf_recommendation f))
  ].

Definition serialize_protective_factor (f : ProtectiveFactor) : json :=
  JObj [
    ("feature", JStr (pf_feature f));
    ("category", JStr (FeatureCategory_value (pf_category f)));
    ("description", JStr (pf_description f));
    ("current_value", JScalar (pf_current_value f));
    ("contribution", JNum (pf_contribution f))
  ].

(** [_serialize_prediction] *)
Definition _serialize_prediction (prediction : RiskPrediction) : text :=
  json_dumps (JObj [
    ("student_id", JStr (student_id prediction));
    ("timestamp", JStr (isoformat (timestamp prediction)));
    ("risk_score", JNum (risk_score prediction));
    ("risk_level", JStr (RiskLevel_value (risk_level prediction)));
    ("confidence", JNum (confidence prediction));
    ("category_scores",
       JObj (map (fun kv => (fst kv, JNum (snd kv))) (category_scores prediction)));
    ("top_risk_factors", JArr (map serialize_risk_factor (top_risk_factors prediction)));
    ("protective_factors",
       JArr (map serialize_protective_factor (protective_factors prediction)));
    ("risk_trend", JStr (RiskTrend_value (risk_trend prediction)));
    ("previous_risk_score", JOpt JNum (previous_risk_score prediction));
    ("score_change", JOpt JNum (score_change prediction));
    ("model_version", JStr (model_version prediction))
  ]).

Definition deserialize_risk_factor (f : json) : result RiskFactor :=
  feature <- obj_index f "feature" ;;
  feature <- as_str "feature" feature ;;
  category <- obj_index f "category" ;;
  category <- FeatureCategory_of category ;;
  description <- obj_index f "description" ;;
  description <- as_str "description" description ;;
  current_value <- obj_index f "current_value" ;;
  current_value <- as_scalar "current_value" current_value ;;
  contribution <- obj_index f "contribution" ;;
  contribution <- as_float "contribution" contribution ;;
  severity <- obj_index f "severity" ;;
  severity <- as_str "severity" severity ;;
  threshold <- obj_get f "threshold" ;;
  threshold <- as_opt_float "threshold" threshold ;;
  recommendation <- obj_get f "recommendation" ;;
  recommendation <- as_opt_str "recommendation" recommendation ;;
  Return {| rf_feature := feature; rf_category := category;
            rf_description := description; rf_current_value := current_value;
            rf_contribution := contribution; rf_severity := severity;
            rf_threshold := threshold; rf_recommendation := recommendation |}.

Definition deserialize_protective_factor (f : json) : result ProtectiveFactor :=
  feature <- obj_index f "feature" ;;
  feature <- as_str "feature" feature ;;
  category <- obj_index f "category" ;;
  category <- FeatureCategory_of category ;;
  description <- obj_index f "description" ;;
  description <- as_str "description" description ;;
  current_value <- obj_index f "current_value" ;;
  current_value <- as_scalar "current_value" current_value ;;
  contribution <- obj_index f "contribution" ;;
  contribution <- as_float "contribution" contribution ;;
  Return {| pf_feature := feature; pf_category := category;
            pf_description := description; pf_current_value := current_value;
            pf_contribution := contribution |}.

(** [_deserialize_prediction] *)
Definition _deserialize_prediction (data : text) : result RiskPrediction :=
  obj <- json_loads data ;;
  student_id <- obj_index obj "student_id" ;;
  student_id <- as_str "student_id" student_id ;;
  timestamp <- obj_index obj "timestamp" ;;
  timestamp <- datetime_of timestamp ;;
  risk_score <- obj_index obj "risk_score" ;;
  risk_score <- as_float "risk_score" risk_score ;;
  risk_level <- obj_index obj "risk_level" ;;
  risk_level <- RiskLevel_of risk_level ;;
  confidence <- obj_index obj "confidence" ;;
  confidence <- as_float "confidence" confidence ;;
  category_scores <- obj_index obj "category_scores" ;;
  category_scores <- as_float_dict "category_scores" category_scores ;;
  risk_factors <- obj_index obj "top_risk_factors" ;;
  risk_factors <- iterate risk_factors ;;
  top_risk_factors <- mapM deserialize_risk_factor risk_factors ;;
  protective <- obj_index obj "protective_factors" ;;
  protective <- iterate protective ;;
  protective_factors <- mapM deserialize_protective_factor protective ;;
  risk_trend <- obj_index obj "risk_trend" ;;
  risk_trend <- RiskTrend_of risk_trend ;;
  previous_risk_score <- obj_get obj "previous_risk_score" ;;
  previous_risk_score <- as_opt_float "previous_risk_score" previous_risk_score ;;
  score_change <- obj_get obj "score_change" ;;
  score_change <- as_opt_float "score_change" score_change ;;
  model_version <- obj_index obj "model_version" ;;
  model_version <- as_str "model_version" model_version ;;
  Return {| student_id := student_id; timestamp := timestamp;
            risk_score := risk_score; risk_level := risk_level;
            confidence := confidence; category_scores := category_scores;
            top_risk_factors := top_risk_factors;
            protective_factors := protective_factors;
            risk_trend := risk_trend;
            previous_risk_score := previous_risk_score;
            score_change := score_change; model_version := model_version |}.

(** *** The Redis store

    String keys ([get] / [setex]) and list keys ([lindex] / [lpush] /
    [ltrim]); expiry is not modelled. *)

Record redis_t : Type := {
  strings : dict text;
  lists : dict (list text)
}.

Definition redis_get (r : redis_t) (k : string) : option text := dict_get (strings r) k.

Definition redis_setex (r : redis_t) (k : string) (ttl : Z) (v : text) : redis_t :=
  {| strings := dict_set (strings r) k v; lists := lists r |}.

Definition redis_list (r : redis_t) (k : string) : list text :=
  match dict_get (lists r) k with Some l => l | None => [] end.

Definition redis_lindex0 (r : redis_t) (k : string) : option text :=
  hd_error (redis_list r k).

Definition redis_lpush (r : redis_t) (k : string) (v : text) : redis_t :=
  {| strings := strings r; lists := dict_set (lists r) k (v :: redis_list r k) |}.

(** [ltrim(k, 0, stop)] *)
Definition redis_ltrim0 (r : redis_t) (k : string) (stop : nat) : redis_t :=
  {| strings := strings r;
     lists := dict_set (lists r) k (firstn (S stop) (redis_list r k)) |}.

Definition MODEL_VERSION : string := "1.0.0".
Definition CACHE_TTL_SECONDS : Z := 3600.

Definition key3 (prefix a b : string) : string :=
  (prefix ++ ":" ++ a ++ ":" ++ b)%string.

(** [_get_previous_prediction] *)
Definition _get_previous_prediction (redis : option redis_t)
    (student_id tenant_id : string) : result (option Q) :=
  match redis with
  | None => Return None
  | Some r =>
      let history_key := key3 "risk_history" tenant_id student_id in
      match redis_lindex0 r history_key with
      | Some previous =>
          if truthy previous then
            data <- json_loads previous ;;
            v <- obj_get data "risk_score" ;;
            as_opt_float "risk_score" v
          else Return None
      | None => Return None
      end
  end.

(** [_store_prediction] *)
Definition _store_prediction (redis : option redis_t) (prediction : RiskPrediction)
    (tenant_id : string) : option redis_t :=
  match redis with
  | None => None
  | Some r =>
      let history_key := key3 "risk_history" tenant_id (student_id prediction) in
      let data := JObj [
        ("risk_score", JNum (risk_score prediction));
        ("risk_level", JStr (RiskLevel_value (risk_level prediction)));
        ("timestamp", JStr (isoformat (timestamp prediction)))
      ] in
      Some (redis_ltrim0 (redis_lpush r history_key (json_dumps data)) history_key 29)
  end.

(** [_fetch_student_features]: the placeholder returns an empty dict. *)
Definition _fetch_student_features (student_id tenant_id : string) : features_t := [].

Section Predict.
Variable str_int : Z -> string.
Variable str_float : Q -> string.
(** [self.scaler.transform] followed by [self.model.predict_proba(..)[0][1]]. *)
Variable score : list Q -> result Q.

(** What [predict_risk] computes when it does not answer from the cache. *)
Definition compute_prediction (redis : option redis_t) (now : datetime)
    (student_id tenant_id : string) (features : option features_t)
    : result RiskPrediction :=
  let features :=
    match features with
    | Some f => f
    | None => _fetch_student_features student_id tenant_id
    end in
  let feature_vector := _prepare_features features in
  risk_prob <- score feature_vector ;;
  let risk_level := _get_risk_level risk_prob in
  let confidence := _calculate_confidence features risk_prob in
  let category_scores := _calculate_category_scores features in
  let risk_factors := _identify_risk_factors str_int str_float features risk_prob in
  let protective_factors := _identify_protective_factors features in
  previous <- _get_previous_prediction redis student_id tenant_id ;;
  let '(risk_trend, score_change) := _calculate_trend risk_prob previous in
  Return {| student_id := student_id;
            timestamp := now;
            risk_score := risk_prob;
            risk_level := risk_level;
            confidence := confidence;
            category_scores := category_scores;
            top_risk_factors := firstn 5 risk_factors;
            protective_factors := firstn 3 protective_factors;
            risk_trend := risk_trend;
            previous_risk_score := previous;
            score_change := score_change;
            model_version := MODEL_VERSION |}.

(** [predict_risk]: the prediction returned and the store afterwards. *)
Definition predict_risk (redis : option redis_t) (now : datetime)
    (student_id tenant_id : string) (features : option features_t)
    : result (RiskPrediction * option redis_t) :=
  let cache_key := key3 "risk_prediction" tenant_id student_id in
  let cached :=
    match redis with
    | Some r => match redis_get r cache_key with
                | Some c => if truthy c then Some c else None
                | None => None
                end
    | None => None
    end in
  match cached with
  | Some c =>
      prediction <- _deserialize_prediction c ;;
      Return (prediction, redis)
  | None =>
      prediction <- compute_prediction redis now student_id tenant_id features ;;
      let redis :=
        match redis with
        | Some r => Some (redis_setex r cache_key CACHE_TTL_SECONDS
                            (_serialize_prediction prediction))
        | None => None
        end in
      Return (prediction, _store_prediction redis prediction tenant_id)
  end.
End Predict.

Section Batch.
Variable str_int : Z -> string.
Variable str_float : Q -> string.
Variable score : list Q -> result Q.
(** [datetime.utcnow()] as read by the call for the student at a position
    of [student_ids]. *)
Variable clock : nat -> datetime.
Variable tenant_id : string.

(** The loop of [predict_risk_batch] from position [i] on: a student whose
    prediction raises is logged and left out. *)
Fixpoint batch_loop (student_ids : list string) (i : nat) (redis : option redis_t)
    (results : dict RiskPrediction) : dict RiskPrediction * option redis_t :=
  match student_ids with
  | [] => (results, redis)
  | student_id :: rest =>
      match predict_risk str_int str_float score redis (clock i) student_id tenant_id None with
      | Return (prediction, redis') =>
          batch_loop rest (S i) redis' (dict_set results student_id prediction)
      | Raise _ => batch_loop rest (S i) redis results
      end
  end.

(** [predict_risk_batch] *)
Definition predict_risk_batch (redis : option redis_t) (student_ids : list string)
    : dict RiskPrediction * option redis_t :=
  batch_loop student_ids 0 redis [].
End Batch.

(** *** Identifiers in log lines

    A character of a string is a code point below 256. *)

(** The class [[a-zA-Z0-9_-]]. *)
Definition allowed_char (c : ascii) : bool :=
  let n := N_of_ascii c in
  ((97 <=? n) && (n <=? 122) || (65 <=? n) && (n <=? 90)
   || (48 <=? n) && (n <=? 57) || (n =? 95) || (n =? 45))%N.

(** [s[:n]] *)
Fixpoint take (n : nat) (s : string) : string :=
  match n, s with
  | S n', String c s' => String c (take n' s')
  | _, _ => EmptyString
  end.

(** [re.sub(r'[^a-zA-Z0-9_-]', '', s)] *)
Fixpoint keep_allowed (s : string) : string :=
  match s with
  | EmptyString => EmptyString
  | String c s' => if allowed_char c then String c (keep_allowed s') else keep_allowed s'
  end.

(** [_sanitize_id] *)
Definition _sanitize_id (identifier : string) : string :=
  match identifier with
  | EmptyString => "<empty>"
  | _ =>
      match keep_allowed (take 128 identifier) with
      | EmptyString => "<invalid>"
      | sanitized => sanitized
      end
  end.

End RiskModel.

Module BiasDetection.

(** *** Enumerations *)

Inductive FairnessMetric : Type :=
| STATISTICAL_PARITY | EQUALIZED_ODDS | DISPARATE_IMPACT
| CALIBRATION | FALSE_POSITIVE_RATE | FALSE_NEGATIVE_RATE.

Inductive BiasSeverity : Type := NONE | LOW | MODERATE | HIGH | CRITICAL.

Inductive ProtectedAttribute : Type :=
| RACE_ETHNICITY | GENDER | SOCIOECONOMIC_STATUS
| DISABILITY_STATUS | ENGLISH_LEARNER | GRADE_LEVEL.

Definition FairnessMetric_value (m : FairnessMetric) : string :=
  match m with
  | STATISTICAL_PARITY => "statistical_parity"
  | EQUALIZED_ODDS => "equalized_odds"
  | DISPARATE_IMPACT => "disparate_impact"
  | CALIBRATION => "calibration"
  | FALSE_POSITIVE_RATE => "false_positive_rate"
  | FALSE_NEGATIVE_RATE => "false_negative_rate"
  end.

Definition BiasSeverity_value (s : BiasSeverity) : string :=
  match s with
  | NONE => "none" | LOW => "low" | MODERATE => "moderate"
  | HIGH => "high" | CRITICAL => "critical"
  end.

Definition ProtectedAttribute_value (a : ProtectedAttribute) : string :=
  match a with
  | RACE_ETHNICITY => "race_ethnicity"
  | GENDER => "gender"
  | SOCIOECONOMIC_STATUS => "socioeconomic_status"
  | DISABILITY_STATUS => "disability_status"
  | ENGLISH_LEARNER => "english_learner"
  | GRADE_LEVEL => "grade_level"
  end.

(** Iteration order of [for attr in ProtectedAttribute]. *)
Definition ProtectedAttribute_members : list ProtectedAttribute :=
  [RACE_ETHNICITY; GENDER; SOCIOECONOMIC_STATUS;
   DISABILITY_STATUS; ENGLISH_LEARNER; GRADE_LEVEL].

Definition BiasSeverity_eqb (a b : BiasSeverity) : bool :=
  match a, b with
  | NONE, NONE | LOW, LOW | MODERATE, MODERATE | HIGH, HIGH | CRITICAL, CRITICAL => true
  | _, _ => false
  end.

Definition ProtectedAttribute_eqb (a b : ProtectedAttribute) : bool :=
  match a, b with
  | RACE_ETHNICITY, RACE_ETHNICITY | GENDER, GENDER
  | SOCIOECONOMIC_STATUS, SOCIOECONOMIC_STATUS
  | DISABILITY_STATUS, DISABILITY_STATUS
  | ENGLISH_LEARNER, ENGLISH_LEARNER | GRADE_LEVEL, GRADE_LEVEL => true
  | _, _ => false
  end.

(** *** Records *)

Record GroupStatistics : Type := {
  group_name : string;
  sample_size : nat;
  mean_prediction : Q;
  std_prediction : Q;
  positive_rate : Q;
  true_positive_rate : option Q;
  false_positive_rate : option Q;
  false_negative_rate : option Q;
  calibration_error : option Q
}.

Record FairnessResult : Type := {
  metric : FairnessMetric;
  attribute : ProtectedAttribute;
  reference_group : string;
  comparison_group : string;
  reference_value : Q;
  comparison_value : Q;
  difference : Q;
  ratio : option Q;
  p_value : option Q;
  is_significant : bool;
  severity : BiasSeverity;
  explanation : string
}.

(** [BiasReport]; the report id, the timestamps and the recommendation
    texts are left out. *)
Record BiasReport : Type := {
  tenant_id : string;
  model_version : string;
  total_predictions : nat;
  demographic_coverage : dict nat;
  fairness_results : list FairnessResult;
  group_statistics : dict (list GroupStatistics);
  overall_bias_severity : BiasSeverity;
  requires_review : bool;
  confidence_score : Q
}.

(** One element of [predictions]:
    [{"student_id": str, "risk_score": float, "demographics": dict}];
    the [demographics] key may be missing and a demographic value may be
    [None]. *)
Record prediction : Type := {
  student_id : string;
  risk_score : Q;
  demographics : option (dict (option string))
}.

(** [p.get("demographics", {}).get(attr.value)] *)
Definition demographic (p : prediction) (attr : ProtectedAttribute) : option string :=
  match demographics p with
  | None => None
  | Some d => match dict_get d (ProtectedAttribute_value attr) with
              | Some (Some v) => Some v
              | _ => None
              end
  end.

(** *** Thresholds *)

Definition parity_table : dict Q :=
  [("low", 0.05); ("moderate", 0.10); ("high", 0.15); ("critical", 0.20)].

Definition BIAS_THRESHOLDS (m : FairnessMetric) : option (dict Q) :=
  match m with
  | STATISTICAL_PARITY => Some parity_table
  | DISPARATE_IMPACT =>
      Some [("low", 0.90); ("moderate", 0.85); ("high", 0.80); ("critical", 0.70)]
  | EQUALIZED_ODDS => Some parity_table
  | FALSE_POSITIVE_RATE => Some parity_table
  | FALSE_NEGATIVE_RATE => Some parity_table
  | CALIBRATION => None
  end.

Definition MINIMUM_GROUP_SIZE : nat := 30.
Definition SIGNIFICANCE_LEVEL : Q := 0.05.

(** [difference >= thresholds.get(k, float("inf"))] *)
Definition reaches (difference : Q) (thresholds : dict Q) (k : string) : bool :=
  match dict_get thresholds k with
  | Some t => Qle_bool t difference
  | None => false
  end.

(** [_get_severity] *)
Definition _get_severity (metric : FairnessMetric) (difference : Q) : BiasSeverity :=
  let thresholds := match BIAS_THRESHOLDS metric with Some t => t | None => [] end in
  if reaches difference thresholds "critical" then CRITICAL
  else if reaches difference thresholds "high" then HIGH
  else if reaches difference thresholds "moderate" then MODERATE
  else if reaches difference thresholds "low" then LOW
  else NONE.

(** [ratio <= thresholds[k]] on the disparate-impact table. *)
Definition within (ratio : Q) (thresholds : dict Q) (k : string) : bool :=
  match dict_get thresholds k with
  | Some t => Qle_bool ratio t
  | None => false
  end.

(** [_get_severity_di] *)
Definition _get_severity_di (ratio : Q) : BiasSeverity :=
  let thresholds := match BIAS_THRESHOLDS DISPARATE_IMPACT with Some t => t | None => [] end in
  if within ratio thresholds "critical" then CRITICAL
  else if within ratio thresholds "high" then HIGH
  else if within ratio thresholds "moderate" then MODERATE
  else if within ratio thresholds "low" then LOW
  else NONE.

(** *** Grouping *)

(** [groups[value].append(pred)] on a [defaultdict(list)]: a new key is
    added at the end. *)
Fixpoint defaultdict_append {V} (d : dict (list V)) (k : string) (x : V) : dict (list V) :=
  match d with
  | [] => [(k, [x])]
  | (k', l) :: d' =>
      if String.eqb k' k then (k', l ++ [x]) :: d'
      else (k', l) :: defaultdict_append d' k x
  end.

(** [grouped[a][value].append(pred)] *)
Fixpoint grouped_append {V} (g : dict (dict (list V))) (a value : string) (x : V)
    : dict (dict (list V)) :=
  match g with
  | [] => []
  | (a', groups) :: g' =>
      if String.eqb a' a then (a', defaultdict_append groups value x) :: g'
      else (a', groups) :: grouped_append g' a value x
  end.

Definition grouped_t : Type := dict (dict (list prediction)).

(** The body of the outer loop of [_group_by_demographics]. *)
Definition group_step (grouped : grouped_t) (pred : prediction) : grouped_t :=
  fold_left (fun g attr =>
               match demographic pred attr with
               | Some value => grouped_append g (ProtectedAttribute_value attr) value pred
               | None => g
               end) ProtectedAttribute_members grouped.

(** [_group_by_demographics] *)
Definition _group_by_demographics (predictions : list prediction) : grouped_t :=
  fold_left group_step predictions
    (map (fun attr => (ProtectedAttribute_value attr, @nil (string * list prediction)))
         ProtectedAttribute_members).

(** *** Counting helpers *)

Definition np_mean (l : list Q) : Q := py_sum l / Qof_nat (List.length l).

Definition Qofbool (b : bool) : Q := if b then 1 else 0.

(** [_calculate_demographic_coverage] *)
Definition _calculate_demographic_coverage (predictions : list prediction) : dict nat :=
  map (fun attr =>
         (ProtectedAttribute_value attr,
          count (fun p => match demographic p attr with Some _ => true | None => false end)
                predictions))
      ProtectedAttribute_members.

(** [_determine_overall_severity] *)
Definition _determine_overall_severity (results : list FairnessResult) : BiasSeverity :=
  match results with
  | [] => NONE
  | _ =>
      let severities := map severity (filter is_significant results) in
      match severities with
      | [] => NONE
      | _ =>
          let severity_order := [CRITICAL; HIGH; MODERATE; LOW] in
          match find (fun sev => existsb (BiasSeverity_eqb sev) severities) severity_order with
          | Some sev => sev
          | None => NONE
          end
      end
  end.

(** The groups of one attribute that reach the minimum size. *)
Definition valid_groups_of (groups : dict (list prediction)) : dict (list prediction) :=
  filter (fun kv => (MINIMUM_GROUP_SIZE <=? List.length (snd kv))%nat) groups.

(** [_calculate_confidence] *)
Definition _calculate_confidence (predictions : list prediction) (grouped_data : grouped_t)
    : Q :=
  let total := List.length predictions in
  if (total <? 100)%nat then 0.3
  else
    let coverage_scores :=
      map (fun attr =>
             let groups :=
               match dict_get grouped_data (ProtectedAttribute_value attr) with
               | Some g => g
               | None => []
               end in
             let valid_groups :=
               count (fun v => (MINIMUM_GROUP_SIZE <=? List.length v)%nat)
                     (dict_values groups) in
             Qmin (Qof_nat valid_groups / 3) 1.0)
          ProtectedAttribute_members in
    let avg_coverage := np_mean coverage_scores in
    let size_factor := Qmin (Qof_nat total / 1000) 1.0 in
    0.4 * size_factor + 0.6 * avg_coverage.

(** [s.replace("_", " ")] *)
Fixpoint underscores_to_spaces (s : string) : string :=
  match s with
  | EmptyString => EmptyString
  | String c s' =>
      String (if Ascii.eqb c "_" then " "%char else c) (underscores_to_spaces s')
  end.

Section Analysis.
(** [math.sqrt] (also inside [np.std]) and [scipy.stats.norm.cdf]. *)
Variable sqrt : Q -> Q.
Variable norm_cdf : Q -> Q.
(** The f-string conversions [{x:.1f}] and [{x:.2f}]. *)
Variable fmt_1f : Q -> string.
Variable fmt_2f : Q -> string.

Definition np_std (l : list Q) : Q :=
  let m := np_mean l in
  sqrt (np_mean (map (fun x => Qabs (x - m) * Qabs (x - m)) l)).

(** The body of the loop of [_calculate_group_statistics]. *)
Definition group_statistics_of (outcome_map : dict bool)
    (group_name : string) (predictions : list prediction) : GroupStatistics :=
  let scores := map risk_score predictions in
  let mean_pred := np_mean scores in
  let std_pred := np_std scores in
  let positive_rate :=
    Qof_nat (count (fun s => Qle_bool 0.5 s) scores) / Qof_nat (List.length scores) in
  let matched :=
    match outcome_map with
    | [] => []
    | _ => collect
             (fun p => match dict_get outcome_map (student_id p) with
                       | Some a => Some (risk_score p, a)
                       | None => None
                       end) predictions
    end in
  let actual_positives := filter (fun a => a) (map snd matched) in
  let actual_negatives := filter negb (map snd matched) in
  let rate (f : Q * bool -> bool) (among : list bool) : option Q :=
    match among with
    | [] => None
    | _ => Some (Qof_nat (count f matched) / Qof_nat (List.length among))
    end in
  {| group_name := group_name;
     sample_size := List.length predictions;
     mean_prediction := mean_pred;
     std_prediction := std_pred;
     positive_rate := positive_rate;
     true_positive_rate :=
       rate (fun pa => Qle_bool 0.5 (fst pa) && snd pa) actual_positives;
     false_positive_rate :=
       rate (fun pa => Qle_bool 0.5 (fst pa) && negb (snd pa)) actual_negatives;
     false_negative_rate :=
       rate (fun pa => negb (Qle_bool 0.5 (fst pa)) && snd pa) actual_positives;
     calibration_error :=
       if (10 <=? List.length matched)%nat
       then Some (Qabs (np_mean (map fst matched)
                        - np_mean (map (fun pa => Qofbool (snd pa)) matched)))
       else None |}.

(** [_calculate_group_statistics] *)
Definition _calculate_group_statistics (groups : dict (list prediction))
    (outcome_map : dict bool) : list GroupStatistics :=
  map (fun kv => group_statistics_of outcome_map (fst kv) (snd kv)) groups.

(** [_generate_explanation] *)
Definition _generate_explanation (metric : FairnessMetric)
    (attribute : ProtectedAttribute) (reference_group comparison_group : string)
    (reference_value comparison_value : Q) (severity : BiasSeverity) : string :=
  let attr_name := underscores_to_spaces (ProtectedAttribute_value attribute) in
  let diff_pct := Qabs (reference_value - comparison_value) * 100 in
  let higher_group :=
    if Qltb comparison_value reference_value
    then reference_group else comparison_group in
  (match metric with
   | STATISTICAL_PARITY =>
       "High-risk prediction rates differ by " ++ fmt_1f diff_pct ++ "% between "
       ++ attr_name ++ " groups. The " ++ higher_group
       ++ " group has a higher rate of high-risk classifications. Severity: "
       ++ BiasSeverity_value severity ++ "."
   | DISPARATE_IMPACT =>
       if Qltb 0 reference_value then
         "Disparate impact ratio is " ++ fmt_2f (comparison_value / reference_value)
         ++ " for " ++ attr_name ++ ". A ratio below 0.80 may indicate bias. Severity: "
         ++ BiasSeverity_value severity ++ "."
       else "Cannot calculate disparate impact - reference group rate is zero."
   | FALSE_POSITIVE_RATE =>
       "False positive rates differ by " ++ fmt_1f diff_pct ++ "% between "
       ++ attr_name
       ++ " groups. This means one group may be incorrectly flagged as high-risk more often. Severity: "
       ++ BiasSeverity_value severity ++ "."
   | FALSE_NEGATIVE_RATE =>
       "False negative rates differ by " ++ fmt_1f diff_pct ++ "% between "
       ++ attr_name ++ " groups. The " ++ higher_group
       ++ " group may have at-risk students missed more often. Severity: "
       ++ BiasSeverity_value severity ++ "."
   | _ =>
       "Fairness metric " ++ FairnessMetric_value metric ++ " analyzed for "
       ++ attr_name ++ ". Severity: " ++ BiasSeverity_value severity ++ "."
   end)%string.

(** [_evaluate_statistical_parity] in exact arithmetic, as [analyze_bias]
    calls it: on groups of at least [MINIMUM_GROUP_SIZE] members with
    rates in [0,1].  The exceptions of the function on other arguments
    and its table cuts are modelled in
    [BiasDetection64._evaluate_statistical_parity]. *)
Definition _evaluate_statistical_parity (attribute : ProtectedAttribute)
    (reference comparison : GroupStatistics) : FairnessResult :=
  let diff := Qabs (positive_rate reference - positive_rate comparison) in
  let n1 := Qof_nat (sample_size reference) in
  let n2 := Qof_nat (sample_size comparison) in
  let p1 := positive_rate reference in
  let p2 := positive_rate comparison in
  let p_pool := (p1 * n1 + p2 * n2) / (n1 + n2) in
  let se := sqrt (p_pool * (1 - p_pool) * (1 / n1 + 1 / n2)) in
  let z_stat := if Qltb 0 se then (p1 - p2) / se else 0 in
  let p_value := 2 * (1 - norm_cdf (Qabs z_stat)) in
  let severity := _get_severity STATISTICAL_PARITY diff in
  let is_significant :=
    Qltb p_value SIGNIFICANCE_LEVEL && negb (BiasSeverity_eqb severity NONE) in
  {| metric := STATISTICAL_PARITY;
     attribute := attribute;
     reference_group := group_name reference;
     comparison_group := group_name comparison;
     reference_value := positive_rate reference;
     comparison_value := positive_rate comparison;
     difference := diff;
     ratio := if Qltb 0 (positive_rate reference)
              then Some (positive_rate comparison / positive_rate reference)
              else None;
     p_value := Some p_value;
     is_significant := is_significant;
     severity := severity;
     explanation :=
       _generate_explanation STATISTICAL_PARITY attribute
         (group_name reference) (group_name comparison)
         (positive_rate reference) (positive_rate comparison) severity |}.

(** [_evaluate_disparate_impact] in exact arithmetic (on binary64:
    [BiasDetection64._evaluate_disparate_impact]). *)
Definition _evaluate_disparate_impact (attribute : ProtectedAttribute)
    (reference comparison : GroupStatistics) : FairnessResult :=
  let ratio :=
    if Qltb 0 (positive_rate reference)
    then Some (positive_rate comparison / positive_rate reference)
    else None in
  let normalized_ratio :=
    match ratio with
    | Some r => if Qltb 0 r then Qmin r (1 / r) else 0
    | None => 0
    end in
  let severity := _get_severity_di normalized_ratio in
  {| metric := DISPARATE_IMPACT;
     attribute := attribute;
     reference_group := group_name reference;
     comparison_group := group_name comparison;
     reference_value := positive_rate reference;
     comparison_value := positive_rate comparison;
     difference := Qabs (positive_rate reference - positive_rate comparison);
     ratio := ratio;
     p_value := None;
     is_significant := negb (BiasSeverity_eqb severity NONE);
     severity := severity;
     explanation :=
       _generate_explanation DISPARATE_IMPACT attribute
         (group_name reference) (group_name comparison)
         (positive_rate reference) (positive_rate comparison) severity |}.

(** One sub-check of [_evaluate_equalized_odds]. *)
Definition rate_gap (m : FairnessMetric) (attribute : ProtectedAttribute)
    (reference comparison : GroupStatistics) (ref_rate cmp_rate : option Q)
    : list FairnessResult :=
  match ref_rate, cmp_rate with
  | Some r, Some c =>
      let diff := Qabs (r - c) in
      let severity := _get_severity m diff in
      [{| metric := m;
          attribute := attribute;
          reference_group := group_name reference;
          comparison_group := group_name comparison;
          reference_value := r;
          comparison_value := c;
          difference := diff;
          ratio := None;
          p_value := None;
          is_significant := negb (BiasSeverity_eqb severity NONE);
          severity := severity;
          explanation :=
            _generate_explanation m attribute
              (group_name reference) (group_name comparison) r c severity |}]
  | _, _ => []
  end.

(** [_evaluate_equalized_odds] *)
Definition _evaluate_equalized_odds (attribute : ProtectedAttribute)
    (reference comparison : GroupStatistics) : list FairnessResult :=
  rate_gap FALSE_POSITIVE_RATE attribute reference comparison
    (false_positive_rate reference) (false_positive_rate comparison)
  ++ rate_gap FALSE_NEGATIVE_RATE attribute reference comparison
    (false_negative_rate reference) (false_negative_rate comparison).

(** [max(valid_groups.keys(), key=lambda k: len(valid_groups[k]))]: the
    first key of maximal size. *)
Fixpoint largest_group (best : string * list prediction)
    (rest : dict (list prediction)) : string :=
  match rest with
  | [] => fst best
  | kv :: rest' =>
      if (List.length (snd best) <? List.length (snd kv))%nat
      then largest_group kv rest' else largest_group best rest'
  end.

(** [outcome_map = {o["student_id"]: o["actual_outcome"] for o in outcomes}] *)
Definition outcome_map_of (outcomes : option (list (string * bool))) : dict bool :=
  match outcomes with
  | None => []
  | Some os => fold_left (fun m o => dict_set m (fst o) (snd o)) os []
  end.

(** The comparisons of one group against the reference group. *)
Definition compare_group (outcome_map : dict bool) (attribute : ProtectedAttribute)
    (reference_stats stats : GroupStatistics) : list FairnessResult :=
  [_evaluate_statistical_parity attribute reference_stats stats;
   _evaluate_disparate_impact attribute reference_stats stats]
  ++ match outcome_map with
     | [] => []
     | _ => _evaluate_equalized_odds attribute reference_stats stats
     end.

(** The body of the loop over [ProtectedAttribute] in [analyze_bias]. *)
Definition analyze_attribute (grouped_data : grouped_t) (outcome_map : dict bool)
    (acc : list FairnessResult * dict (list GroupStatistics))
    (attribute : ProtectedAttribute)
    : list FairnessResult * dict (list GroupStatistics) :=
  let '(all_results, all_group_stats) := acc in
  match dict_get grouped_data (ProtectedAttribute_value attribute) with
  | None => acc
  | Some groups =>
      let valid_groups := valid_groups_of groups in
      if (List.length valid_groups <? 2)%nat then acc
      else
        let group_stats := _calculate_group_statistics valid_groups outcome_map in
        let all_group_stats :=
          dict_set all_group_stats (ProtectedAttribute_value attribute) group_stats in
        match valid_groups with
        | [] => (all_results, all_group_stats)
        | first :: others =>
            let reference_group := largest_group first others in
            match find (fun g => String.eqb (group_name g) reference_group) group_stats with
            | None => (all_results, all_group_stats)
            | Some reference_stats =>
                (all_results ++
                 flat_map (fun stats =>
                             if String.eqb (group_name stats) reference_group then []
                             else compare_group outcome_map attribute reference_stats stats)
                          group_stats,
                 all_group_stats)
            end
        end
  end.

(** [analyze_bias]: the report returned. *)
Definition analyze_bias (tenant_id model_version : string)
    (predictions : list prediction) (outcomes : option (list (string * bool)))
    : BiasReport :=
  let grouped_data := _group_by_demographics predictions in
  let outcome_map := outcome_map_of outcomes in
  let '(all_results, all_group_stats) :=
    fold_left (analyze_attribute grouped_data outcome_map)
              ProtectedAttribute_members ([], []) in
  let coverage := _calculate_demographic_coverage predictions in
  let overall_severity := _determine_overall_severity all_results in
  let requires_review :=
    BiasSeverity_eqb overall_severity HIGH || BiasSeverity_eqb overall_severity CRITICAL in
  let confidence := _calculate_confidence predictions grouped_data in
  {| tenant_id := tenant_id;
     model_version := model_version;
     total_predictions := List.length predictions;
     demographic_coverage := coverage;
     fairness_results := all_results;
     group_statistics := all_group_stats;
     overall_bias_severity := overall_severity;
     requires_review := requires_review;
     confidence_score := confidence |}.
End Analysis.

End BiasDetection.

(** ** Specification-side definitions *)

Module RiskSpec.
Import RiskModel.

Definition present (features : features_t) (f : FeatureDefinition) : bool :=
  match features_get features (name f) with Some _ => true | None => false end.

(** The catalog features of a category, and those present in the map. *)
Definition catalog_of (c : FeatureCategory) : list FeatureDefinition :=
  filter (fun f => FeatureCategory_eqb (category f) c) RISK_FEATURES.

Definition present_of (features : features_t) (c : FeatureCategory)
    : list FeatureDefinition :=
  filter (present features) (catalog_of c).

(** [contribution * importance_weight] of a feature of the map. *)
Definition weighted_contribution (features : features_t) (f : FeatureDefinition) : Q :=
  match features_get features (name f) with
  | Some value => _normalize_risk_contribution f value * importance_weight f
  | None => 0
  end.

(** The category score of the specification: the weighted contributions
    of the present features of the category, over the weights of all
    catalog features of the category. *)
Definition category_score (features : features_t) (c : FeatureCategory) : Q :=
  Qsum (map (weighted_contribution features) (present_of features c))
  / Qsum (map importance_weight (catalog_of c)).

(** Descending order of a ranking key. *)
Definition descending {A} (key : A -> Q) (l : list A) : Prop :=
  StronglySorted (fun a b => key b <= key a) l.

(** The prediction of a student without features and without a store. *)
Definition bare (q : Q) (sid : string) (p : RiskPrediction) : Prop :=
  student_id p = sid /\ risk_score p = q /\ risk_level p = _get_risk_level q
  /\ top_risk_factors p = [] /\ protective_factors p = []
  /\ risk_trend p = STABLE /\ previous_risk_score p = None.

(** A cached document from which some keys of the top-level object are
    missing. *)
Definition drop_keys (keys : list string) (t : text) : text :=
  match t with
  | Document (JObj members) =>
      Document (JObj (filter (fun kv => negb (existsb (String.eqb (fst kv)) keys))
                             members))
  | _ => t
  end.

(** The keys [_deserialize_prediction] reads with [obj[...]], in the order
    in which it reads them. *)
Definition required_keys : list string :=
  ["student_id"; "timestamp"; "risk_score"; "risk_level"; "confidence";
   "category_scores"; "top_risk_factors"; "protective_factors"; "risk_trend";
   "model_version"].

End RiskSpec.

Module Spec.
Import BiasDetection.

(** [p] carries the value [v] for the attribute. *)
Definition carries (attr : ProtectedAttribute) (v : string) (p : prediction) : bool :=
  match demographic p attr with
  | Some v' => String.eqb v' v
  | None => false
  end.

Definition has_value (attr : ProtectedAttribute) (p : prediction) : bool :=
  match demographic p attr with Some _ => true | None => false end.

(** The group of an attribute value: the predictions that carry it. *)
Definition members_of (predictions : list prediction) (attr : ProtectedAttribute)
    (v : string) : list prediction :=
  filter (carries attr v) predictions.

Definition add_value (seen : list string) (v : string) : list string :=
  if existsb (String.eqb v) seen then seen else seen ++ [v].

(** The distinct values of an attribute in the batch, in order of first
    appearance. *)
Definition group_values (predictions : list prediction) (attr : ProtectedAttribute)
    : list string :=
  fold_left add_value (collect (fun p => demographic p attr) predictions) [].

(** The number of groups of the attribute that reach the minimum size. *)
Definition valid_group_count (predictions : list prediction) (attr : ProtectedAttribute)
    : nat :=
  count (fun v => (MINIMUM_GROUP_SIZE <=? List.length (members_of predictions attr v))%nat)
        (group_values predictions attr).

(** Where [group_step] puts a prediction within the groups of one attribute. *)
Definition place (p : prediction) (a : ProtectedAttribute)
    (groups : dict (list prediction)) : dict (list prediction) :=
  match demographic p a with
  | Some v => defaultdict_append groups v p
  | None => groups
  end.

(** An accumulator of the loop of [analyze_bias] that holds nothing for
    the attribute. *)
Definition untouched (a : ProtectedAttribute)
    (acc : list FairnessResult * dict (list GroupStatistics)) : Prop :=
  (forall r, In r (fst acc) -> attribute r <> a)
  /\ dict_get (snd acc) (ProtectedAttribute_value a) = None.

(** [0.4 * min(total/1000, 1) + 0.6 * mean over the attributes of
    min(valid_group_count/3, 1)]. *)
Definition confidence_formula (predictions : list prediction) : Q :=
  0.4 * Qmin (Qof_nat (List.length predictions) / 1000) 1
  + 0.6 * (Qsum (map (fun attr => Qmin (Qof_nat (valid_group_count predictions attr) / 3) 1)
                     ProtectedAttribute_members)
           / Qof_nat (List.length ProtectedAttribute_members)).

(** The ordinal position of a severity. *)
Definition severity_rank (s : BiasSeverity) : nat :=
  match s with
  | NONE => 0 | LOW => 1 | MODERATE => 2 | HIGH => 3 | CRITICAL => 4
  end.

End Spec.

(** ** Sample data *)

Module Samples.
Import RiskModel.

Definition skill_gaps_count : FeatureDefinition :=
  feature "skill_gaps_count" ACADEMIC
    "Number of skills below 50% mastery"
    "high_is_risk" 2 5 0.08
    "Target the {value} skills that need the most improvement".

(** Two groups in which nobody is classified high-risk. *)
Definition quiet_group (n : string) : BiasDetection.GroupStatistics :=
  {| BiasDetection.group_name := n;
     BiasDetection.sample_size := 40;
     BiasDetection.mean_prediction := 0.2;
     BiasDetection.std_prediction := 0.1;
     BiasDetection.positive_rate := 0;
     BiasDetection.true_positive_rate := None;
     BiasDetection.false_positive_rate := None;
     BiasDetection.false_negative_rate := None;
     BiasDetection.calibration_error := None |}.

(** Stand-ins for the number formatting of Python and for the numeric
    library functions, where a result does not depend on them. *)
Definition no_text (x : Q) : string := EmptyString.
Definition no_fn (x : Q) : Q := x.

(** Thirty students of one gender scored 0.8 and thirty of another
    scored 0.2. *)
Definition student (gender : string) (score : Q) : BiasDetection.prediction :=
  {| BiasDetection.student_id := gender;
     BiasDetection.risk_score := score;
     BiasDetection.demographics := Some [("gender", Some gender)] |}.

Definition two_groups : list BiasDetection.prediction :=
  repeat (student "female" 0.8) 30 ++ repeat (student "male" 0.2) 30.

(** Two groups of thirty in which every student is scored 0.2, and a
    batch with one group of thirty and a single student of another gender. *)
Definition quiet_batch : list BiasDetection.prediction :=
  repeat (student "female" 0.2) 30 ++ repeat (student "male" 0.2) 30.

Definition one_valid_group : list BiasDetection.prediction :=
  repeat (student "female" 0.8) 30 ++ [student "male" 0.2].

(** A batch of two students of different gender. *)
Definition two_students : list BiasDetection.prediction :=
  [ {| BiasDetection.student_id := "s1";
       BiasDetection.risk_score := 0.8;
       BiasDetection.demographics := Some [("gender", Some "female")] |};
    {| BiasDetection.student_id := "s2";
       BiasDetection.risk_score := 0.2;
       BiasDetection.demographics := Some [("gender", Some "male")] |} ].

Definition no_digits (z : Z) : string := EmptyString.

Definition session_frequency_7d : FeatureDefinition :=
  feature "session_frequency_7d" ENGAGEMENT
    "Number of learning sessions in the last 7 days"
    "low_is_risk" 2 5 0.10
    "Encourage more frequent, shorter practice sessions".

(** The high-risk student of the test fixtures. *)
Definition high_risk_features : features_t := [
  ("current_mastery", Some 0.30);
  ("mastery_trend_7d", Some (-0.15));
  ("skill_gaps_count", Some 8);
  ("correct_first_attempt_rate", Some 0.30);
  ("mastery_vs_class", Some (-0.25));
  ("days_since_last_session", Some 10);
  ("session_frequency_7d", Some 1);
  ("completion_rate", Some 0.35);
  ("session_abandonment_rate", Some 0.45);
  ("avg_session_duration", Some 5);
  ("frustration_signals", Some 12);
  ("help_request_rate", Some 0.70);
  ("hint_dependency_ratio", Some 0.65);
  ("time_of_day_variance", Some 8);
  ("weekend_engagement_ratio", Some 0.05)
].

(** A student for whom only the number of skill gaps is known. *)
Definition skill_gaps_only : features_t := [("skill_gaps_count", Some 4)].

(** A scorer that answers 0.5 for every vector. *)
Definition even_odds (vector : list Q) : result Q := Return 0.5.

Definition noon : datetime :=
  {| dt_year := 2024; dt_month := 2; dt_day := 29;
     dt_hour := 12; dt_minute := 0; dt_second := 5; dt_microsecond := 1500 |}.

Definition sample_prediction : RiskPrediction :=
  {| student_id := "student_123";
     timestamp := noon;
     risk_score := 0.8;
     risk_level := CRITICAL;
     confidence := 0.7;
     category_scores := [("academic", 0.4); ("engagement", 0.0);
                         ("behavioral", 0.0); ("temporal", 0.0)];
     top_risk_factors :=
       [ {| rf_feature := "skill_gaps_count";
            rf_category := ACADEMIC;
            rf_description := "Number of skills below 50% mastery";
            rf_current_value := VFloat 5;
            rf_contribution := 0.08;
            rf_severity := "high";
            rf_threshold := Some 5;
            rf_recommendation := None |} ];
     protective_factors :=
       [ {| pf_feature := "current_mastery";
            pf_category := ACADEMIC;
            pf_description := "Current overall mastery level across all skills";
            pf_current_value := VFloat 0.9;
            pf_contribution := 0.15 |} ];
     risk_trend := INCREASING;
     previous_risk_score := Some 0.6;
     score_change := Some 0.2;
     model_version := "1.0.0" |}.

(** A store whose cached prediction for student [s1] of tenant [t1] is
    text that is not JSON, and one whose cached value is the JSON object
    [{}]. *)
Definition broken_cache : redis_t :=
  {| strings := [("risk_prediction:t1:s1", Unparseable "{not json")]; lists := [] |}.

Definition empty_object_cache : redis_t :=
  {| strings := [("risk_prediction:t1:s1", Document (JObj []))]; lists := [] |}.

Definition empty_store : redis_t := {| strings := []; lists := [] |}.

End Samples.

(** * Binary64 arithmetic

    CPython's [float] is an IEEE 754 binary64 number.  Where a result of
    the program depends on comparing a computed number with a cut, or on
    the order of computed numbers, the functions are modelled here on
    Rocq's primitive floats, which compute as the hardware does: every
    operation rounds to the nearest double, ties to even. *)

Module Binary64.

(** A decimal literal denotes the double nearest to it. *)
#[global] Set Warnings "-inexact-float".

(** A Python [int] used in float arithmetic (exact below 2^53). *)
Definition of_Z (z : Z) : float :=
  match z with
  | Z0 => PrimFloat.zero
  | Zpos _ => PrimFloat.of_uint63 (Uint63.of_Z z)
  | Zneg p => PrimFloat.opp (PrimFloat.of_uint63 (Uint63.of_Z (Zpos p)))
  end.

Definition of_nat (n : nat) : float := of_Z (Z.of_nat n).

(** A decimal literal of the source denotes the double nearest to the
    rational it writes; that double is the correctly rounded quotient of
    the numerator and the denominator. *)
Definition literal (q : Q) : float :=
  PrimFloat.div (of_Z (Qnum q)) (of_Z (Zpos (Qden q))).

(** [a >= b] and [a > b] *)
Definition geb (a b : float) : bool := PrimFloat.leb b a.
Definition gtb (a b : float) : bool := PrimFloat.ltb b a.

(** [min(a, b)]: the first argument unless the second is smaller. *)
Definition py_min (a b : float) : float := if PrimFloat.ltb b a then b else a.

(** [bool(x)] of a float: false for 0.0 and -0.0 only. *)
Definition truthy (x : float) : bool := negb (PrimFloat.eqb x PrimFloat.zero).

(** [int(x)] of a float: truncation towards zero; NaN and the infinities
    have no integer. *)
Definition py_int (x : float) : result Z :=
  match Prim2SF x with
  | S754_nan => Raise (ValueError "cannot convert float NaN to integer")
  | S754_infinity _ => Raise (OverflowError "cannot convert float infinity to integer")
  | S754_zero _ => Return 0%Z
  | S754_finite s m e => Return (cond_Zopp s (Z.shiftl (Zpos m) e))
  end.

(** [x == n] for a float [x] and the integer [n = int(x)]. *)
Definition integral (x : float) : bool :=
  match Prim2SF x with
  | S754_zero _ => true
  | S754_finite _ m e => Z.eqb (Z.shiftl (Z.shiftl (Zpos m) e) (- e)) (Zpos m)
  | _ => false
  end.

(** [math.sqrt] *)
Definition math_sqrt (x : float) : result float :=
  if PrimFloat.ltb x PrimFloat.zero then Raise (ValueError "math domain error")
  else Return (PrimFloat.sqrt x).

(** The float is a number: not NaN. *)
Definition number (x : float) : Prop := Prim2SF x <> S754_nan.

(** [math.isfinite(x)], and a finite float other than 0.0 and -0.0. *)
Definition isfinite (x : float) : bool :=
  match Prim2SF x with S754_nan | S754_infinity _ => false | _ => true end.

Definition nonzero_finite (x : float) : bool :=
  match Prim2SF x with S754_finite _ _ _ => true | _ => false end.

(** Descending order of the keys: no element is below a later one. *)
Definition descending {A} (key : A -> float) (l : list A) : Prop :=
  StronglySorted (fun a b => PrimFloat.leb (key b) (key a) = true) l.

(** [list.sort(key=key, reverse=True)]: the stable descending insertion
    sort of [RiskModel.sort_desc] on binary64 keys. *)
Section Sorting.
Context {A : Type} (key : A -> float).

Fixpoint insert_desc (x : A) (l : list A) : list A :=
  match l with
  | [] => [x]
  | y :: l' =>
      if PrimFloat.ltb (key x) (key y) then y :: insert_desc x l' else x :: y :: l'
  end.

Definition sort_desc (l : list A) : list A := fold_right insert_desc [] l.
End Sorting.

(** A loop that appends at most one element per iteration and stops at
    the first exception. *)
Fixpoint collectM {A B} (f : A -> result (option B)) (l : list A) : result (list B) :=
  match l with
  | [] => Return []
  | a :: l' =>
      b <- f a ;;
      bs <- collectM f l' ;;
      Return (match b with Some b => b :: bs | None => bs end)
  end.

End Binary64.

(** ** [student_risk_model.py] on binary64: explanation and trend *)

Module RiskModel64.
Import Binary64.

Record FeatureDefinition : Type := {
  name : string;
  category : RiskModel.FeatureCategory;
  description : string;
  risk_direction : string;
  threshold_low : option float;
  threshold_high : option float;
  importance_weight : float;
  recommendation_template : option string
}.

(** A catalog entry with its literals read as doubles. *)
Definition binary64 (fd : RiskModel.FeatureDefinition) : FeatureDefinition :=
  {| name := RiskModel.name fd;
     category := RiskModel.category fd;
     description := RiskModel.description fd;
     risk_direction := RiskModel.risk_direction fd;
     threshold_low := option_map literal (RiskModel.threshold_low fd);
     threshold_high := option_map literal (RiskModel.threshold_high fd);
     importance_weight := literal (RiskModel.importance_weight fd);
     recommendation_template := RiskModel.recommendation_template fd |}.

Definition RISK_FEATURES : list FeatureDefinition :=
  map binary64 RiskModel.RISK_FEATURES.

(** [_normalize_risk_contribution] *)
Definition _normalize_risk_contribution (feature_def : FeatureDefinition)
    (value : float) : float :=
  match threshold_low feature_def, threshold_high feature_def with
  | Some lo, Some hi =>
      if String.eqb (risk_direction feature_def) "high_is_risk" then
        if PrimFloat.leb value lo then 0%float
        else if geb value hi then 1%float
        else ((value - lo) / (hi - lo))%float
      else
        if geb value hi then 0%float
        else if PrimFloat.leb value lo then 1%float
        else (1 - (value - lo) / (hi - lo))%float
  | _, _ => 0.5%float
  end.

Record RiskFactor : Type := {
  rf_feature : string;
  rf_category : RiskModel.FeatureCategory;
  rf_description : string;
  rf_current_value : float;
  rf_contribution : float;
  rf_severity : string;
  rf_threshold : option float;
  rf_recommendation : option string
}.

Record ProtectiveFactor : Type := {
  pf_feature : string;
  pf_category : RiskModel.FeatureCategory;
  pf_description : string;
  pf_current_value : float;
  pf_contribution : float
}.

(** [features: dict[str, float]]; an entry may hold [None].  A Python
    [int] stored as a value is the same number as a float (below 2^53),
    and arithmetic and comparisons give the same results on it. *)
Definition features_t : Type := dict (option float).

(** [features.get(k)] *)
Definition features_get (features : features_t) (k : string) : option float :=
  match dict_get features k with
  | Some (Some v) => Some v
  | _ => None
  end.

Section Explain.
(** [str] of a Python [int] and of a [float], as [str.format] renders them. *)
Variable str_int : Z -> string.
Variable str_float : float -> string.

(** [int(value) if isinstance(value, float) and value == int(value) else value],
    rendered; [int(value)] is evaluated first. *)
Definition render_value (value : float) : result string :=
  n <- py_int value ;;
  Return (if integral value then str_int n else str_float value).

(** The body of the loop of [_identify_risk_factors] for one catalog entry:
    the factor appended, if any. *)
Definition risk_factor_of (features : features_t) (feature_def : FeatureDefinition)
    : result (option RiskFactor) :=
  match features_get features (name feature_def) with
  | None => Return None
  | Some value =>
      let contribution := _normalize_risk_contribution feature_def value in
      if gtb contribution 0.3%float then
        let severity :=
          if gtb contribution 0.7%float then "high"
          else if gtb contribution 0.5%float then "medium" else "low" in
        recommendation <-
          match recommendation_template feature_def with
          | Some t => if String.eqb t EmptyString then Return None
                      else text <- render_value value ;;
                           Return (Some (RiskModel.format_value t text))
          | None => Return None
          end ;;
        Return (Some {| rf_feature := name feature_def;
                        rf_category := category feature_def;
                        rf_description := description feature_def;
                        rf_current_value := value;
                        rf_contribution :=
                          (contribution * importance_weight feature_def)%float;
                        rf_severity := severity;
                        rf_threshold :=
                          if String.eqb (risk_direction feature_def) "high_is_risk"
                          then threshold_high feature_def
                          else threshold_low feature_def;
                        rf_recommendation := recommendation |})
      else Return None
  end.

(** [_identify_risk_factors] *)
Definition _identify_risk_factors (features : features_t) (risk_score : float)
    : result (list RiskFactor) :=
  factors <- collectM (risk_factor_of features) RISK_FEATURES ;;
  Return (sort_desc rf_contribution factors).
End Explain.

(** The loop body of [_identify_protective_factors]. *)
Definition protective_factor_of (features : features_t) (feature_def : FeatureDefinition)
    : option ProtectiveFactor :=
  match features_get features (name feature_def) with
  | None => None
  | Some value =>
      let contribution := _normalize_risk_contribution feature_def value in
      if PrimFloat.ltb contribution 0.3%float then
        Some {| pf_feature := name feature_def;
                pf_category := category feature_def;
                pf_description := description feature_def;
                pf_current_value := value;
                pf_contribution :=
                  ((1 - contribution) * importance_weight feature_def)%float |}
      else None
  end.

(** [_identify_protective_factors] *)
Definition _identify_protective_factors (features : features_t)
    : list ProtectiveFactor :=
  sort_desc pf_contribution (collect (protective_factor_of features) RISK_FEATURES).

(** The two factor fields of the [RiskPrediction] that [predict_risk]
    builds. *)
Record RiskPrediction_factors : Type := {
  top_risk_factors : list RiskFactor;
  protective_factors : list ProtectiveFactor
}.

Section Predict.
Variable str_int : Z -> string.
Variable str_float : float -> string.

(** The part of [predict_risk] that explains the prediction:
    [risk_factors = self._identify_risk_factors(features, risk_prob)],
    [protective_factors = self._identify_protective_factors(features)],
    then [top_risk_factors=risk_factors[:5]] and
    [protective_factors=protective_factors[:3]]. *)
Definition predict_risk_factors (features : features_t) (risk_prob : float)
    : result RiskPrediction_factors :=
  risk_factors <- _identify_risk_factors str_int str_float features risk_prob ;;
  let protective := _identify_protective_factors features in
  Return {| top_risk_factors := firstn 5 risk_factors;
            protective_factors := firstn 3 protective |}.
End Predict.

(** [_calculate_trend] *)
Definition _calculate_trend (current_score : float) (previous_score : option float)
    : RiskModel.RiskTrend * option float :=
  match previous_score with
  | None => (RiskModel.STABLE, None)
  | Some previous =>
      let change := (current_score - previous)%float in
      if gtb change 0.05%float then (RiskModel.INCREASING, Some change)
      else if PrimFloat.ltb change (- 0.05)%float
           then (RiskModel.DECREASING, Some change)
      else (RiskModel.STABLE, Some change)
  end.

End RiskModel64.

(** ** [bias_detection.py] on binary64: the pairwise evaluators *)

Module BiasDetection64.
Import Binary64.

Record GroupStatistics : Type := {
  group_name : string;
  sample_size : nat;
  mean_prediction : float;
  std_prediction : float;
  positive_rate : float;
  true_positive_rate : option float;
  false_positive_rate : option float;
  false_negative_rate : option float;
  calibration_error : option float
}.

Record FairnessResult : Type := {
  metric : BiasDetection.FairnessMetric;
  attribute : BiasDetection.ProtectedAttribute;
  reference_group : string;
  comparison_group : string;
  reference_value : float;
  comparison_value : float;
  difference : float;
  ratio : option float;
  p_value : option float;
  is_significant : bool;
  severity : BiasDetection.BiasSeverity;
  explanation : string
}.

(** [BIAS_THRESHOLDS], its literals read as doubles. *)
Definition BIAS_THRESHOLDS (m : BiasDetection.FairnessMetric) : option (dict float) :=
  option_map (map (fun kv => (fst kv, literal (snd kv)))) (BiasDetection.BIAS_THRESHOLDS m).

Definition SIGNIFICANCE_LEVEL : float := 0.05%float.

(** [difference >= thresholds.get(k, float("inf"))] *)
Definition reaches (difference : float) (thresholds : dict float) (k : string) : bool :=
  geb difference
      (match dict_get thresholds k with
       | Some t => t
       | None => PrimFloat.infinity
       end).

(** [_get_severity] *)
Definition _get_severity (metric : BiasDetection.FairnessMetric) (difference : float)
    : BiasDetection.BiasSeverity :=
  let thresholds := match BIAS_THRESHOLDS metric with Some t => t | None => [] end in
  if reaches difference thresholds "critical" then BiasDetection.CRITICAL
  else if reaches difference thresholds "high" then BiasDetection.HIGH
  else if reaches difference thresholds "moderate" then BiasDetection.MODERATE
  else if reaches difference thresholds "low" then BiasDetection.LOW
  else BiasDetection.NONE.

(** [ratio <= thresholds[k]] on the disparate-impact table, which holds
    the four keys. *)
Definition within (ratio : float) (thresholds : dict float) (k : string) : bool :=
  match dict_get thresholds k with
  | Some t => PrimFloat.leb ratio t
  | None => false
  end.

(** [_get_severity_di] *)
Definition _get_severity_di (ratio : float) : BiasDetection.BiasSeverity :=
  let thresholds :=
    match BIAS_THRESHOLDS BiasDetection.DISPARATE_IMPACT with
    | Some t => t
    | None => []
    end in
  if within ratio thresholds "critical" then BiasDetection.CRITICAL
  else if within ratio thresholds "high" then BiasDetection.HIGH
  else if within ratio thresholds "moderate" then BiasDetection.MODERATE
  else if within ratio thresholds "low" then BiasDetection.LOW
  else BiasDetection.NONE.

(** The inverted table of the specification for the disparate-impact
    ratio, with the comparisons of binary64: critical at most 0.70, high
    at most 0.80, moderate at most 0.85, low at most 0.90, otherwise none. *)
Definition inverted_table (x : float) (s : BiasDetection.BiasSeverity) : Prop :=
  match s with
  | BiasDetection.CRITICAL => PrimFloat.leb x 0.70 = true
  | BiasDetection.HIGH => PrimFloat.leb x 0.70 = false /\ PrimFloat.leb x 0.80 = true
  | BiasDetection.MODERATE => PrimFloat.leb x 0.80 = false /\ PrimFloat.leb x 0.85 = true
  | BiasDetection.LOW => PrimFloat.leb x 0.85 = false /\ PrimFloat.leb x 0.90 = true
  | BiasDetection.NONE => PrimFloat.leb x 0.90 = false
  end.

Section Evaluators.
(** [scipy.stats.norm.cdf] and the f-string conversions [{x:.1f}] and
    [{x:.2f}]. *)
Variable norm_cdf : float -> float.
Variable fmt_1f : float -> string.
Variable fmt_2f : float -> string.

(** [_generate_explanation] *)
Definition _generate_explanation (metric : BiasDetection.FairnessMetric)
    (attribute : BiasDetection.ProtectedAttribute)
    (reference_group comparison_group : string)
    (reference_value comparison_value : float)
    (severity : BiasDetection.BiasSeverity) : string :=
  let attr_name :=
    BiasDetection.underscores_to_spaces (BiasDetection.ProtectedAttribute_value attribute) in
  let diff_pct := (PrimFloat.abs (reference_value - comparison_value) * 100)%float in
  let higher_group :=
    if gtb reference_value comparison_value
    then reference_group else comparison_group in
  (match metric with
   | BiasDetection.STATISTICAL_PARITY =>
       "High-risk prediction rates differ by " ++ fmt_1f diff_pct ++ "% between "
       ++ attr_name ++ " groups. The " ++ higher_group
       ++ " group has a higher rate of high-risk classifications. Severity: "
       ++ BiasDetection.BiasSeverity_value severity ++ "."
   | BiasDetection.DISPARATE_IMPACT =>
       if gtb reference_value 0%float then
         "Disparate impact ratio is " ++ fmt_2f (comparison_value / reference_value)%float
         ++ " for " ++ attr_name ++ ". A ratio below 0.80 may indicate bias. Severity: "
         ++ BiasDetection.BiasSeverity_value severity ++ "."
       else "Cannot calculate disparate impact - reference group rate is zero."
   | BiasDetection.FALSE_POSITIVE_RATE =>
       "False positive rates differ by " ++ fmt_1f diff_pct ++ "% between "
       ++ attr_name
       ++ " groups. This means one group may be incorrectly flagged as high-risk more often. Severity: "
       ++ BiasDetection.BiasSeverity_value severity ++ "."
   | BiasDetection.FALSE_NEGATIVE_RATE =>
       "False negative rates differ by " ++ fmt_1f diff_pct ++ "% between "
       ++ attr_name ++ " groups. The " ++ higher_group
       ++ " group may have at-risk students missed more often. Severity: "
       ++ BiasDetection.BiasSeverity_value severity ++ "."
   | _ =>
       "Fairness metric " ++ BiasDetection.FairnessMetric_value metric ++ " analyzed for "
       ++ attr_name ++ ". Severity: " ++ BiasDetection.BiasSeverity_value severity ++ "."
   end)%string.

(** [1/n] for a Python [int] [n]. *)
Definition reciprocal (n : nat) : result float :=
  match n with
  | O => Raise (ZeroDivisionError "division by zero")
  | S _ => Return (1 / of_nat n)%float
  end.

(** [_evaluate_statistical_parity]: a sample size of 0 makes the pooled
    rate or [1/n] divide by zero, and [math.sqrt] refuses a negative
    argument. *)
Definition _evaluate_statistical_parity (attribute : BiasDetection.ProtectedAttribute)
    (reference comparison : GroupStatistics) : result FairnessResult :=
  let diff := PrimFloat.abs (positive_rate reference - positive_rate comparison)%float in
  let n1 := sample_size reference in
  let n2 := sample_size comparison in
  let p1 := positive_rate reference in
  let p2 := positive_rate comparison in
  p_pool <-
    match (n1 + n2)%nat with
    | O => Raise (ZeroDivisionError "float division by zero")
    | S _ => Return ((p1 * of_nat n1 + p2 * of_nat n2) / of_nat (n1 + n2))%float
    end ;;
  r1 <- reciprocal n1 ;;
  r2 <- reciprocal n2 ;;
  se <- math_sqrt (p_pool * (1 - p_pool) * (r1 + r2))%float ;;
  let z_stat := if gtb se 0%float then ((p1 - p2) / se)%float else 0%float in
  let p_value := (2 * (1 - norm_cdf (PrimFloat.abs z_stat)))%float in
  let severity := _get_severity BiasDetection.STATISTICAL_PARITY diff in
  let is_significant :=
    PrimFloat.ltb p_value SIGNIFICANCE_LEVEL
    && negb (BiasDetection.BiasSeverity_eqb severity BiasDetection.NONE) in
  Return
    {| metric := BiasDetection.STATISTICAL_PARITY;
       attribute := attribute;
       reference_group := group_name reference;
       comparison_group := group_name comparison;
       reference_value := positive_rate reference;
       comparison_value := positive_rate comparison;
       difference := diff;
       ratio := if gtb (positive_rate reference) 0%float
                then Some (positive_rate comparison / positive_rate reference)%float
                else None;
       p_value := Some p_value;
       is_significant := is_significant;
       severity := severity;
       explanation :=
         _generate_explanation BiasDetection.STATISTICAL_PARITY attribute
           (group_name reference) (group_name comparison)
           (positive_rate reference) (positive_rate comparison) severity |}.

(** [_evaluate_disparate_impact] *)
Definition _evaluate_disparate_impact (attribute : BiasDetection.ProtectedAttribute)
    (reference comparison : GroupStatistics) : FairnessResult :=
  let ratio :=
    if gtb (positive_rate reference) 0%float
    then Some (positive_rate comparison / positive_rate reference)%float
    else None in
  let normalized_ratio :=
    match ratio with
    | Some r => if truthy r && gtb r 0%float then py_min r (1 / r)%float else 0%float
    | None => 0%float
    end in
  let severity := _get_severity_di normalized_ratio in
  {| metric := BiasDetection.DISPARATE_IMPACT;
     attribute := attribute;
     reference_group := group_name reference;
     comparison_group := group_name comparison;
     reference_value := positive_rate reference;
     comparison_value := positive_rate comparison;
     difference := PrimFloat.abs (positive_rate reference - positive_rate comparison)%float;
     ratio := ratio;
     p_value := None;
     is_significant := negb (BiasDetection.BiasSeverity_eqb severity BiasDetection.NONE);
     severity := severity;
     explanation :=
       _generate_explanation BiasDetection.DISPARATE_IMPACT attribute
         (group_name reference) (group_name comparison)
         (positive_rate reference) (positive_rate comparison) severity |}.
End Evaluators.

End BiasDetection64.

(** ** Binary64 sample values *)

Module Samples64.
Import Binary64.

(** Stand-ins for the number formatting of Python and for
    [scipy.stats.norm.cdf], where a result does not depend on them. *)
Definition no_digits (n : Z) : string := EmptyString.
Definition no_text (x : float) : string := EmptyString.
Definition no_fn (x : float) : float := x.

(** A feature map with one entry. *)
Definition one_feature (k : string) (value : float) : RiskModel64.features_t :=
  [(k, Some value)].

(** The high-risk fixture of the tests. *)
Definition high_risk_features : RiskModel64.features_t :=
  map (fun kv => (fst kv, option_map literal (snd kv))) Samples.high_risk_features.

(** A group of 50 with the given number of high-risk classifications:
    [positive_rate = sum(1 for s in scores if s >= 0.5) / len(scores)]. *)
Definition group_of_50 (n : string) (positives : nat) : BiasDetection64.GroupStatistics :=
  {| BiasDetection64.group_name := n;
     BiasDetection64.sample_size := 50;
     BiasDetection64.mean_prediction := 0.5;
     BiasDetection64.std_prediction := 0.1;
     BiasDetection64.positive_rate := (of_nat positives / of_nat 50)%float;
     BiasDetection64.true_positive_rate := None;
     BiasDetection64.false_positive_rate := None;
     BiasDetection64.false_negative_rate := None;
     BiasDetection64.calibration_error := None |}.

(** A group with a given size and rate of high-risk classifications, as
    the tests build them ([test_flags_ratio_below_80_percent] compares
    rates 0.50 and 0.35). *)
Definition group_with_rate (n : string) (size : nat) (rate : float)
    : BiasDetection64.GroupStatistics :=
  {| BiasDetection64.group_name := n;
     BiasDetection64.sample_size := size;
     BiasDetection64.mean_prediction := 0.5;
     BiasDetection64.std_prediction := 0.1;
     BiasDetection64.positive_rate := rate;
     BiasDetection64.true_positive_rate := None;
     BiasDetection64.false_positive_rate := None;
     BiasDetection64.false_negative_rate := None;
     BiasDetection64.calibration_error := None |}.

End Samples64.

(** * Properties *)

(** ** Comparisons *)

Lemma Qle_bool_false (a b : Q) : Qle_bool a b = false -> b < a.
Proof.
  intro H. apply Qnot_le_lt. intro Hle.
  apply Qle_bool_iff in Hle. congruence.
Qed.

Lemma Qleb_true (a b : Q) : Qleb a b = true <-> a <= b.
Proof. apply Qle_bool_iff. Qed.



Lemma Qltb_false (a b : Q) : Qltb a b = false <-> b <= a.
Proof.
  unfold Qltb. rewrite negb_false_iff. apply Qleb_true.
Qed.

(** Splits on every float comparison in the goal and records its meaning. *)
Ltac compare_floats :=
  repeat match goal with
    | |- context [Qle_bool ?a ?b] =>
        let H := fresh "Hcmp" in
        destruct (Qle_bool a b) eqn:H;
        [apply Qle_bool_iff in H | apply Qle_bool_false in H]
    end.

(** ** Dictionaries *)

Lemma py_sum_from (l : list Q) (a : Q) : fold_left Qplus l a == a + Qsum l.
Proof.
  revert a. induction l as [|x l IH]; intro a; cbn [fold_left Qsum].
  - lra.
  - rewrite IH. lra.
Qed.

Lemma py_sum_Qsum (l : list Q) : py_sum l == Qsum l.
Proof. unfold py_sum. rewrite py_sum_from. lra. Qed.

Lemma Qmin_one (x : Q) : Qmin x 1.0 == Qmin x 1.
Proof.
  destruct (Q.min_spec x 1.0) as [[H1 E1]|[H1 E1]];
  destruct (Q.min_spec x 1) as [[H2 E2]|[H2 E2]];
  rewrite E1, E2; lra.
Qed.

Lemma count_map {A B} (f : B -> bool) (g : A -> B) (l : list A) :
  count f (map g l) = count (fun a => f (g a)) l.
Proof.
  unfold count. induction l as [|a l IH]; cbn [map filter]; [reflexivity|].
  destruct (f (g a)); cbn [List.length]; congruence.
Qed.

Lemma collect_app {A B} (f : A -> option B) (l1 l2 : list A) :
  collect f (l1 ++ l2) = collect f l1 ++ collect f l2.
Proof.
  induction l1 as [|a l1 IH]; cbn [collect app]; [reflexivity|].
  destruct (f a); cbn [app]; congruence.
Qed.

Lemma collect_In {A B} (f : A -> option B) (l : list A) (b : B) :
  In b (collect f l) <-> exists a, In a l /\ f a = Some b.
Proof.
  induction l as [|a l IH]; cbn [collect In].
  - split; [tauto | intros (? & [] & _)].
  - destruct (f a) eqn:E; cbn [In]; rewrite IH; split.
    + intros [->|(a' & Ha & Hf)]; eauto.
    + intros (a' & [->|Ha] & Hf); [left; congruence | right; eauto].
    + intros (a' & Ha & Hf); eauto.
    + intros (a' & [->|Ha] & Hf); [congruence | eauto].
Qed.

Module RiskModelFacts.
Import RiskModel.

(** *** Category scores *)

Lemma FeatureCategory_value_eqb (a b : FeatureCategory) :
  String.eqb (FeatureCategory_value a) (FeatureCategory_value b)
  = FeatureCategory_eqb a b.
Proof. destruct a, b; reflexivity. Qed.

Lemma dict_append_get {V} (d : dict (list V)) (k : string) (x : V) (k' : string) :
  dict_get (dict_append d k x) k'
  = if String.eqb k k' then option_map (fun l => l ++ [x]) (dict_get d k')
    else dict_get d k'.
Proof.
  induction d as [|[k0 l] d IH]; cbn [dict_append dict_get].
  - destruct (String.eqb k k'); reflexivity.
  - destruct (String.eqb_spec k0 k) as [->|Hne]; cbn [dict_get].
    + destruct (String.eqb_spec k k') as [->|Hk]; reflexivity.
    + destruct (String.eqb_spec k0 k') as [->|Hk].
      * apply String.eqb_neq in Hne. rewrite String.eqb_sym in Hne.
        rewrite Hne. reflexivity.
      * apply IH.
Qed.

(** The entry appended to the list of category [c] for one catalog feature. *)
Lemma category_scores_fold (features : features_t) (c : FeatureCategory)
    (l : list FeatureDefinition) (d : dict (list Q)) :
  dict_get (fold_left (category_scores_step features) l d) (FeatureCategory_value c)
  = option_map
      (fun xs => xs ++ map (RiskSpec.weighted_contribution features)
                           (filter (RiskSpec.present features)
                              (filter (fun f => FeatureCategory_eqb (category f) c) l)))
      (dict_get d (FeatureCategory_value c)).
Proof.
  revert d. induction l as [|f l IH]; intro d; cbn [fold_left filter].
  - destruct (dict_get d _); cbn; [rewrite app_nil_r|]; reflexivity.
  - rewrite IH. unfold category_scores_step.
    destruct (FeatureCategory_eqb (category f) c) eqn:Ec; cbn [filter].
    + change (RiskSpec.present features f)
        with (match features_get features (name f) with
              | Some _ => true | None => false end).
      destruct (features_get features (name f)) as [value|] eqn:Ev; [|reflexivity].
      rewrite dict_append_get, FeatureCategory_value_eqb, Ec.
      destruct (dict_get d _); cbn [option_map map]; [|reflexivity].
      unfold RiskSpec.weighted_contribution at 2. rewrite Ev, <- app_assoc.
      reflexivity.
    + destruct (features_get features (name f)) as [value|]; [|reflexivity].
      rewrite dict_append_get, FeatureCategory_value_eqb, Ec. reflexivity.
Qed.

Lemma dict_get_map_values {V W} (g : string -> V -> W) (d : dict V) (k : string) :
  dict_get (map (fun kv => (fst kv, g (fst kv) (snd kv))) d) k
  = option_map (g k) (dict_get d k).
Proof.
  induction d as [|[k0 v] d IH]; cbn [map dict_get fst snd]; [reflexivity|].
  destruct (String.eqb_spec k0 k) as [->|_]; [reflexivity | exact IH].
Qed.

Lemma category_weight_sum_catalog (c : FeatureCategory) :
  category_weight_sum (FeatureCategory_value c)
  == Qsum (map importance_weight (RiskSpec.catalog_of c)).
Proof.
  unfold category_weight_sum, RiskSpec.catalog_of. rewrite py_sum_Qsum.
  rewrite (filter_ext _ (fun f => FeatureCategory_eqb (category f) c)).
  - reflexivity.
  - intro f. apply FeatureCategory_value_eqb.
Qed.

(** C4. The score of every category is the sum of
    [contribution * importance_weight] over the features of the category
    present in the map, divided by the sum of [importance_weight] over all
    catalog features of the category; with no feature of the category
    present it is 0. *)
Theorem calculate_category_scores_weighted (features : features_t)
    (c : FeatureCategory) :
  exists score,
    dict_get (_calculate_category_scores features) (FeatureCategory_value c) = Some score
    /\ score == RiskSpec.category_score features c
    /\ (RiskSpec.present_of features c = [] -> score == 0).
Proof.
  unfold _calculate_category_scores.
  set (g := fun (category : string) (values : list Q) =>
              match values with
              | [] => 0.0
              | _ :: _ => py_sum values / category_weight_sum category
              end).
  rewrite (map_ext _ (fun kv => (fst kv, g (fst kv) (snd kv))))
    by (intros [k [|x xs]]; reflexivity).
  rewrite (dict_get_map_values g), category_scores_fold. subst g.
  assert (Hinit : dict_get (map (fun cat => (FeatureCategory_value cat, @nil Q))
                              FeatureCategory_members) (FeatureCategory_value c)
                  = Some []) by (destruct c; reflexivity).
  rewrite Hinit. cbn [option_map app].
  fold (RiskSpec.catalog_of c). fold (RiskSpec.present_of features c).
  eexists. split; [reflexivity|].
  unfold RiskSpec.category_score.
  destruct (RiskSpec.present_of features c) as [|f fs] eqn:Ep; cbn [map].
  - split; [|reflexivity]. cbn [Qsum]. unfold Qdiv. lra.
  - split; [|discriminate].
    rewrite py_sum_Qsum, category_weight_sum_catalog. reflexivity.
Qed.

(** *** The model on the test fixtures *)

Example normalize_skill_gaps_4 :
  _normalize_risk_contribution Samples.skill_gaps_count 4 == 2 / 3.
Proof. vm_compute. reflexivity. Qed.

Example high_risk_top_factors :
  map rf_feature
    (firstn 5 (_identify_risk_factors Samples.no_digits Samples.no_text
                 Samples.high_risk_features 0.9))
  = ["current_mastery"; "mastery_trend_7d"; "days_since_last_session";
     "session_frequency_7d"; "completion_rate"].
Proof. vm_compute. reflexivity. Qed.

Example high_risk_no_protective_factor :
  _identify_protective_factors Samples.high_risk_features = [].
Proof. vm_compute. reflexivity. Qed.

Example skill_gaps_only_scores :
  match _calculate_category_scores Samples.skill_gaps_only with
  | [(a, sa); (e, se); (b, sb); (t, st)] =>
      a = "academic" /\ sa == (2 / 3 * 0.08) / 0.47
      /\ e = "engagement" /\ se == 0
      /\ b = "behavioral" /\ sb == 0
      /\ t = "temporal" /\ st == 0
  | _ => False
  end.
Proof. vm_compute. repeat split. Qed.

Example trend_increasing :
  fst (_calculate_trend 0.65 (Some 0.50)) = INCREASING
  /\ fst (_calculate_trend 0.50 (Some 0.50)) = STABLE
  /\ _calculate_trend 0.3 None = (STABLE, None).
Proof. vm_compute. repeat split. Qed.

Example isoformat_noon : isoformat Samples.noon = "2024-02-29T12:00:05.001500".
Proof. vm_compute. reflexivity. Qed.

Lemma get_risk_level_cases (p : Q) :
  (0.75 <= p /\ _get_risk_level p = CRITICAL) \/
  (0.5 <= p < 0.75 /\ _get_risk_level p = HIGH) \/
  (0.25 <= p < 0.5 /\ _get_risk_level p = MODERATE) \/
  (p < 0.25 /\ _get_risk_level p = LOW).
Proof.
  unfold _get_risk_level. compare_floats; intuition lra.
Qed.

(** C5. The tier follows the ladder [p >= 0.75] critical, [p >= 0.5] high,
    [p >= 0.25] moderate, otherwise low; it never decreases when the
    probability grows, and the boundary values 0.25, 0.5 and 0.75 belong to
    the upper tier. *)
Theorem get_risk_level_ladder (p q : Q) :
  p <= q ->
  (RiskLevel_rank (_get_risk_level p) <= RiskLevel_rank (_get_risk_level q))%nat
  /\ (_get_risk_level p = CRITICAL <-> 0.75 <= p)
  /\ (_get_risk_level p = HIGH <-> 0.5 <= p < 0.75)
  /\ (_get_risk_level p = MODERATE <-> 0.25 <= p < 0.5)
  /\ (_get_risk_level p = LOW <-> p < 0.25)
  /\ _get_risk_level 0.75 = CRITICAL
  /\ _get_risk_level 0.5 = HIGH
  /\ _get_risk_level 0.25 = MODERATE.
Proof.
  intro Hpq.
  destruct (get_risk_level_cases p) as [[Hp Ep]|[[Hp Ep]|[[Hp Ep]|[Hp Ep]]]];
  destruct (get_risk_level_cases q) as [[Hq Eq]|[[Hq Eq]|[[Hq Eq]|[Hq Eq]]]];
  rewrite Ep, ?Eq; cbn [RiskLevel_rank];
  repeat split; intros; try discriminate; try reflexivity; try lia; try lra.
Qed.

Lemma get_risk_level_ladder_witness :
  0.749999 <= 0.75 /\
  (RiskLevel_rank (_get_risk_level 0.749999) <= RiskLevel_rank (_get_risk_level 0.75))%nat.
Proof.
  assert (H : 0.749999 <= 0.75) by (unfold Qle; simpl; lia).
  split; [exact H | exact (proj1 (get_risk_level_ladder 0.749999 0.75 H))].
Defined.

(** *** Linear interpolation between the thresholds *)

Section Interpolation.
Variables lo hi : Q.
Hypothesis lo_lt_hi : lo < hi.

Local Abbreviation frac v := ((v - lo) / (hi - lo)) (only parsing).

Lemma frac_mono (v w : Q) : v <= w -> frac v <= frac w.
Proof.
  intro H. unfold Qdiv.
  apply Qmult_le_compat_r; [lra|].
  apply Qinv_le_0_compat. lra.
Qed.

Lemma frac_lo : frac lo == 0.
Proof. field. lra. Qed.

Lemma frac_hi : frac hi == 1.
Proof. field. lra. Qed.

Lemma frac_bounds (v : Q) : lo <= v <= hi -> 0 <= frac v <= 1.
Proof.
  intros [H1 H2].
  pose proof (frac_mono lo v H1) as Hlo.
  pose proof (frac_mono v hi H2) as Hhi.
  pose proof frac_lo. pose proof frac_hi. lra.
Qed.
End Interpolation.

(** C6. With both thresholds defined and [threshold_low < threshold_high],
    the contribution never decreases with the value for [high_is_risk]
    (0 at the low threshold, 1 at the high one) and never increases for
    the other direction, [low_is_risk] (1 at the low threshold, 0 at the
    high one); when a threshold is absent the contribution is 0.5. *)
Theorem normalize_risk_contribution_monotone (fd : FeatureDefinition) (v w : Q) :
  v <= w ->
  (forall lo hi,
      threshold_low fd = Some lo -> threshold_high fd = Some hi -> lo < hi ->
      (risk_direction fd = "high_is_risk" ->
         _normalize_risk_contribution fd v <= _normalize_risk_contribution fd w
         /\ _normalize_risk_contribution fd lo == 0
         /\ _normalize_risk_contribution fd hi == 1)
      /\ (risk_direction fd <> "high_is_risk" ->
         _normalize_risk_contribution fd w <= _normalize_risk_contribution fd v
         /\ _normalize_risk_contribution fd lo == 1
         /\ _normalize_risk_contribution fd hi == 0))
  /\ (threshold_low fd = None \/ threshold_high fd = None ->
      _normalize_risk_contribution fd v == 0.5).
Proof.
  intro Hvw. split.
  - intros lo hi Elo Ehi Hlt.
    unfold _normalize_risk_contribution, Qleb. rewrite Elo, Ehi.
    pose proof (frac_mono lo hi Hlt v w Hvw) as Hm.
    pose proof (fun x => frac_bounds lo hi Hlt x) as Hb.
    split; intro Hdir;
      [rewrite Hdir, String.eqb_refl
      | apply String.eqb_neq in Hdir; rewrite Hdir];
      repeat split; compare_floats; try lra;
      try (specialize (Hb v ltac:(lra)));
      try (specialize (Hb w ltac:(lra)));
      generalize dependent ((v - lo) / (hi - lo));
      generalize dependent ((w - lo) / (hi - lo)); intros; lra.
  - intros [E|E]; unfold _normalize_risk_contribution; rewrite E.
    + reflexivity.
    + destruct (threshold_low fd); reflexivity.
Qed.

(** *** Timestamps *)

Lemma digit_of_digit_char (d : N) : (d < 10)%N -> digit_of (digit_char d) = Some d.
Proof.
  intro H. unfold digit_of, digit_char.
  rewrite N_ascii_embedding by lia.
  replace ((48 <=? 48 + d) && (48 + d <=? 57))%N with true.
  - f_equal. lia.
  - symmetry. apply andb_true_intro. split; apply N.leb_le; lia.
Qed.

Lemma read_put_digits (w : nat) (n acc : N) (k : string) :
  read_digits w acc (put_digits w n k)
  = Some (acc * 10 ^ N.of_nat w + n mod 10 ^ N.of_nat w, k)%N.
Proof.
  revert acc. induction w as [|w IH]; intro acc.
  - cbn [read_digits put_digits]. f_equal. f_equal.
    change (10 ^ N.of_nat 0)%N with 1%N. rewrite N.mod_1_r. lia.
  - cbn [read_digits put_digits].
    rewrite digit_of_digit_char by (apply N.mod_lt; lia).
    rewrite IH. f_equal. f_equal.
    rewrite Nat2N.inj_succ, N.pow_succ_r'.
    set (P := (10 ^ N.of_nat w)%N).
    replace (n mod (10 * P))%N with (n mod P + P * ((n / P) mod 10))%N
      by (rewrite <- N.Div0.mod_mul_r; f_equal; lia).
    nia.
Qed.

Lemma read_field (w : nat) (n : N) (k : string) :
  (n < 10 ^ N.of_nat w)%N -> read_digits w 0 (put_digits w n k) = Some (n, k).
Proof.
  intro H. rewrite read_put_digits, N.mod_small by assumption. reflexivity.
Qed.

Lemma read_char_here (c : ascii) (k : string) : read_char c (String c k) = Some k.
Proof. unfold read_char. rewrite Ascii.eqb_refl. reflexivity. Qed.

Lemma days_in_month_le (y m : N) : (days_in_month y m <= 31)%N.
Proof.
  unfold days_in_month.
  repeat match goal with
         | |- context [match ?x with _ => _ end] => destruct x
         end; lia.
Qed.

(** [datetime.fromisoformat(d.isoformat())] gives [d] back. *)
Lemma fromisoformat_isoformat (d : datetime) :
  datetime_ok d = true -> fromisoformat (isoformat d) = Return d.
Proof.
  destruct d as [y mo dd h mi se us].
  intro Hok. pose proof Hok as Hok'.
  unfold datetime_ok in Hok'.
  cbn [dt_year dt_month dt_day dt_hour dt_minute dt_second dt_microsecond] in Hok'.
  repeat (apply andb_prop in Hok'; destruct Hok' as [Hok' ?]).
  repeat match goal with
         | H : (_ <=? _)%N = true |- _ => apply N.leb_le in H
         | H : (_ <? _)%N = true |- _ => apply N.ltb_lt in H
         end.
  pose proof (days_in_month_le y mo).
  unfold fromisoformat, parse_isoformat, isoformat.
  cbn [dt_year dt_month dt_day dt_hour dt_minute dt_second dt_microsecond].
  rewrite read_field by (cbn; lia). cbn [obind]. rewrite read_char_here. cbn [obind].
  rewrite read_field by (cbn; lia). cbn [obind]. rewrite read_char_here. cbn [obind].
  rewrite read_field by (cbn; lia). cbn [obind]. rewrite read_char_here. cbn [obind].
  rewrite read_field by (cbn; lia). cbn [obind]. rewrite read_char_here. cbn [obind].
  rewrite read_field by (cbn; lia). cbn [obind]. rewrite read_char_here. cbn [obind].
  rewrite read_field by (cbn; lia). cbn [obind].
  destruct (us =? 0)%N eqn:Eus.
  - apply N.eqb_eq in Eus. subst us. cbn [obind].
    rewrite Hok. reflexivity.
  - rewrite read_char_here. cbn [obind].
    rewrite read_field by (cbn; lia). cbn [obind].
    rewrite Hok. reflexivity.
Qed.

(** *** Serialization round trip *)

Lemma FeatureCategory_of_value (c : FeatureCategory) :
  FeatureCategory_of (JStr (FeatureCategory_value c)) = Return c.
Proof. destruct c; reflexivity. Qed.

Lemma RiskLevel_of_value (l : RiskLevel) :
  RiskLevel_of (JStr (RiskLevel_value l)) = Return l.
Proof. destruct l; reflexivity. Qed.

Lemma RiskTrend_of_value (t : RiskTrend) :
  RiskTrend_of (JStr (RiskTrend_value t)) = Return t.
Proof. destruct t; reflexivity. Qed.

Lemma as_scalar_JScalar (k : string) (v : scalar) : as_scalar k (JScalar v) = Return v.
Proof. destruct v; reflexivity. Qed.

Lemma as_opt_float_JOpt (k : string) (o : option Q) :
  as_opt_float k (JOpt JNum o) = Return o.
Proof. destruct o; reflexivity. Qed.

Lemma as_opt_str_JOpt (k : string) (o : option string) :
  as_opt_str k (JOpt JStr o) = Return o.
Proof. destruct o; reflexivity. Qed.

Lemma as_float_dict_JObj (k : string) (d : dict Q) :
  as_float_dict k (JObj (map (fun kv => (fst kv, JNum (snd kv))) d)) = Return d.
Proof.
  unfold as_float_dict.
  induction d as [|[key q] d IH]; cbn [map mapM fst snd]; [reflexivity|].
  cbn [as_float bind]. rewrite IH. reflexivity.
Qed.

Lemma mapM_map {A B} (ser : A -> B) (de : B -> result A) (l : list A) :
  (forall a, de (ser a) = Return a) -> mapM de (map ser l) = Return l.
Proof.
  intro H. induction l as [|a l IH]; cbn [map mapM]; [reflexivity|].
  rewrite H, IH. reflexivity.
Qed.

Lemma deserialize_serialize_risk_factor (f : RiskFactor) :
  deserialize_risk_factor (serialize_risk_factor f) = Return f.
Proof.
  destruct f. unfold deserialize_risk_factor, serialize_risk_factor.
  cbn [rf_feature rf_category rf_description rf_current_value rf_contribution
       rf_severity rf_threshold rf_recommendation].
  cbn [obj_index obj_get dict_get String.eqb Ascii.eqb Bool.eqb bind as_str as_float].
  rewrite FeatureCategory_of_value. cbn [bind].
  rewrite as_scalar_JScalar. cbn [bind].
  rewrite as_opt_float_JOpt. cbn [bind].
  rewrite as_opt_str_JOpt. reflexivity.
Qed.

Lemma deserialize_serialize_protective_factor (f : ProtectiveFactor) :
  deserialize_protective_factor (serialize_protective_factor f) = Return f.
Proof.
  destruct f. unfold deserialize_protective_factor, serialize_protective_factor.
  cbn [pf_feature pf_category pf_description pf_current_value pf_contribution].
  cbn [obj_index obj_get dict_get String.eqb Ascii.eqb Bool.eqb bind as_str as_float].
  rewrite FeatureCategory_of_value. cbn [bind].
  rewrite as_scalar_JScalar. reflexivity.
Qed.

(** C8. Deserializing the serialized form of a prediction gives the
    prediction back, field for field, the factor lists and the
    category-score map included; the timestamp is one that the [datetime]
    constructor accepts. *)
Theorem deserialize_serialize_prediction (prediction : RiskPrediction) :
  datetime_ok (timestamp prediction) = true ->
  _deserialize_prediction (_serialize_prediction prediction) = Return prediction.
Proof.
  intro Hts. destruct prediction.
  unfold _deserialize_prediction, _serialize_prediction, json_dumps, json_loads.
  cbn [student_id timestamp risk_score risk_level confidence category_scores
       top_risk_factors protective_factors risk_trend previous_risk_score
       score_change model_version] in *.
  cbn [obj_index obj_get dict_get String.eqb Ascii.eqb Bool.eqb bind as_str as_float
       datetime_of iterate].
  rewrite (fromisoformat_isoformat _ Hts). cbn [bind].
  rewrite RiskLevel_of_value. cbn [bind].
  rewrite as_float_dict_JObj. cbn [bind].
  rewrite (mapM_map _ _ _ deserialize_serialize_risk_factor). cbn [bind].
  rewrite (mapM_map _ _ _ deserialize_serialize_protective_factor). cbn [bind].
  rewrite RiskTrend_of_value. cbn [bind].
  rewrite !as_opt_float_JOpt. reflexivity.
Qed.

(** *** Ranking of the factors *)

Section SortDesc.
Context {A : Type} (key : A -> Q).

Lemma insert_desc_perm (x : A) (l : list A) :
  Permutation (insert_desc key x l) (x :: l).
Proof.
  induction l as [|y l IH]; cbn [insert_desc]; [reflexivity|].
  destruct (Qltb (key x) (key y)); [|reflexivity].
  rewrite IH. apply perm_swap.
Qed.

Lemma sort_desc_perm (l : list A) : Permutation (sort_desc key l) l.
Proof.
  induction l as [|x l IH]; cbn [sort_desc fold_right]; [reflexivity|].
  fold (sort_desc key l). rewrite insert_desc_perm. constructor. exact IH.
Qed.

Lemma sort_desc_In (l : list A) (x : A) : In x (sort_desc key l) <-> In x l.
Proof.
  split; apply Permutation_in; [|symmetry]; apply sort_desc_perm.
Qed.


End SortDesc.

Lemma RISK_FEATURES_names (fd fd' : FeatureDefinition) :
  In fd RISK_FEATURES -> In fd' RISK_FEATURES -> name fd = name fd' -> fd = fd'.
Proof.
  unfold RISK_FEATURES. cbn [In]. intros H H' E.
  repeat (destruct H as [<-|H];
          [repeat (destruct H' as [<-|H'];
                   [first [reflexivity | discriminate E]|]);
           contradiction|]).
  contradiction.
Qed.

Lemma deserialize_serialize_prediction_witness :
  datetime_ok (timestamp Samples.sample_prediction) = true /\
  _deserialize_prediction (_serialize_prediction Samples.sample_prediction)
  = Return Samples.sample_prediction.
Proof.
  assert (H : datetime_ok (timestamp Samples.sample_prediction) = true) by reflexivity.
  split; [exact H | exact (deserialize_serialize_prediction Samples.sample_prediction H)].
Defined.

(** *** The prediction cache *)

(** A serialized prediction is read back as it was written. *)
Lemma deserialize_serialized (prediction : RiskPrediction) :
  datetime_ok (timestamp prediction) = true ->
  _deserialize_prediction (_serialize_prediction prediction) = Return prediction.
Proof.
  intro Hts. destruct prediction.
  unfold _deserialize_prediction, _serialize_prediction, json_dumps, json_loads.
  cbn [student_id timestamp risk_score risk_level confidence category_scores
       top_risk_factors protective_factors risk_trend previous_risk_score
       score_change model_version] in *.
  cbn [obj_index obj_get dict_get String.eqb Ascii.eqb Bool.eqb bind as_str as_float
       datetime_of iterate].
  rewrite (fromisoformat_isoformat _ Hts). cbn [bind].
  rewrite RiskLevel_of_value. cbn [bind].
  rewrite as_float_dict_JObj. cbn [bind].
  rewrite (mapM_map _ _ _
             deserialize_serialize_risk_factor). cbn [bind].
  rewrite (mapM_map _ _ _
             deserialize_serialize_protective_factor). cbn [bind].
  rewrite RiskTrend_of_value. cbn [bind].
  rewrite !as_opt_float_JOpt. reflexivity.
Qed.

(** A serialized prediction from which a key read by [obj[...]] is missing
    makes the deserializer raise [KeyError] for that key. *)
Lemma deserialize_without_key (prediction : RiskPrediction) (k : string) :
  datetime_ok (timestamp prediction) = true ->
  In k RiskSpec.required_keys ->
  _deserialize_prediction (RiskSpec.drop_keys [k] (_serialize_prediction prediction))
  = Raise (KeyError k).
Proof.
  intros Hts Hk. destruct prediction.
  cbn [student_id timestamp risk_score risk_level confidence category_scores
       top_risk_factors protective_factors risk_trend previous_risk_score
       score_change model_version] in *.
  pose proof (fromisoformat_isoformat _ Hts) as Hiso.
  pose proof (mapM_map _ _ top_risk_factors0
                deserialize_serialize_risk_factor) as Hrf.
  pose proof (mapM_map _ _ protective_factors0
                deserialize_serialize_protective_factor) as Hpf.
  pose proof (as_float_dict_JObj "category_scores" category_scores0) as Hcs.
  pose proof (RiskLevel_of_value risk_level0) as Hlevel.
  pose proof (RiskTrend_of_value risk_trend0) as Htrend.
  unfold RiskSpec.required_keys in Hk. cbn [In] in Hk.
  repeat (destruct Hk as [<-|Hk];
    [unfold _deserialize_prediction, _serialize_prediction, json_dumps,
       RiskSpec.drop_keys;
     cbn [student_id timestamp risk_score risk_level confidence category_scores
       top_risk_factors protective_factors risk_trend previous_risk_score
       score_change model_version
       filter existsb fst negb orb String.eqb Ascii.eqb Bool.eqb json_loads bind];
     cbn [obj_index obj_get dict_get String.eqb Ascii.eqb Bool.eqb bind as_str as_float
          datetime_of iterate as_opt_float];
     rewrite ?Hiso; cbn [bind]; rewrite ?Hlevel; cbn [bind]; rewrite ?Hcs; cbn [bind];
     rewrite ?Hrf; cbn [bind]; rewrite ?Hpf; cbn [bind]; rewrite ?Htrend; cbn [bind];
     rewrite ?as_opt_float_JOpt; reflexivity|]).
  contradiction.
Qed.

Section Cache.
Variable str_int : Z -> string.
Variable str_float : Q -> string.
Variable score : list Q -> result Q.

(** C3 (as amended). A cached value that is present and not empty is
    never recomputed: the outcome of [predict_risk] is the same whatever
    the scorer, the clock and the features.  A serialized prediction is
    returned as it was stored, with the store unchanged; a text that
    [json.loads] rejects raises [JSONDecodeError]; a JSON value that is
    not an object raises [TypeError]; a serialized prediction without one
    of the keys read by [obj[...]] raises [KeyError] for that key.  Only an
    absent or empty cached value is a miss: the prediction is then
    computed, cached and added to the history. *)
Theorem predict_risk_cached (r : redis_t) (now : datetime)
    (student_id tenant_id : string) (features : option features_t) :
  let cache_key := key3 "risk_prediction" tenant_id student_id in
  let outcome :=
    predict_risk str_int str_float score (Some r) now student_id tenant_id features in
  (forall cached,
      redis_get r cache_key = Some cached -> truthy cached = true ->
      (forall score' now' features',
          predict_risk str_int str_float score' (Some r) now' student_id tenant_id
            features' = outcome)
      /\ (forall prediction,
             datetime_ok (timestamp prediction) = true ->
             cached = _serialize_prediction prediction ->
             outcome = Return (prediction, Some r))
      /\ (forall raw, cached = Unparseable raw -> outcome = Raise JSONDecodeError)
      /\ (forall j, cached = Document j ->
             (forall members, j <> JObj members) ->
             outcome = Raise (TypeError "not subscriptable by str"))
      /\ (forall prediction k,
             datetime_ok (timestamp prediction) = true ->
             In k RiskSpec.required_keys ->
             cached = RiskSpec.drop_keys [k] (_serialize_prediction prediction) ->
             outcome = Raise (KeyError k)))
  /\ (redis_get r cache_key = None
      \/ (exists cached, redis_get r cache_key = Some cached /\ truthy cached = false) ->
      outcome
      = (prediction <-
           compute_prediction str_int str_float score (Some r) now student_id tenant_id
             features ;;
         Return (prediction,
                 _store_prediction
                   (Some (redis_setex r cache_key CACHE_TTL_SECONDS
                            (_serialize_prediction prediction)))
                   prediction tenant_id))).
Proof.
  intros cache_key outcome. split.
  - intros cached Hget Htruthy.
    assert (H : forall score' now' features',
               predict_risk str_int str_float score' (Some r) now' student_id tenant_id
                 features'
               = match _deserialize_prediction cached with
                 | Return prediction => Return (prediction, Some r)
                 | Raise e => Raise e
                 end).
    { intros score' now' features'. unfold predict_risk. fold cache_key.
      rewrite Hget, Htruthy.
      destruct (_deserialize_prediction cached); reflexivity. }
    assert (Ho : outcome
                 = match _deserialize_prediction cached with
                   | Return prediction => Return (prediction, Some r)
                   | Raise e => Raise e
                   end) by apply H.
    split; [|split; [|split; [|split]]].
    + intros score' now' features'. rewrite Ho. apply H.
    + intros prediction Hts ->. rewrite Ho, (deserialize_serialized _ Hts). reflexivity.
    + intros raw ->. rewrite Ho. reflexivity.
    + intros j -> Hj. rewrite Ho. unfold _deserialize_prediction.
      cbn [json_loads bind]. destruct j; try reflexivity.
      exfalso. exact (Hj _ eq_refl).
    + intros prediction k Hts Hk ->.
      rewrite Ho, (deserialize_without_key _ _ Hts Hk). reflexivity.
  - intros Hmiss. unfold outcome, predict_risk. fold cache_key.
    destruct Hmiss as [->|(cached & -> & ->)]; reflexivity.
Qed.
End Cache.

Lemma predict_risk_cached_witness :
  redis_get Samples.broken_cache (key3 "risk_prediction" "t1" "s1")
    = Some (Unparseable "{not json")
  /\ truthy (Unparseable "{not json") = true
  /\ predict_risk Samples.no_digits Samples.no_text Samples.even_odds
       (Some Samples.broken_cache) Samples.noon "s1" "t1" (Some [])
     = Raise JSONDecodeError.
Proof.
  assert (H1 : redis_get Samples.broken_cache (key3 "risk_prediction" "t1" "s1")
               = Some (Unparseable "{not json")) by reflexivity.
  assert (H2 : truthy (Unparseable "{not json") = true) by reflexivity.
  split; [exact H1|]. split; [exact H2|].
  exact (proj1 (proj2 (proj2
           (proj1 (predict_risk_cached Samples.no_digits Samples.no_text
                     Samples.even_odds Samples.broken_cache Samples.noon "s1" "t1"
                     (Some []))
              (Unparseable "{not json") H1 H2))) "{not json" eq_refl).
Defined.

(** C3 (counterexample). With a cached text that is not JSON, and with a
    cached JSON object without the expected keys, [predict_risk] raises,
    although the same call on a store without the cached value computes a
    prediction. *)
Lemma predict_risk_malformed_cache_raises :
  predict_risk Samples.no_digits Samples.no_text Samples.even_odds
    (Some Samples.broken_cache) Samples.noon "s1" "t1" (Some [])
  = Raise JSONDecodeError
  /\ predict_risk Samples.no_digits Samples.no_text Samples.even_odds
       (Some Samples.empty_object_cache) Samples.noon "s1" "t1" (Some [])
     = Raise (KeyError "student_id")
  /\ exists prediction store,
       predict_risk Samples.no_digits Samples.no_text Samples.even_odds
         (Some Samples.empty_store) Samples.noon "s1" "t1" (Some [])
       = Return (prediction, store).
Proof.
  split; [reflexivity|]. split; [reflexivity|].
  eexists. eexists. vm_compute. reflexivity.
Qed.

Lemma normalize_risk_contribution_monotone_witness :
  3 <= 4 /\
  _normalize_risk_contribution Samples.skill_gaps_count 3
  <= _normalize_risk_contribution Samples.skill_gaps_count 4.
Proof.
  assert (H : 3 <= 4) by (unfold Qle; simpl; lia).
  split; [exact H|].
  refine (proj1 (proj1 (proj1
    (normalize_risk_contribution_monotone Samples.skill_gaps_count 3 4 H)
    2 5 eq_refl eq_refl _) eq_refl)).
  unfold Qlt; simpl; lia.
Defined.

End RiskModelFacts.

Module BiasDetectionFacts.
Import BiasDetection.

Lemma ProtectedAttribute_value_eqb (a b : ProtectedAttribute) :
  String.eqb (ProtectedAttribute_value a) (ProtectedAttribute_value b)
  = ProtectedAttribute_eqb a b.
Proof. destruct a, b; reflexivity. Qed.

Lemma ProtectedAttribute_eqb_eq (a b : ProtectedAttribute) :
  ProtectedAttribute_eqb a b = true <-> a = b.
Proof. destruct a, b; cbn; split; congruence. Qed.

Lemma ProtectedAttribute_eqb_refl (a : ProtectedAttribute) :
  ProtectedAttribute_eqb a a = true.
Proof. destruct a; reflexivity. Qed.

Lemma ProtectedAttribute_members_NoDup : NoDup ProtectedAttribute_members.
Proof.
  unfold ProtectedAttribute_members.
  repeat constructor; cbn [In]; intuition discriminate.
Qed.

Lemma ProtectedAttribute_members_all (a : ProtectedAttribute) :
  existsb (ProtectedAttribute_eqb a) ProtectedAttribute_members = true.
Proof. destruct a; reflexivity. Qed.

Lemma grouped_append_get {V} (g : dict (dict (list V))) (a v : string) (x : V) (k : string) :
  dict_get (grouped_append g a v x) k
  = if String.eqb a k
    then option_map (fun groups => defaultdict_append groups v x) (dict_get g k)
    else dict_get g k.
Proof.
  induction g as [|[a' groups] g IH]; cbn [grouped_append dict_get].
  - destruct (String.eqb a k); reflexivity.
  - destruct (String.eqb_spec a' a) as [->|Hne]; cbn [dict_get].
    + destruct (String.eqb_spec a k) as [->|Hk]; reflexivity.
    + destruct (String.eqb_spec a' k) as [->|Hk].
      * apply String.eqb_neq in Hne. rewrite String.eqb_sym in Hne.
        rewrite Hne. reflexivity.
      * apply IH.
Qed.

Lemma group_fold_get (p : prediction) (attrs : list ProtectedAttribute)
    (g : grouped_t) (a : ProtectedAttribute) :
  NoDup attrs ->
  dict_get
    (fold_left (fun g attr =>
                  match demographic p attr with
                  | Some value => grouped_append g (ProtectedAttribute_value attr) value p
                  | None => g
                  end) attrs g)
    (ProtectedAttribute_value a)
  = option_map (if existsb (ProtectedAttribute_eqb a) attrs then Spec.place p a else fun x => x)
               (dict_get g (ProtectedAttribute_value a)).
Proof.
  intro Hnd. revert g.
  induction Hnd as [|b attrs Hb Hnd IH]; intro g; cbn [fold_left existsb].
  - destruct (dict_get g _); reflexivity.
  - rewrite IH.
    destruct (ProtectedAttribute_eqb a b) eqn:Eab; cbn [orb].
    + apply ProtectedAttribute_eqb_eq in Eab. subst b.
      assert (Ex : existsb (ProtectedAttribute_eqb a) attrs = false).
      { destruct (existsb _ attrs) eqn:E; [|reflexivity].
        apply existsb_exists in E. destruct E as (c & Hc & Ec).
        apply ProtectedAttribute_eqb_eq in Ec. subst c. contradiction. }
      rewrite Ex. unfold Spec.place.
      destruct (demographic p a) as [v|].
      * rewrite grouped_append_get, String.eqb_refl.
        destruct (dict_get g _); reflexivity.
      * destruct (dict_get g _); reflexivity.
    + destruct (demographic p b) as [v|]; [|reflexivity].
      rewrite grouped_append_get, ProtectedAttribute_value_eqb.
      assert (Eba : ProtectedAttribute_eqb b a = false).
      { destruct a, b; cbn in *; congruence. }
      rewrite Eba. reflexivity.
Qed.

Lemma group_step_get (g : grouped_t) (p : prediction) (a : ProtectedAttribute) :
  dict_get (group_step g p) (ProtectedAttribute_value a)
  = option_map (Spec.place p a) (dict_get g (ProtectedAttribute_value a)).
Proof.
  unfold group_step.
  rewrite (group_fold_get p _ g a ProtectedAttribute_members_NoDup).
  rewrite ProtectedAttribute_members_all. reflexivity.
Qed.

Lemma existsb_eqb_In (v : string) (l : list string) :
  existsb (String.eqb v) l = true <-> In v l.
Proof.
  rewrite existsb_exists. split.
  - intros (u & Hu & E). apply String.eqb_eq in E. congruence.
  - intro H. exists v. split; [assumption | apply String.eqb_refl].
Qed.

Lemma add_value_In (seen : list string) (v u : string) :
  In u (Spec.add_value seen v) <-> In u seen \/ u = v.
Proof.
  unfold Spec.add_value. destruct (existsb (String.eqb v) seen) eqn:E.
  - apply existsb_eqb_In in E. split; [tauto | intros [H| ->]; assumption].
  - rewrite in_app_iff. cbn [In]. intuition congruence.
Qed.

Lemma add_value_NoDup (seen : list string) (v : string) :
  NoDup seen -> NoDup (Spec.add_value seen v).
Proof.
  intro H. unfold Spec.add_value. destruct (existsb (String.eqb v) seen) eqn:E.
  - assumption.
  - apply NoDup_app; [assumption | repeat constructor; cbn; tauto|].
    intros u Hu [<-|[]].
    apply existsb_eqb_In in Hu. congruence.
Qed.

Lemma fold_add_value_NoDup (l seen : list string) :
  NoDup seen -> NoDup (fold_left Spec.add_value l seen).
Proof.
  revert seen. induction l as [|v l IH]; intros seen H; cbn [fold_left].
  - assumption.
  - apply IH, add_value_NoDup, H.
Qed.

Lemma fold_add_value_In (l seen : list string) (u : string) :
  In u (fold_left Spec.add_value l seen) <-> In u seen \/ In u l.
Proof.
  revert seen. induction l as [|v l IH]; intro seen; cbn [fold_left In].
  - tauto.
  - rewrite IH, add_value_In. intuition congruence.
Qed.

Lemma group_values_NoDup (ps : list prediction) (a : ProtectedAttribute) :
  NoDup (Spec.group_values ps a).
Proof. apply fold_add_value_NoDup. constructor. Qed.

Lemma group_values_In (ps : list prediction) (a : ProtectedAttribute) (v : string) :
  In v (Spec.group_values ps a) <-> exists p, In p ps /\ demographic p a = Some v.
Proof.
  unfold Spec.group_values. rewrite fold_add_value_In, collect_In. cbn [In]. tauto.
Qed.

Lemma members_of_nil (ps : list prediction) (a : ProtectedAttribute) (v : string) :
  ~ In v (Spec.group_values ps a) -> Spec.members_of ps a v = [].
Proof.
  intro Hn. unfold Spec.members_of.
  destruct (filter (Spec.carries a v) ps) as [|p l] eqn:E; [reflexivity|].
  exfalso. apply Hn. apply group_values_In.
  assert (Hp : In p (filter (Spec.carries a v) ps)) by (rewrite E; left; reflexivity).
  apply filter_In in Hp. destruct Hp as [Hin Hc].
  exists p. split; [assumption|].
  unfold Spec.carries in Hc. destruct (demographic p a) as [v'|]; [|discriminate].
  apply String.eqb_eq in Hc. congruence.
Qed.

Lemma defaultdict_append_table {V} (M : string -> list V) (vals : list string)
    (v : string) (x : V) :
  NoDup vals ->
  (~ In v vals -> M v = []) ->
  defaultdict_append (map (fun u => (u, M u)) vals) v x
  = map (fun u => (u, if String.eqb v u then M u ++ [x] else M u))
        (Spec.add_value vals v).
Proof.
  intros Hnd. induction Hnd as [|u vals Hu Hnd IH]; intro Hnew.
  - cbn. rewrite String.eqb_refl, Hnew by tauto. reflexivity.
  - cbn [map defaultdict_append]. unfold Spec.add_value. cbn [existsb].
    destruct (String.eqb_spec u v) as [->|Hne].
    + rewrite String.eqb_refl. cbn [orb map]. rewrite String.eqb_refl.
      f_equal. apply map_ext_in. intros w Hw.
      destruct (String.eqb_spec v w) as [->|_]; [contradiction | reflexivity].
    + assert (Evu : String.eqb v u = false).
      { apply String.eqb_neq. congruence. }
      rewrite Evu. cbn [orb].
      rewrite IH by (intro H; apply Hnew; cbn [In]; intuition congruence).
      unfold Spec.add_value.
      destruct (existsb (String.eqb v) vals); cbn [map app]; rewrite Evu; reflexivity.
Qed.

Lemma members_of_snoc (ps : list prediction) (p : prediction)
    (a : ProtectedAttribute) (u : string) :
  Spec.members_of (ps ++ [p]) a u
  = Spec.members_of ps a u ++ (if Spec.carries a u p then [p] else []).
Proof.
  unfold Spec.members_of. rewrite filter_app. cbn [filter].
  destruct (Spec.carries a u p); reflexivity.
Qed.

(** The grouping computed by [_group_by_demographics]: for every attribute,
    one group per distinct value, in order of first appearance, holding
    the predictions that carry the value. *)
Lemma group_by_demographics_get (ps : list prediction) (a : ProtectedAttribute) :
  dict_get (_group_by_demographics ps) (ProtectedAttribute_value a)
  = Some (map (fun v => (v, Spec.members_of ps a v)) (Spec.group_values ps a)).
Proof.
  induction ps as [|p ps IH] using rev_ind.
  - destruct a; reflexivity.
  - unfold _group_by_demographics in *. rewrite fold_left_app. cbn [fold_left].
    rewrite group_step_get, IH. cbn [option_map]. f_equal.
    unfold Spec.group_values, Spec.place. rewrite collect_app, fold_left_app.
    cbn [collect].
    fold (Spec.group_values ps a).
    destruct (demographic p a) as [v|] eqn:Ed; cbn [fold_left].
    + rewrite (defaultdict_append_table (Spec.members_of ps a))
        by (try apply group_values_NoDup; apply members_of_nil).
      apply map_ext. intro u. f_equal.
      rewrite members_of_snoc. unfold Spec.carries. rewrite Ed.
      destruct (String.eqb v u); [reflexivity | symmetry; apply app_nil_r].
    + apply map_ext. intro u. f_equal.
      rewrite members_of_snoc. unfold Spec.carries. rewrite Ed.
      symmetry. apply app_nil_r.
Qed.

(** *** The analysis on two groups of thirty *)

Example two_groups_results :
  let report := analyze_bias Samples.no_fn Samples.no_fn Samples.no_text Samples.no_text
                  "tenant" "1.0.0" Samples.two_groups None in
  map (fun r => (metric r, attribute r, reference_group r, comparison_group r, severity r))
      (fairness_results report)
  = [(STATISTICAL_PARITY, GENDER, "female", "male", CRITICAL);
     (DISPARATE_IMPACT, GENDER, "female", "male", CRITICAL)]
  /\ dict_keys (group_statistics report) = ["gender"]
  /\ dict_get (demographic_coverage report) "gender" = Some 60%nat
  /\ dict_get (demographic_coverage report) "grade_level" = Some 0%nat.
Proof. vm_compute. repeat split. Qed.

Example one_valid_group_report :
  let report := analyze_bias Samples.no_fn Samples.no_fn Samples.no_text Samples.no_text
                  "tenant" "1.0.0" Samples.one_valid_group None in
  fairness_results report = []
  /\ group_statistics report = []
  /\ dict_get (demographic_coverage report) "gender" = Some 31%nat.
Proof. vm_compute. repeat split. Qed.

Example quiet_batch_report :
  let report := analyze_bias Samples.no_fn Samples.no_fn Samples.no_text Samples.no_text
                  "tenant" "1.0.0" Samples.quiet_batch None in
  map (fun r => (metric r, ratio r, severity r, is_significant r))
      (fairness_results report)
  = [(STATISTICAL_PARITY, None, NONE, false);
     (DISPARATE_IMPACT, None, CRITICAL, true)]
  /\ overall_bias_severity report = CRITICAL
  /\ requires_review report = true.
Proof. vm_compute. repeat split. Qed.

Section Evaluators.
Variables fmt_1f fmt_2f : Q -> string.

Lemma evaluate_disparate_impact_zero_reference (attribute : ProtectedAttribute)
    (reference comparison : GroupStatistics) :
  positive_rate reference <= 0 ->
  let result := _evaluate_disparate_impact fmt_1f fmt_2f attribute reference comparison in
  ratio result = None
  /\ severity result = CRITICAL
  /\ is_significant result = true
  /\ explanation result
     = "Cannot calculate disparate impact - reference group rate is zero.".
Proof.
  intros Href result.
  assert (Eref : Qltb 0 (positive_rate reference) = false) by (apply Qltb_false; assumption).
  subst result. unfold _evaluate_disparate_impact, _generate_explanation.
  cbn [ratio severity is_significant explanation]. rewrite Eref.
  repeat split.
Qed.

End Evaluators.

(** *** The analysis loop *)

Lemma dict_get_set_other {V} (d : dict V) (k k' : string) (v : V) :
  k <> k' -> dict_get (dict_set d k v) k' = dict_get d k'.
Proof.
  intro Hne. induction d as [|[k0 v0] d IH]; cbn [dict_set dict_get].
  - apply String.eqb_neq in Hne. rewrite Hne. reflexivity.
  - destruct (String.eqb_spec k0 k) as [->|Hk]; cbn [dict_get].
    + apply String.eqb_neq in Hne. rewrite Hne. reflexivity.
    + destruct (String.eqb k0 k'); [reflexivity | exact IH].
Qed.

Lemma ProtectedAttribute_value_inj (a b : ProtectedAttribute) :
  ProtectedAttribute_value a = ProtectedAttribute_value b -> a = b.
Proof. destruct a, b; cbn; intro H; try reflexivity; discriminate. Qed.

Lemma valid_groups_count (ps : list prediction) (a : ProtectedAttribute) :
  List.length (valid_groups_of
                 (map (fun v => (v, Spec.members_of ps a v)) (Spec.group_values ps a)))
  = Spec.valid_group_count ps a.
Proof.
  unfold valid_groups_of, Spec.valid_group_count.
  change (List.length (filter ?f ?l)) with (count f l).
  rewrite count_map. reflexivity.
Qed.

Section Analysis.
Variables sqrt norm_cdf : Q -> Q.
Variables fmt_1f fmt_2f : Q -> string.

Lemma rate_gap_attribute (m : FairnessMetric) (b : ProtectedAttribute)
    (reference comparison : GroupStatistics) (x y : option Q) (r : FairnessResult) :
  In r (rate_gap fmt_1f fmt_2f m b reference comparison x y) -> attribute r = b.
Proof.
  unfold rate_gap. destruct x, y; cbn [In]; intro H; try contradiction.
  destruct H as [<-|[]]. reflexivity.
Qed.

Lemma compare_group_attribute (outcome_map : dict bool) (b : ProtectedAttribute)
    (reference stats : GroupStatistics) (r : FairnessResult) :
  In r (compare_group sqrt norm_cdf fmt_1f fmt_2f outcome_map b reference stats) ->
  attribute r = b.
Proof.
  unfold compare_group. cbn [app In]. intros [<-|[<-|H]]; try reflexivity.
  destruct outcome_map; [destruct H|].
  unfold _evaluate_equalized_odds in H. apply in_app_or in H.
  destruct H as [H|H]; apply rate_gap_attribute in H; exact H.
Qed.

Lemma analyze_attribute_untouched (ps : list prediction) (outcome_map : dict bool)
    (a b : ProtectedAttribute) (acc : list FairnessResult * dict (list GroupStatistics)) :
  (Spec.valid_group_count ps a < 2)%nat ->
  Spec.untouched a acc ->
  Spec.untouched a
    (analyze_attribute sqrt norm_cdf fmt_1f fmt_2f (_group_by_demographics ps)
       outcome_map acc b).
Proof.
  intros Hfew [Hres Hstats]. destruct acc as [results stats].
  unfold analyze_attribute. rewrite group_by_demographics_get, valid_groups_count.
  destruct (Nat.ltb_spec (Spec.valid_group_count ps b) 2) as [Hlt|Hge].
  { split; assumption. }
  assert (Hne : b <> a) by (intros ->; lia).
  assert (Hkey : dict_get (dict_set stats (ProtectedAttribute_value b)
                   (_calculate_group_statistics sqrt
                      (valid_groups_of
                         (map (fun v => (v, Spec.members_of ps b v))
                              (Spec.group_values ps b))) outcome_map))
                   (ProtectedAttribute_value a) = None).
  { rewrite dict_get_set_other; [exact Hstats|].
    intro E. apply ProtectedAttribute_value_inj in E. congruence. }
  destruct (valid_groups_of _) as [|first others]; [split; assumption|].
  destruct (find _ _) as [reference_stats|]; [|split; assumption].
  split; [|exact Hkey].
  cbn [fst]. intros r Hr. apply in_app_or in Hr. destruct Hr as [Hr|Hr].
  - apply Hres, Hr.
  - apply in_flat_map in Hr. destruct Hr as (st & _ & Hr).
    destruct (String.eqb _ _); [destruct Hr|].
    apply compare_group_attribute in Hr. congruence.
Qed.

Lemma analyze_fold_untouched (ps : list prediction) (outcome_map : dict bool)
    (a : ProtectedAttribute) (attrs : list ProtectedAttribute)
    (acc : list FairnessResult * dict (list GroupStatistics)) :
  (Spec.valid_group_count ps a < 2)%nat ->
  Spec.untouched a acc ->
  Spec.untouched a
    (fold_left (analyze_attribute sqrt norm_cdf fmt_1f fmt_2f (_group_by_demographics ps)
                  outcome_map) attrs acc).
Proof.
  intro Hfew. revert acc.
  induction attrs as [|b attrs IH]; intros acc Hacc; cbn [fold_left].
  - exact Hacc.
  - apply IH, analyze_attribute_untouched; assumption.
Qed.

Lemma demographic_coverage_get (ps : list prediction) (a : ProtectedAttribute) :
  dict_get (_calculate_demographic_coverage ps) (ProtectedAttribute_value a)
  = Some (count (Spec.has_value a) ps).
Proof. destruct a; reflexivity. Qed.

(** C10. For an attribute with fewer than two groups of at least 30
    predictions, the report has no group statistics and no fairness result
    for the attribute; its demographic coverage still counts every
    prediction that carries a value for the attribute. *)
Theorem analyze_bias_insufficient_groups (tenant_id model_version : string)
    (predictions : list prediction) (outcomes : option (list (string * bool)))
    (a : ProtectedAttribute) :
  (Spec.valid_group_count predictions a < 2)%nat ->
  let report := analyze_bias sqrt norm_cdf fmt_1f fmt_2f tenant_id model_version
                  predictions outcomes in
  dict_get (group_statistics report) (ProtectedAttribute_value a) = None
  /\ (forall r, In r (fairness_results report) -> attribute r <> a)
  /\ dict_get (demographic_coverage report) (ProtectedAttribute_value a)
     = Some (count (Spec.has_value a) predictions).
Proof.
  intros Hfew report. subst report. unfold analyze_bias.
  pose proof (analyze_fold_untouched predictions (outcome_map_of outcomes) a
                ProtectedAttribute_members ([], []) Hfew) as Hfold.
  destruct (fold_left
              (analyze_attribute sqrt norm_cdf fmt_1f fmt_2f
                 (_group_by_demographics predictions) (outcome_map_of outcomes))
              ProtectedAttribute_members ([], [])) as [results stats].
  cbn [group_statistics fairness_results demographic_coverage].
  destruct Hfold as [Hres Hstats].
  { split; [intros r []| reflexivity]. }
  repeat split.
  - exact Hstats.
  - exact Hres.
  - apply demographic_coverage_get.
Qed.

(** C9 (as amended). The confidence score of the report is exactly 0.3 for
    a batch of fewer than 100 predictions, and otherwise
    [0.4 * min(total/1000, 1) + 0.6 * mean over the attributes of
    min(valid_group_count/3, 1)]. *)
Theorem analyze_bias_confidence (tenant_id model_version : string)
    (predictions : list prediction) (outcomes : option (list (string * bool))) :
  confidence_score (analyze_bias sqrt norm_cdf fmt_1f fmt_2f tenant_id model_version
                      predictions outcomes)
  == if (List.length predictions <? 100)%nat then 0.3
     else Spec.confidence_formula predictions.
Proof.
  unfold analyze_bias.
  destruct (fold_left
              (analyze_attribute sqrt norm_cdf fmt_1f fmt_2f
                 (_group_by_demographics predictions) (outcome_map_of outcomes))
              ProtectedAttribute_members ([], [])) as [results stats].
  cbn [confidence_score]. unfold _calculate_confidence.
  destruct (List.length predictions <? 100)%nat; [reflexivity|].
  unfold Spec.confidence_formula.
  assert (Hcov : forall a,
    Qmin (Qof_nat (count (fun v => (MINIMUM_GROUP_SIZE <=? List.length v)%nat)
                     (dict_values
                        match dict_get (_group_by_demographics predictions)
                                (ProtectedAttribute_value a) with
                        | Some g => g
                        | None => []
                        end)) / 3) 1.0
    == Qmin (Qof_nat (Spec.valid_group_count predictions a) / 3) 1).
  { intro a. rewrite group_by_demographics_get.
    unfold dict_values. rewrite map_map. cbn [snd].
    unfold Spec.valid_group_count. rewrite count_map.
    apply Qmin_one. }
  unfold np_mean. rewrite py_sum_Qsum, length_map.
  unfold ProtectedAttribute_members. cbn [map Qsum List.length].
  rewrite !Hcov, Qmin_one. reflexivity.
Qed.

End Analysis.

Lemma analyze_bias_insufficient_groups_witness :
  (Spec.valid_group_count Samples.two_students GENDER < 2)%nat /\
  dict_get (group_statistics
              (analyze_bias Samples.no_fn Samples.no_fn Samples.no_text Samples.no_text
                 "tenant" "1.0.0" Samples.two_students None))
           "gender" = None /\
  dict_get (demographic_coverage
              (analyze_bias Samples.no_fn Samples.no_fn Samples.no_text Samples.no_text
                 "tenant" "1.0.0" Samples.two_students None))
           "gender" = Some 2%nat.
Proof.
  assert (H : (Spec.valid_group_count Samples.two_students GENDER < 2)%nat)
    by (vm_compute; lia).
  split; [exact H|].
  pose proof (analyze_bias_insufficient_groups Samples.no_fn Samples.no_fn
                Samples.no_text Samples.no_text "tenant" "1.0.0"
                Samples.two_students None GENDER H) as (Hs & _ & Hc).
  split; [exact Hs | exact Hc].
Defined.

(** C9 (counterexample). For the empty batch the formula gives 0, yet the
    confidence score of the report is 0.3: the score is neither the value
    of the formula nor that value limited to at most 0.3. *)
Lemma analyze_bias_confidence_empty_batch :
  let report := analyze_bias Samples.no_fn Samples.no_fn Samples.no_text Samples.no_text
                  "tenant" "1.0.0" [] None in
  Spec.confidence_formula [] == 0
  /\ confidence_score report == 0.3
  /\ ~ confidence_score report == Spec.confidence_formula []
  /\ ~ confidence_score report == Qmin (Spec.confidence_formula []) 0.3.
Proof.
  cbv zeta. split; [|split; [|split]].
  - vm_compute. reflexivity.
  - vm_compute. reflexivity.
  - intro H. vm_compute in H. discriminate.
  - intro H. vm_compute in H. discriminate.
Qed.

(** C1 (code at the failing input). Two groups with positive rate 0: the
    ratio is [None], and the severity reported is critical, not none; the
    result counts as significant while its explanation says that the
    ratio cannot be calculated. *)
Theorem evaluate_disparate_impact_zero_rates :
  let result := _evaluate_disparate_impact Samples.no_text Samples.no_text GENDER
                  (Samples.quiet_group "a") (Samples.quiet_group "b") in
  ratio result = None
  /\ severity result = CRITICAL
  /\ severity result <> NONE
  /\ is_significant result = true
  /\ explanation result
     = "Cannot calculate disparate impact - reference group rate is zero.".
Proof.
  cbv zeta.
  destruct (evaluate_disparate_impact_zero_reference Samples.no_text Samples.no_text
              GENDER (Samples.quiet_group "a") (Samples.quiet_group "b"))
    as (Hr & Hs & Hi & He).
  { unfold Qle; simpl; lia. }
  rewrite Hr, Hs, Hi, He. repeat split. discriminate.
Qed.

End BiasDetectionFacts.

(** * Further properties of the risk model *)

Module RiskModelMore.
Import RiskModel.

(** ** Numbers *)

Lemma Qof_nat_le (a b : nat) : (a <= b)%nat -> Qof_nat a <= Qof_nat b.
Proof.
  intro H. unfold Qof_nat. rewrite <- Zle_Qle. lia.
Qed.

Lemma Qof_nat_nonneg (a : nat) : 0 <= Qof_nat a.
Proof. apply (Qof_nat_le 0 a). lia. Qed.

Lemma Qabs_bound (x b : Q) : - b <= x <= b -> 0 <= Qabs x <= b.
Proof.
  intro H. split; [apply Qabs_nonneg|].
  apply Qabs_Qle_condition. exact H.
Qed.

Lemma Qsum_nonneg (l : list Q) : Forall (fun x => 0 <= x) l -> 0 <= Qsum l.
Proof.
  induction 1 as [|x l Hx Hl IH]; cbn [Qsum]; lra.
Qed.

Lemma Qsum_le_map {A} (f g : A -> Q) (l : list A) :
  Forall (fun a => f a <= g a) l -> Qsum (map f l) <= Qsum (map g l).
Proof.
  induction 1 as [|a l Ha Hl IH]; cbn [map Qsum]; lra.
Qed.

Lemma Qsum_filter_le {A} (w : A -> Q) (keep : A -> bool) (l : list A) :
  Forall (fun a => 0 <= w a) l ->
  Qsum (map w (filter keep l)) <= Qsum (map w l).
Proof.
  induction 1 as [|a l Ha Hl IH]; cbn [filter map Qsum]; [lra|].
  destruct (keep a); cbn [map Qsum]; lra.
Qed.

(** ** Contributions *)

Lemma contribution_in_unit_interval (fd : FeatureDefinition) (v : Q) :
  0 <= _normalize_risk_contribution fd v <= 1.
Proof.
  unfold _normalize_risk_contribution, Qleb.
  destruct (threshold_low fd) as [lo|]; [|lra].
  destruct (threshold_high fd) as [hi|]; [|lra].
  destruct (String.eqb (risk_direction fd) "high_is_risk");
    compare_floats; try lra;
    pose proof (RiskModelFacts.frac_bounds lo hi ltac:(lra) v ltac:(lra));
    generalize dependent ((v - lo) / (hi - lo)); intros; lra.
Qed.

(** X1. Whatever the thresholds and the direction, the contribution lies in
    [0,1]: the interpolation is only reached for a value strictly between
    the thresholds, so its divisor is positive. *)
Theorem normalize_risk_contribution_range (fd : FeatureDefinition) (v : Q) :
  0 <= _normalize_risk_contribution fd v <= 1.
Proof.
  unfold _normalize_risk_contribution, Qleb.
  destruct (threshold_low fd) as [lo|]; [|lra].
  destruct (threshold_high fd) as [hi|]; [|lra].
  destruct (String.eqb (risk_direction fd) "high_is_risk"); compare_floats; try lra.
  all: assert (Hlt : lo < hi) by lra.
  all: pose proof (RiskModelFacts.frac_bounds lo hi Hlt v ltac:(lra)) as Hb.
  all: generalize dependent ((v - lo) / (hi - lo)); intros; lra.
Qed.

(** X2. For the same thresholds with [threshold_low < threshold_high], the
    contribution of a [low_is_risk] feature is one minus that of a
    [high_is_risk] feature at every value. *)
Theorem normalize_risk_contribution_complement (up down : FeatureDefinition)
    (lo hi v : Q) :
  threshold_low up = Some lo -> threshold_high up = Some hi ->
  threshold_low down = Some lo -> threshold_high down = Some hi ->
  risk_direction up = "high_is_risk" ->
  risk_direction down <> "high_is_risk" ->
  lo < hi ->
  _normalize_risk_contribution down v == 1 - _normalize_risk_contribution up v.
Proof.
  intros Elo Ehi Elo' Ehi' Hup Hdown Hlt.
  unfold _normalize_risk_contribution, Qleb.
  rewrite Elo, Ehi, Elo', Ehi', Hup, String.eqb_refl.
  apply String.eqb_neq in Hdown. rewrite Hdown.
  compare_floats; try lra.
Qed.

Lemma normalize_risk_contribution_complement_witness :
  _normalize_risk_contribution Samples.session_frequency_7d 3
  == 1 - _normalize_risk_contribution Samples.skill_gaps_count 3.
Proof.
  apply (normalize_risk_contribution_complement
           Samples.skill_gaps_count Samples.session_frequency_7d 2 5 3);
    try reflexivity.
  discriminate.
Defined.

(** ** Confidence of a prediction *)

Lemma filter_none {A} (f : A -> bool) (l : list A) :
  (forall a, In a l -> f a = false) -> filter f l = [].
Proof.
  induction l as [|a l IH]; intro H; cbn [filter]; [reflexivity|].
  rewrite (H a) by (left; reflexivity). apply IH. intros b Hb. apply H. right. exact Hb.
Qed.

Lemma filter_all {A} (f : A -> bool) (l : list A) :
  (forall a, In a l -> f a = true) -> filter f l = l.
Proof.
  induction l as [|a l IH]; intro H; cbn [filter]; [reflexivity|].
  rewrite (H a) by (left; reflexivity). f_equal. apply IH.
  intros b Hb. apply H. right. exact Hb.
Qed.

(** X3. For a probability in [0,1] the confidence lies in [0,1]; with no
    catalog feature present it is [0.8 * |p - 0.5|], with every catalog
    feature present it is [0.6 + 0.8 * |p - 0.5|]. *)
Theorem calculate_confidence_bounds (features : features_t) (p : Q) :
  0 <= p <= 1 ->
  0 <= _calculate_confidence features p <= 1
  /\ ((forall f, In f feature_names -> features_get features f = None) ->
      _calculate_confidence features p == 0.8 * Qabs (p - 0.5))
  /\ ((forall f, In f feature_names -> features_get features f <> None) ->
      _calculate_confidence features p == 0.6 + 0.8 * Qabs (p - 0.5)).
Proof.
  intro Hp. unfold _calculate_confidence.
  set (has := fun f => match features_get features f with
                       | Some _ => true | None => false end).
  change (Qof_nat (List.length feature_names)) with 15.
  pose proof (Qabs_bound (p - 0.5) 0.5 ltac:(lra)) as Habs.
  split; [|split].
  - pose proof (Qof_nat_nonneg (List.length (filter has feature_names))) as H0.
    pose proof (Qof_nat_le _ _ (filter_length_le has feature_names)) as H1.
    change (Qof_nat (List.length feature_names)) with 15 in H1.
    assert (Hc : 0 <= Qof_nat (List.length (filter has feature_names)) / 15 <= 1).
    { split; [apply Qle_shift_div_l | apply Qle_shift_div_r]; lra. }
    generalize dependent (Qof_nat (List.length (filter has feature_names)) / 15).
    generalize dependent (Qabs (p - 0.5)). intros. lra.
  - intro Hnone. rewrite filter_none.
    + setoid_replace (Qof_nat (List.length (@nil string)) / 15) with 0 by reflexivity.
      generalize dependent (Qabs (p - 0.5)). intros. lra.
    + intros f Hf. unfold has. rewrite (Hnone f Hf). reflexivity.
  - intro Hall. rewrite filter_all.
    + setoid_replace (Qof_nat (List.length feature_names) / 15) with 1 by reflexivity.
      generalize dependent (Qabs (p - 0.5)). intros. lra.
    + intros f Hf. unfold has. specialize (Hall f Hf).
      destruct (features_get features f); [reflexivity | congruence].
Qed.

Lemma calculate_confidence_bounds_witness :
  0 <= 0.5 <= 1 /\ _calculate_confidence [] 0.5 == 0.
Proof.
  assert (H : 0 <= 0.5 <= 1) by (split; unfold Qle; simpl; lia).
  split; [exact H|].
  rewrite (proj1 (proj2 (calculate_confidence_bounds [] 0.5 H)) (fun f _ => eq_refl)).
  reflexivity.
Defined.

(** ** Category scores *)

Lemma category_score_value (features : features_t) (c : FeatureCategory) :
  dict_get (_calculate_category_scores features) (FeatureCategory_value c)
  = Some (match map (RiskSpec.weighted_contribution features)
                    (RiskSpec.present_of features c) with
          | [] => 0.0
          | values => py_sum values / category_weight_sum (FeatureCategory_value c)
          end).
Proof.
  unfold _calculate_category_scores.
  set (g := fun (category : string) (values : list Q) =>
              match values with
              | [] => 0.0
              | _ :: _ => py_sum values / category_weight_sum category
              end).
  rewrite (map_ext _ (fun kv => (fst kv, g (fst kv) (snd kv))))
    by (intros [k [|x xs]]; reflexivity).
  rewrite (RiskModelFacts.dict_get_map_values g), RiskModelFacts.category_scores_fold.
  assert (Hinit : dict_get (map (fun cat => (FeatureCategory_value cat, @nil Q))
                              FeatureCategory_members) (FeatureCategory_value c)
                  = Some []) by (destruct c; reflexivity).
  rewrite Hinit. cbn [option_map app]. subst g. cbv beta.
  fold (RiskSpec.catalog_of c). fold (RiskSpec.present_of features c).
  destruct (map _ (RiskSpec.present_of features c)); reflexivity.
Qed.

Lemma RISK_FEATURES_weights :
  Forall (fun f => 0 < importance_weight f) RISK_FEATURES.
Proof. unfold RISK_FEATURES. repeat constructor. Qed.

Lemma catalog_weight_positive (c : FeatureCategory) :
  0 < Qsum (map importance_weight (RiskSpec.catalog_of c)).
Proof. destruct c; vm_compute; reflexivity. Qed.

Lemma weighted_contribution_bounds (features : features_t) (f : FeatureDefinition) :
  0 < importance_weight f ->
  0 <= RiskSpec.weighted_contribution features f <= importance_weight f.
Proof.
  intro Hw. unfold RiskSpec.weighted_contribution.
  destruct (features_get features (name f)) as [v|]; [|lra].
  pose proof (contribution_in_unit_interval f v) as Hc.
  generalize dependent (_normalize_risk_contribution f v). intros c Hc. nra.
Qed.

(** X5. The result of [_calculate_category_scores] has exactly the four
    categories as keys, in the order academic, engagement, behavioral,
    temporal, and every score lies in [0,1]. *)
Theorem calculate_category_scores_bounds (features : features_t) :
  dict_keys (_calculate_category_scores features)
  = map FeatureCategory_value FeatureCategory_members
  /\ (forall c, exists score,
        dict_get (_calculate_category_scores features) (FeatureCategory_value c)
        = Some score
        /\ 0 <= score <= 1).
Proof.
  split.
  - unfold _calculate_category_scores, dict_keys. rewrite map_map.
    set (d := fold_left _ _ _).
    assert (Hkeys : forall l d0, map fst (fold_left (category_scores_step features) l d0)
                                 = map fst d0).
    { induction l as [|f l IH]; intro d0; cbn [fold_left]; [reflexivity|].
      rewrite IH. unfold category_scores_step.
      destruct (features_get features (name f)); [|reflexivity].
      generalize (FeatureCategory_value (category f)).
      generalize (_normalize_risk_contribution f q * importance_weight f).
      intros x k. induction d0 as [|[k0 l0] d0 IHd]; cbn [dict_append map fst];
        [reflexivity|].
      destruct (String.eqb k0 k); cbn [map fst]; [reflexivity | rewrite IHd; reflexivity]. }
    rewrite (map_ext _ fst) by (intros [k [|x xs]]; reflexivity).
    subst d. rewrite Hkeys. reflexivity.
  - intro c. eexists. split; [apply category_score_value|].
    pose proof RISK_FEATURES_weights as Hw.
    assert (Hcat : Forall (fun f => 0 < importance_weight f) (RiskSpec.catalog_of c)).
    { apply Forall_forall. intros f Hf. apply filter_In in Hf.
      rewrite Forall_forall in Hw. apply Hw, Hf. }
    assert (Hpres : Forall (fun f => 0 < importance_weight f)
                      (RiskSpec.present_of features c)).
    { apply Forall_forall. intros f Hf. apply filter_In in Hf.
      rewrite Forall_forall in Hcat. apply Hcat, Hf. }
    assert (Hnum : 0 <= Qsum (map (RiskSpec.weighted_contribution features)
                                  (RiskSpec.present_of features c))
                   <= Qsum (map importance_weight (RiskSpec.catalog_of c))).
    { split.
      - apply Qsum_nonneg, Forall_map. eapply Forall_impl; [|exact Hpres].
        intros f Hf. apply weighted_contribution_bounds, Hf.
      - apply Qle_trans with (Qsum (map importance_weight
                                      (RiskSpec.present_of features c))).
        + apply Qsum_le_map. eapply Forall_impl; [|exact Hpres].
          intros f Hf. apply weighted_contribution_bounds, Hf.
        + apply Qsum_filter_le. eapply Forall_impl; [|exact Hcat].
          cbn. intros f Hf. lra. }
    pose proof (catalog_weight_positive c) as Hpos.
    destruct (map _ (RiskSpec.present_of features c)) as [|x xs] eqn:E; [lra|].
    rewrite py_sum_Qsum, RiskModelFacts.category_weight_sum_catalog.
    split; [apply Qle_shift_div_l | apply Qle_shift_div_r]; lra.
Qed.

(** ** Ranking *)

Section Ranked.
Context {A : Type} (key : A -> Q).




End Ranked.

Section Factors.
Variable str_int : Z -> string.
Variable str_float : Q -> string.



End Factors.

(** ** The store *)

Lemma dict_get_set {V} (d : dict V) (k k' : string) (v : V) :
  dict_get (dict_set d k v) k' = if String.eqb k k' then Some v else dict_get d k'.
Proof.
  induction d as [|[k0 v0] d IH]; cbn [dict_set dict_get].
  - reflexivity.
  - destruct (String.eqb_spec k0 k) as [->|Hne]; cbn [dict_get].
    + destruct (String.eqb k k'); reflexivity.
    + rewrite IH. destruct (String.eqb_spec k0 k') as [->|_]; [|reflexivity].
      apply String.eqb_neq in Hne. rewrite String.eqb_sym in Hne.
      rewrite Hne. reflexivity.
Qed.

(** X9. After [_store_prediction], [_get_previous_prediction] for the same
    student and tenant gives the score just stored; the student's history
    holds at most 30 entries, the other histories and the cached values
    are untouched. *)
Theorem store_then_previous (r : redis_t) (prediction : RiskPrediction)
    (tenant_id : string) :
  exists r',
    _store_prediction (Some r) prediction tenant_id = Some r'
    /\ _get_previous_prediction (Some r') (student_id prediction) tenant_id
       = Return (Some (risk_score prediction))
    /\ (List.length (redis_list r' (key3 "risk_history" tenant_id (student_id prediction)))
        <= 30)%nat
    /\ (forall k, k <> key3 "risk_history" tenant_id (student_id prediction) ->
          redis_list r' k = redis_list r k)
    /\ strings r' = strings r.
Proof.
  eexists. split; [reflexivity|].
  set (key := key3 "risk_history" tenant_id (student_id prediction)).
  split; [|split; [|split]].
  - unfold _get_previous_prediction, redis_lindex0, redis_list, redis_ltrim0, redis_lpush.
    cbn [lists]. fold key. rewrite dict_get_set, String.eqb_refl.
    unfold redis_list. cbn [lists]. rewrite dict_get_set, String.eqb_refl.
    cbn [firstn hd_error truthy json_dumps json_loads bind].
    reflexivity.
  - unfold redis_list, redis_ltrim0. cbn [lists].
    rewrite dict_get_set, String.eqb_refl. apply firstn_le_length.
  - intros k Hk. unfold redis_list, redis_ltrim0, redis_lpush. cbn [lists].
    apply String.eqb_neq in Hk. rewrite String.eqb_sym in Hk.
    rewrite !dict_get_set, Hk. reflexivity.
  - reflexivity.
Qed.

(** ** The cache *)

Lemma roundtrip_prediction (prediction : RiskPrediction) :
  datetime_ok (timestamp prediction) = true ->
  _deserialize_prediction (_serialize_prediction prediction) = Return prediction.
Proof. exact (RiskModelFacts.deserialize_serialized prediction). Qed.

Section CacheHit.
Variable str_int : Z -> string.
Variable str_float : Q -> string.

Lemma compute_prediction_timestamp (score : list Q -> result Q)
    (redis : option redis_t) (now : datetime) (sid tid : string)
    (features : option features_t) (prediction : RiskPrediction) :
  compute_prediction str_int str_float score redis now sid tid features
  = Return prediction ->
  timestamp prediction = now.
Proof.
  unfold compute_prediction.
  destruct (score _) as [risk_prob|]; [|discriminate]. cbn [bind].
  destruct (_get_previous_prediction redis sid tid) as [previous|]; [|discriminate].
  cbn [bind]. destruct (_calculate_trend risk_prob previous).
  intro H. injection H as <-. reflexivity.
Qed.

(** X10. When [predict_risk] has returned a prediction with a store, the
    next call for the same student and tenant on that store returns the
    same prediction and leaves the store as it is, whatever the scorer,
    the clock and the features passed: it is answered from the cache. *)
Theorem predict_risk_again (score score' : list Q -> result Q) (r : redis_t)
    (now now' : datetime) (sid tid : string) (features features' : option features_t)
    (prediction : RiskPrediction) (redis' : option redis_t) :
  datetime_ok now = true ->
  predict_risk str_int str_float score (Some r) now sid tid features
  = Return (prediction, redis') ->
  predict_risk str_int str_float score' redis' now' sid tid features'
  = Return (prediction, redis').
Proof.
  intros Hnow. unfold predict_risk at 1.
  destruct (redis_get r (key3 "risk_prediction" tid sid)) as [c|] eqn:Hget.
  - destruct (truthy c) eqn:Ht.
    + destruct (_deserialize_prediction c) as [p|] eqn:Hd; [|discriminate].
      cbn [bind]. intro H. injection H as <- <-.
      unfold predict_risk. rewrite Hget, Ht, Hd. reflexivity.
    + destruct (compute_prediction _ _ _ _ _ _ _ _) as [p|] eqn:Hc; [|discriminate].
      cbn [bind]. intro H. injection H as <- <-.
      unfold predict_risk, _store_prediction, redis_get, redis_ltrim0, redis_lpush,
        redis_setex. cbn [strings].
      rewrite dict_get_set, String.eqb_refl.
      change (truthy (_serialize_prediction p)) with true. cbv iota.
      rewrite roundtrip_prediction
        by (rewrite (compute_prediction_timestamp _ _ _ _ _ _ _ Hc); exact Hnow).
      reflexivity.
  - destruct (compute_prediction _ _ _ _ _ _ _ _) as [p|] eqn:Hc; [|discriminate].
    cbn [bind]. intro H. injection H as <- <-.
    unfold predict_risk, _store_prediction, redis_get, redis_ltrim0, redis_lpush,
      redis_setex. cbn [strings].
    rewrite dict_get_set, String.eqb_refl.
    change (truthy (_serialize_prediction p)) with true. cbv iota.
    rewrite roundtrip_prediction
      by (rewrite (compute_prediction_timestamp _ _ _ _ _ _ _ Hc); exact Hnow).
    reflexivity.
Qed.
End CacheHit.

Lemma predict_risk_again_witness :
  datetime_ok Samples.noon = true /\
  exists prediction redis',
    predict_risk Samples.no_digits Samples.no_text Samples.even_odds
      (Some Samples.empty_store) Samples.noon "s1" "t1" (Some [])
    = Return (prediction, redis')
    /\ predict_risk Samples.no_digits Samples.no_text
         (fun _ => Raise (ScoringError "down")) redis' Samples.noon "s1" "t1" None
       = Return (prediction, redis').
Proof.
  split; [reflexivity|].
  destruct (predict_risk Samples.no_digits Samples.no_text Samples.even_odds
              (Some Samples.empty_store) Samples.noon "s1" "t1" (Some []))
    as [[prediction redis']|e] eqn:E.
  - exists prediction, redis'. split; [reflexivity|].
    exact (predict_risk_again Samples.no_digits Samples.no_text Samples.even_odds
             (fun _ => Raise (ScoringError "down")) Samples.empty_store
             Samples.noon Samples.noon "s1" "t1" (Some []) None
             prediction redis' eq_refl E).
  - vm_compute in E. discriminate E.
Defined.

(** ** Missing keys in a cached document *)

(** X11. A cached document without the keys [previous_risk_score] and
    [score_change] is read with both fields [None]; without one of the
    keys read by [obj[...]] the deserializer raises [KeyError] for that
    key. *)
Theorem deserialize_missing_keys (prediction : RiskPrediction) :
  datetime_ok (timestamp prediction) = true ->
  _deserialize_prediction
    (RiskSpec.drop_keys ["previous_risk_score"; "score_change"]
       (_serialize_prediction prediction))
  = Return {| student_id := student_id prediction;
              timestamp := timestamp prediction;
              risk_score := risk_score prediction;
              risk_level := risk_level prediction;
              confidence := confidence prediction;
              category_scores := category_scores prediction;
              top_risk_factors := top_risk_factors prediction;
              protective_factors := protective_factors prediction;
              risk_trend := risk_trend prediction;
              previous_risk_score := None;
              score_change := None;
              model_version := model_version prediction |}
  /\ (forall k, In k RiskSpec.required_keys ->
        _deserialize_prediction
          (RiskSpec.drop_keys [k] (_serialize_prediction prediction))
        = Raise (KeyError k)).
Proof.
  intro Hts. destruct prediction.
  cbn [student_id timestamp risk_score risk_level confidence category_scores
       top_risk_factors protective_factors risk_trend previous_risk_score
       score_change model_version] in *.
  pose proof (RiskModelFacts.fromisoformat_isoformat _ Hts) as Hiso.
  pose proof (RiskModelFacts.mapM_map _ _ top_risk_factors0
                RiskModelFacts.deserialize_serialize_risk_factor) as Hrf.
  pose proof (RiskModelFacts.mapM_map _ _ protective_factors0
                RiskModelFacts.deserialize_serialize_protective_factor) as Hpf.
  pose proof (RiskModelFacts.as_float_dict_JObj "category_scores" category_scores0) as Hcs.
  pose proof (RiskModelFacts.RiskLevel_of_value risk_level0) as Hlevel.
  pose proof (RiskModelFacts.RiskTrend_of_value risk_trend0) as Htrend.
  split.
  - unfold _deserialize_prediction, _serialize_prediction, json_dumps, RiskSpec.drop_keys.
    cbn [student_id timestamp risk_score risk_level confidence category_scores
         top_risk_factors protective_factors risk_trend previous_risk_score
         score_change model_version
         filter existsb fst negb orb String.eqb Ascii.eqb Bool.eqb json_loads bind].
    cbn [obj_index obj_get dict_get String.eqb Ascii.eqb Bool.eqb bind as_str as_float
         datetime_of iterate as_opt_float].
    rewrite Hiso. cbn [bind]. rewrite Hlevel. cbn [bind]. rewrite Hcs. cbn [bind].
    rewrite Hrf. cbn [bind]. rewrite Hpf. cbn [bind]. rewrite Htrend. reflexivity.
  - intros k Hk. unfold RiskSpec.required_keys in Hk. cbn [In] in Hk.
    repeat (destruct Hk as [<-|Hk];
      [unfold _deserialize_prediction, _serialize_prediction, json_dumps,
         RiskSpec.drop_keys;
       cbn [student_id timestamp risk_score risk_level confidence category_scores
         top_risk_factors protective_factors risk_trend previous_risk_score
         score_change model_version
         filter existsb fst negb orb String.eqb Ascii.eqb Bool.eqb json_loads bind];
       cbn [obj_index obj_get dict_get String.eqb Ascii.eqb Bool.eqb bind as_str as_float
            datetime_of iterate as_opt_float];
       rewrite ?Hiso; cbn [bind]; rewrite ?Hlevel; cbn [bind]; rewrite ?Hcs; cbn [bind];
       rewrite ?Hrf; cbn [bind]; rewrite ?Hpf; cbn [bind]; rewrite ?Htrend; cbn [bind];
       rewrite ?RiskModelFacts.as_opt_float_JOpt; reflexivity|]).
    contradiction.
Qed.

Lemma deserialize_missing_keys_witness :
  datetime_ok (timestamp Samples.sample_prediction) = true /\
  _deserialize_prediction
    (RiskSpec.drop_keys ["risk_level"] (_serialize_prediction Samples.sample_prediction))
  = Raise (KeyError "risk_level").
Proof.
  assert (H : datetime_ok (timestamp Samples.sample_prediction) = true) by reflexivity.
  split; [exact H|].
  apply (proj2 (deserialize_missing_keys Samples.sample_prediction H)).
  unfold RiskSpec.required_keys. cbn [In]. tauto.
Defined.

(** ** Batches *)

Section Batches.
Variable str_int : Z -> string.
Variable str_float : Q -> string.
Variable score : list Q -> result Q.
Variable clock : nat -> datetime.
Variable tenant_id : string.

Local Abbreviation loop := (batch_loop str_int str_float score clock tenant_id).

Lemma batch_loop_app (l1 l2 : list string) (i : nat) (redis : option redis_t)
    (results : dict RiskPrediction) :
  loop (l1 ++ l2) i redis results
  = loop l2 (i + List.length l1) (snd (loop l1 i redis results))
      (fst (loop l1 i redis results)).
Proof.
  revert i redis results.
  induction l1 as [|sid l1 IH]; intros i redis results; cbn [app batch_loop List.length].
  - rewrite Nat.add_0_r. reflexivity.
  - destruct (predict_risk _ _ _ _ _ _ _ _) as [[p r']|e];
      rewrite IH; f_equal; lia.
Qed.

(** X12. A student whose prediction raises is left out of the batch: the
    students after it are processed on the store and with the results that
    the students before it produced, as if it had not been requested. *)
Theorem batch_skips_failure (before after : list string) (student_id : string)
    (redis : option redis_t) (e : exn) :
  predict_risk str_int str_float score
    (snd (predict_risk_batch str_int str_float score clock tenant_id redis before))
    (clock (List.length before)) student_id tenant_id None
  = Raise e ->
  predict_risk_batch str_int str_float score clock tenant_id redis
    (before ++ student_id :: after)
  = loop after (S (List.length before))
      (snd (predict_risk_batch str_int str_float score clock tenant_id redis before))
      (fst (predict_risk_batch str_int str_float score clock tenant_id redis before)).
Proof.
  unfold predict_risk_batch. intro Hfail.
  rewrite batch_loop_app. cbn [batch_loop Nat.add]. rewrite Hfail. reflexivity.
Qed.

Lemma batch_loop_keys (l : list string) (i : nat) (redis : option redis_t)
    (results : dict RiskPrediction) (k : string) :
  dict_get (fst (loop l i redis results)) k <> None ->
  dict_get results k <> None \/ In k l.
Proof.
  revert i redis results.
  induction l as [|sid l IH]; intros i redis results; cbn [batch_loop fst In].
  - tauto.
  - destruct (predict_risk _ _ _ _ _ _ _ _) as [[p r']|err]; intro H;
      apply IH in H.
    + rewrite dict_get_set in H.
      destruct (String.eqb_spec sid k) as [->|_]; tauto.
    + tauto.
Qed.

Lemma batch_loop_bare (q : Q) (l : list string) (i : nat)
    (results : dict RiskPrediction) :
  score (_prepare_features []) = Return q ->
  (forall sid p, dict_get results sid = Some p -> RiskSpec.bare q sid p) ->
  snd (loop l i None results) = None
  /\ (forall sid p, dict_get (fst (loop l i None results)) sid = Some p -> RiskSpec.bare q sid p)
  /\ (forall sid, In sid l \/ dict_get results sid <> None ->
        dict_get (fst (loop l i None results)) sid <> None).
Proof.
  intro Hscore. revert i results.
  induction l as [|s l IH]; intros i results Hres; cbn [batch_loop fst snd In].
  - split; [reflexivity|]. split; [exact Hres | intros sid [[]|H]; exact H].
  - assert (Hp : exists p,
              predict_risk str_int str_float score None (clock i) s tenant_id None
              = Return (p, None) /\ RiskSpec.bare q s p).
    { unfold predict_risk, compute_prediction, _fetch_student_features.
      rewrite Hscore. cbn [bind _get_previous_prediction _calculate_trend
                           _store_prediction].
      eexists. split; [reflexivity|]. unfold RiskSpec.bare. repeat split. }
    destruct Hp as (p & Hp & Hbare). rewrite Hp.
    destruct (IH (S i) (dict_set results s p)) as (Hn & Hb & Hk).
    { intros sid p' H. rewrite dict_get_set in H.
      destruct (String.eqb_spec s sid) as [->|_]; [|exact (Hres sid p' H)].
      injection H as <-. exact Hbare. }
    split; [exact Hn|]. split; [exact Hb|].
    intros sid H. apply Hk. rewrite dict_get_set.
    destruct (String.eqb_spec s sid) as [->|Hne].
    + right. discriminate.
    + destruct H as [[->|H]|H]; [congruence | left; exact H | right; exact H].
Qed.

(** X13. Every key of the batch result is one of the requested students.
    Without a store the features are the empty placeholder: when the
    scorer fails on the all-zero vector the result is empty, and when it
    gives [q] every requested student has a prediction with score [q], the
    tier of [q], no factors and a stable trend. *)
Theorem predict_risk_batch_result (redis : option redis_t) (student_ids : list string) :
  (forall k,
     dict_get (fst (predict_risk_batch str_int str_float score clock tenant_id
                      redis student_ids)) k <> None ->
     In k student_ids)
  /\ match score (_prepare_features []) with
     | Raise _ =>
         predict_risk_batch str_int str_float score clock tenant_id None student_ids
         = ([], None)
     | Return q =>
         forall sid, In sid student_ids ->
           exists p,
             dict_get (fst (predict_risk_batch str_int str_float score clock tenant_id
                              None student_ids)) sid = Some p
             /\ student_id p = sid /\ risk_score p = q
             /\ risk_level p = _get_risk_level q
             /\ top_risk_factors p = [] /\ protective_factors p = []
             /\ risk_trend p = STABLE /\ previous_risk_score p = None
     end.
Proof.
  split.
  - intros k H. unfold predict_risk_batch in H. apply batch_loop_keys in H.
    destruct H as [H|H]; [cbn in H; congruence | exact H].
  - destruct (score (_prepare_features [])) as [q|e] eqn:Hscore.
    + intros sid Hin. unfold predict_risk_batch.
      destruct (batch_loop_bare q student_ids 0 [] Hscore) as (_ & Hb & Hk).
      { intros s p H. discriminate H. }
      specialize (Hk sid (or_introl Hin)).
      destruct (dict_get _ sid) as [p|] eqn:E; [|congruence].
      exists p. split; [reflexivity|]. exact (Hb sid p E).
    + unfold predict_risk_batch. generalize 0%nat.
      induction student_ids as [|s l IH]; intro i; cbn [batch_loop]; [reflexivity|].
      unfold predict_risk at 1. unfold compute_prediction, _fetch_student_features.
      rewrite Hscore. cbn [bind]. apply IH.
Qed.
End Batches.

Lemma batch_skips_failure_witness :
  predict_risk Samples.no_digits Samples.no_text Samples.even_odds
    (snd (predict_risk_batch Samples.no_digits Samples.no_text Samples.even_odds
            (fun _ => Samples.noon) "t1" (Some Samples.broken_cache) []))
    Samples.noon "s1" "t1" None
  = Raise JSONDecodeError
  /\ dict_keys (fst (predict_risk_batch Samples.no_digits Samples.no_text
                       Samples.even_odds (fun _ => Samples.noon) "t1"
                       (Some Samples.broken_cache) ["s1"; "s2"]))
     = ["s2"].
Proof.
  assert (H : predict_risk Samples.no_digits Samples.no_text Samples.even_odds
                (snd (predict_risk_batch Samples.no_digits Samples.no_text
                        Samples.even_odds (fun _ => Samples.noon) "t1"
                        (Some Samples.broken_cache) []))
                Samples.noon "s1" "t1" None
              = Raise JSONDecodeError) by reflexivity.
  split; [exact H|].
  pose proof (batch_skips_failure Samples.no_digits Samples.no_text Samples.even_odds
                (fun _ => Samples.noon) "t1" [] ["s2"] "s1" (Some Samples.broken_cache)
                JSONDecodeError H) as E.
  cbn [app] in E. rewrite E. vm_compute. reflexivity.
Defined.

(** ** Identifiers in log lines *)

Lemma take_length (n : nat) (s : string) : (String.length (take n s) <= n)%nat.
Proof.
  revert s. induction n as [|n IH]; intros [|c s]; cbn [take String.length]; try lia.
  specialize (IH s). lia.
Qed.

Lemma take_all (n : nat) (s : string) : (String.length s <= n)%nat -> take n s = s.
Proof.
  revert s. induction n as [|n IH]; intros [|c s]; cbn [take String.length]; intro H;
    try reflexivity; try lia.
  f_equal. apply IH. lia.
Qed.

Lemma keep_allowed_length (s : string) :
  (String.length (keep_allowed s) <= String.length s)%nat.
Proof.
  induction s as [|c s IH]; cbn [keep_allowed String.length]; [lia|].
  destruct (allowed_char c); cbn [String.length]; lia.
Qed.

Lemma keep_allowed_chars (s : string) :
  Forall (fun c => allowed_char c = true) (list_ascii_of_string (keep_allowed s)).
Proof.
  induction s as [|c s IH]; cbn [keep_allowed list_ascii_of_string]; [constructor|].
  destruct (allowed_char c) eqn:E; [|exact IH].
  cbn [list_ascii_of_string]. constructor; assumption.
Qed.

Lemma keep_allowed_all (s : string) :
  Forall (fun c => allowed_char c = true) (list_ascii_of_string s) ->
  keep_allowed s = s.
Proof.
  induction s as [|c s IH]; cbn [keep_allowed list_ascii_of_string]; intro H;
    [reflexivity|].
  apply Forall_cons_iff in H. destruct H as [Hc Hs].
  rewrite Hc, (IH Hs). reflexivity.
Qed.

(** X14. [_sanitize_id] never returns the empty string and never more than
    128 characters; its result is [<empty>] (exactly for the empty
    identifier), [<invalid>], or made of characters of [[a-zA-Z0-9_-]]
    only.  A non-empty identifier of at most 128 such characters is
    returned unchanged. *)
Theorem sanitize_id_safe (identifier : string) :
  _sanitize_id identifier <> EmptyString
  /\ (String.length (_sanitize_id identifier) <= 128)%nat
  /\ (_sanitize_id identifier = "<empty>" <-> identifier = EmptyString)
  /\ (_sanitize_id identifier = "<empty>"
      \/ _sanitize_id identifier = "<invalid>"
      \/ Forall (fun c => allowed_char c = true)
                (list_ascii_of_string (_sanitize_id identifier)))
  /\ (identifier <> EmptyString ->
      (String.length identifier <= 128)%nat ->
      Forall (fun c => allowed_char c = true) (list_ascii_of_string identifier) ->
      _sanitize_id identifier = identifier).
Proof.
  unfold _sanitize_id.
  destruct identifier as [|c0 s0].
  { repeat split; try discriminate; try (cbn; lia); try tauto; congruence. }
  set (identifier := String c0 s0).
  pose proof (take_length 128 identifier) as Htake.
  pose proof (keep_allowed_length (take 128 identifier)) as Hkeep.
  pose proof (keep_allowed_chars (take 128 identifier)) as Hchars.
  split; [|split; [|split; [|split]]].
  - destruct (keep_allowed (take 128 identifier)); discriminate.
  - destruct (keep_allowed (take 128 identifier)); [cbn; lia | lia].
  - split; [|discriminate].
    destruct (keep_allowed (take 128 identifier)) as [|c s] eqn:E; [discriminate|].
    intro H. rewrite H in Hchars. cbn in Hchars.
    apply Forall_cons_iff in Hchars. destruct Hchars as [Hc _]. discriminate Hc.
  - destruct (keep_allowed (take 128 identifier)) as [|c s]; [right; left; reflexivity|].
    right. right. exact Hchars.
  - intros _ Hlen Hall. rewrite take_all, keep_allowed_all by assumption.
    reflexivity.
Qed.

End RiskModelMore.

(** * Further properties of the fairness audit *)

Module BiasDetectionMore.
Import BiasDetection.

(** ** Severity tables *)

Ltac severity_cases :=
  cbn [dict_get]; cbv [String.eqb Ascii.eqb Bool.eqb];
  compare_floats; cbn [Spec.severity_rank];
  repeat split; intros; try reflexivity; try discriminate; try lia; try lra.

(** X15. For every metric the severity of [_get_severity] never decreases
    when the difference grows.  With the parity table (statistical parity,
    equalized odds, false positive and false negative rate) it is none
    below 0.05, low from 0.05, moderate from 0.10, high from 0.15 and
    critical from 0.20; the calibration metric has no table and is always
    none. *)
Theorem get_severity_monotone (metric : FairnessMetric) (d1 d2 : Q) :
  d1 <= d2 ->
  (Spec.severity_rank (_get_severity metric d1)
   <= Spec.severity_rank (_get_severity metric d2))%nat
  /\ _get_severity CALIBRATION d1 = NONE
  /\ (metric <> CALIBRATION -> metric <> DISPARATE_IMPACT ->
      (_get_severity metric d1 = NONE <-> d1 < 0.05)
      /\ (_get_severity metric d1 = LOW <-> 0.05 <= d1 < 0.10)
      /\ (_get_severity metric d1 = MODERATE <-> 0.10 <= d1 < 0.15)
      /\ (_get_severity metric d1 = HIGH <-> 0.15 <= d1 < 0.20)
      /\ (_get_severity metric d1 = CRITICAL <-> 0.20 <= d1)).
Proof.
  intro H. split; [|split].
  - destruct metric; unfold _get_severity, reaches, BIAS_THRESHOLDS, parity_table;
      severity_cases.
  - reflexivity.
  - intros Hc Hd.
    destruct metric; try congruence;
      unfold _get_severity, reaches, BIAS_THRESHOLDS, parity_table; severity_cases.
Qed.

Lemma get_severity_monotone_witness :
  0.12 <= 0.17 /\
  _get_severity STATISTICAL_PARITY 0.12 = MODERATE /\
  _get_severity STATISTICAL_PARITY 0.17 = HIGH.
Proof.
  assert (H : 0.12 <= 0.17) by (unfold Qle; simpl; lia).
  split; [exact H|].
  destruct (get_severity_monotone STATISTICAL_PARITY 0.12 0.17 H) as (_ & _ & Ht).
  destruct (get_severity_monotone STATISTICAL_PARITY 0.17 0.17 (Qle_refl _))
    as (_ & _ & Ht').
  split.
  - apply (Ht ltac:(discriminate) ltac:(discriminate)).
    split; unfold Qle, Qlt; simpl; lia.
  - apply (Ht' ltac:(discriminate) ltac:(discriminate)).
    split; unfold Qle, Qlt; simpl; lia.
Defined.

(** X16. The severity of [_get_severity_di] never decreases when the ratio
    shrinks. *)
Theorem get_severity_di_antitone (r1 r2 : Q) :
  r1 <= r2 ->
  (Spec.severity_rank (_get_severity_di r2)
   <= Spec.severity_rank (_get_severity_di r1))%nat.
Proof.
  intro H. unfold _get_severity_di, within, BIAS_THRESHOLDS. severity_cases.
Qed.

Lemma get_severity_di_antitone_witness :
  0.65 <= 0.95 /\
  (Spec.severity_rank (_get_severity_di 0.95)
   <= Spec.severity_rank (_get_severity_di 0.65))%nat.
Proof.
  assert (H : 0.65 <= 0.95) by (unfold Qle; simpl; lia).
  split; [exact H | exact (get_severity_di_antitone 0.65 0.95 H)].
Defined.

(** ** Overall severity *)

Lemma existsb_severity (sev : BiasSeverity) (l : list BiasSeverity) :
  existsb (BiasSeverity_eqb sev) l = true <-> In sev l.
Proof.
  rewrite existsb_exists. split.
  - intros (x & Hx & E). destruct sev, x; try discriminate E; exact Hx.
  - intro H. exists sev. split; [exact H | destruct sev; reflexivity].
Qed.

Lemma significant_severities (results : list FairnessResult) (sev : BiasSeverity) :
  In sev (map severity (filter is_significant results))
  <-> exists r, In r results /\ is_significant r = true /\ severity r = sev.
Proof.
  rewrite in_map_iff. split.
  - intros (r & E & Hr). apply filter_In in Hr. exists r. tauto.
  - intros (r & Hr & Hs & E). exists r. split; [exact E|]. apply filter_In. tauto.
Qed.

Lemma overall_severity_is_maximum (results : list FairnessResult) :
  (forall r, In r results -> is_significant r = true ->
     (Spec.severity_rank (severity r)
      <= Spec.severity_rank (_determine_overall_severity results))%nat)
  /\ (_determine_overall_severity results = NONE
      \/ exists r, In r results /\ is_significant r = true
                  /\ severity r = _determine_overall_severity results).
Proof.
  unfold _determine_overall_severity.
  destruct results as [|r0 results0]; [split; [intros r []| left; reflexivity]|].
  set (results := r0 :: results0).
  set (severities := map severity (filter is_significant results)).
  assert (Hin : forall sev, existsb (BiasSeverity_eqb sev) severities = true
                            <-> exists r, In r results /\ is_significant r = true
                                          /\ severity r = sev).
  { intro sev. unfold severities. rewrite existsb_severity.
    apply significant_severities. }
  assert (Hnil : severities = [] ->
                 forall r, In r results -> is_significant r = true -> False).
  { intros E r Hr Hs.
    assert (H : In (severity r) severities).
    { apply significant_severities. exists r. tauto. }
    rewrite E in H. exact H. }
  destruct severities as [|s0 ss] eqn:Esev.
  { split; [intros r Hr Hs; destruct (Hnil eq_refl r Hr Hs) | left; reflexivity]. }
  clear Hnil. cbn [find].
  destruct (existsb (BiasSeverity_eqb CRITICAL) (s0 :: ss)) eqn:E4.
  { split.
    - intros r _ _. destruct (severity r); cbn; lia.
    - right. apply Hin. exact E4. }
  destruct (existsb (BiasSeverity_eqb HIGH) (s0 :: ss)) eqn:E3.
  { split.
    - intros r Hr Hs. destruct (severity r) eqn:E; cbn; try lia.
      assert (H : existsb (BiasSeverity_eqb CRITICAL) (s0 :: ss) = true)
        by (apply Hin; exists r; tauto).
      congruence.
    - right. apply Hin. exact E3. }
  destruct (existsb (BiasSeverity_eqb MODERATE) (s0 :: ss)) eqn:E2.
  { split.
    - intros r Hr Hs. destruct (severity r) eqn:E; cbn; try lia.
      + assert (H : existsb (BiasSeverity_eqb HIGH) (s0 :: ss) = true)
          by (apply Hin; exists r; tauto).
        congruence.
      + assert (H : existsb (BiasSeverity_eqb CRITICAL) (s0 :: ss) = true)
          by (apply Hin; exists r; tauto).
        congruence.
    - right. apply Hin. exact E2. }
  destruct (existsb (BiasSeverity_eqb LOW) (s0 :: ss)) eqn:E1.
  { split.
    - intros r Hr Hs. destruct (severity r) eqn:E; cbn; try lia.
      + assert (H : existsb (BiasSeverity_eqb MODERATE) (s0 :: ss) = true)
          by (apply Hin; exists r; tauto).
        congruence.
      + assert (H : existsb (BiasSeverity_eqb HIGH) (s0 :: ss) = true)
          by (apply Hin; exists r; tauto).
        congruence.
      + assert (H : existsb (BiasSeverity_eqb CRITICAL) (s0 :: ss) = true)
          by (apply Hin; exists r; tauto).
        congruence.
    - right. apply Hin. exact E1. }
  split; [|left; reflexivity].
  intros r Hr Hs. destruct (severity r) eqn:E; cbn; try lia.
  - assert (H : existsb (BiasSeverity_eqb LOW) (s0 :: ss) = true)
      by (apply Hin; exists r; tauto).
    congruence.
  - assert (H : existsb (BiasSeverity_eqb MODERATE) (s0 :: ss) = true)
      by (apply Hin; exists r; tauto).
    congruence.
  - assert (H : existsb (BiasSeverity_eqb HIGH) (s0 :: ss) = true)
      by (apply Hin; exists r; tauto).
    congruence.
  - assert (H : existsb (BiasSeverity_eqb CRITICAL) (s0 :: ss) = true)
      by (apply Hin; exists r; tauto).
    congruence.
Qed.

(** X19. The overall severity is the highest severity among the
    significant results: no significant result is more severe, and unless
    it is none some significant result has exactly that severity.  Results
    that are not significant do not count. *)
Theorem determine_overall_severity_maximum (results : list FairnessResult) :
  (forall r, In r results -> is_significant r = true ->
     (Spec.severity_rank (severity r)
      <= Spec.severity_rank (_determine_overall_severity results))%nat)
  /\ (_determine_overall_severity results = NONE
      \/ exists r, In r results /\ is_significant r = true
                  /\ severity r = _determine_overall_severity results)
  /\ _determine_overall_severity results
     = _determine_overall_severity (filter is_significant results).
Proof.
  destruct (overall_severity_is_maximum results) as [Hmax Hwit].
  split; [exact Hmax|]. split; [exact Hwit|].
  destruct (overall_severity_is_maximum (filter is_significant results))
    as [Hmax' Hwit'].
  assert (Hle : (Spec.severity_rank (_determine_overall_severity results)
                 <= Spec.severity_rank
                      (_determine_overall_severity (filter is_significant results)))%nat).
  { destruct Hwit as [->|(r & Hr & Hs & <-)]; [cbn; lia|].
    apply Hmax'; [apply filter_In; tauto | exact Hs]. }
  assert (Hge : (Spec.severity_rank
                   (_determine_overall_severity (filter is_significant results))
                 <= Spec.severity_rank (_determine_overall_severity results))%nat).
  { destruct Hwit' as [->|(r & Hr & Hs & <-)]; [cbn; lia|].
    apply filter_In in Hr. apply Hmax; tauto. }
  destruct (_determine_overall_severity results),
           (_determine_overall_severity (filter is_significant results));
    cbn in Hle, Hge; try reflexivity; lia.
Qed.

(** ** Numbers *)

Lemma Qof_nat_add (a b : nat) : Qof_nat (a + b) == Qof_nat a + Qof_nat b.
Proof.
  unfold Qof_nat. rewrite Nat2Z.inj_add, inject_Z_plus. reflexivity.
Qed.

Lemma Qof_nat_pos (a : nat) : (0 < a)%nat -> 0 < Qof_nat a.
Proof.
  intro H. unfold Qof_nat. change 0 with (inject_Z 0). rewrite <- Zlt_Qlt. lia.
Qed.

Lemma Qsum_unit_interval (l : list Q) :
  Forall (fun x => 0 <= x <= 1) l -> 0 <= Qsum l <= Qof_nat (List.length l).
Proof.
  induction 1 as [|x l Hx Hl IH]; cbn [Qsum List.length].
  - change (Qof_nat 0) with 0. lra.
  - change (S (List.length l)) with (1 + List.length l)%nat.
    rewrite Qof_nat_add. change (Qof_nat 1) with 1. lra.
Qed.

Lemma Qmin_unit (x : Q) : 0 <= x -> 0 <= Qmin x 1.0 <= 1.
Proof.
  intro H. destruct (Q.min_spec x 1.0) as [[H1 ->]|[H1 ->]]; lra.
Qed.

Lemma count_le {A} (f : A -> bool) (l : list A) : (count f l <= List.length l)%nat.
Proof. apply filter_length_le. Qed.

Lemma count_split {A} (p q : A -> bool) (l : list A) :
  (count (fun x => p x && q x) l + count (fun x => negb (p x) && q x) l = count q l)%nat.
Proof.
  unfold count. induction l as [|x l IH]; cbn [filter List.length]; [reflexivity|].
  destruct (p x), (q x); cbn [andb negb List.length]; lia.
Qed.

Lemma count_filter_map {A B} (f : B -> bool) (g : A -> B) (l : list A) :
  List.length (filter f (map g l)) = count (fun a => f (g a)) l.
Proof. apply (count_map f g l). Qed.

(** ** Confidence of an analysis *)

(** X20. Whatever the grouping, the confidence of an analysis lies between
    0.04 and 1, and it is at least 0.4 for a batch of 1000 predictions or
    more. *)
Theorem calculate_confidence_range (predictions : list prediction)
    (grouped_data : grouped_t) :
  0.04 <= _calculate_confidence predictions grouped_data <= 1
  /\ ((1000 <= List.length predictions)%nat ->
      0.4 <= _calculate_confidence predictions grouped_data).
Proof.
  unfold _calculate_confidence.
  destruct (Nat.ltb_spec (List.length predictions) 100) as [Hlt|Hge].
  { split; [lra | intro; lia]. }
  set (scores := map _ ProtectedAttribute_members).
  assert (Hscores : Forall (fun x => 0 <= x <= 1) scores).
  { unfold scores. apply Forall_map, Forall_forall. intros a _.
    apply Qmin_unit. apply Qle_shift_div_l; [lra|].
    pose proof (RiskModelMore.Qof_nat_nonneg
                  (count (fun v => (MINIMUM_GROUP_SIZE <=? List.length v)%nat)
                     (dict_values match dict_get grouped_data (ProtectedAttribute_value a)
                                  with Some g => g | None => [] end))).
    lra. }
  assert (Havg : 0 <= np_mean scores <= 1).
  { unfold np_mean. rewrite py_sum_Qsum.
    pose proof (Qsum_unit_interval scores Hscores) as Hs.
    assert (Hlen : Qof_nat (List.length scores) == 6) by reflexivity.
    rewrite Hlen in *.
    split; [apply Qle_shift_div_l | apply Qle_shift_div_r]; lra. }
  pose proof (RiskModelMore.Qof_nat_le _ _ Hge) as Htotal.
  change (Qof_nat 100) with 100 in Htotal.
  assert (Hsize : 0.1 <= Qmin (Qof_nat (List.length predictions) / 1000) 1.0 <= 1).
  { assert (Hq : 0.1 <= Qof_nat (List.length predictions) / 1000)
      by (apply Qle_shift_div_l; lra).
    destruct (Q.min_spec (Qof_nat (List.length predictions) / 1000) 1.0)
      as [[H1 ->]|[H1 ->]]; lra. }
  split.
  - generalize dependent (np_mean scores).
    generalize dependent (Qmin (Qof_nat (List.length predictions) / 1000) 1.0).
    intros. lra.
  - intro Hbig.
    pose proof (RiskModelMore.Qof_nat_le _ _ Hbig) as Hb.
    change (Qof_nat 1000) with 1000 in Hb.
    assert (Hq : 1 <= Qof_nat (List.length predictions) / 1000)
      by (apply Qle_shift_div_l; lra).
    assert (Hone : Qmin (Qof_nat (List.length predictions) / 1000) 1.0 == 1).
    { destruct (Q.min_spec (Qof_nat (List.length predictions) / 1000) 1.0)
        as [[H1 ->]|[H1 ->]]; lra. }
    rewrite Hone. generalize dependent (np_mean scores). intros. lra.
Qed.

(** ** Group statistics *)

Section GroupStatistics.
Variable sqrt : Q -> Q.

(** X21. For a non-empty group the positive rate lies in [0,1] and the
    sample size is the number of predictions.  The true positive rate and
    the false negative rate are defined together, and then they add up to
    1; a false positive rate, when defined, lies in [0,1].  Without
    outcomes none of the outcome-based fields is computed. *)
Theorem group_statistics_of_rates (outcome_map : dict bool) (name : string)
    (predictions : list prediction) :
  predictions <> [] ->
  let stats := group_statistics_of sqrt outcome_map name predictions in
  sample_size stats = List.length predictions
  /\ 0 <= positive_rate stats <= 1
  /\ (true_positive_rate stats = None <-> false_negative_rate stats = None)
  /\ (forall tpr fnr, true_positive_rate stats = Some tpr ->
        false_negative_rate stats = Some fnr -> tpr + fnr == 1)
  /\ (forall fpr, false_positive_rate stats = Some fpr -> 0 <= fpr <= 1)
  /\ (outcome_map = [] ->
      true_positive_rate stats = None /\ false_positive_rate stats = None
      /\ false_negative_rate stats = None /\ calibration_error stats = None).
Proof.
  intros Hne stats. subst stats. unfold group_statistics_of.
  cbn [sample_size positive_rate true_positive_rate false_negative_rate
       false_positive_rate calibration_error].
  set (matched := match outcome_map with [] => [] | _ => collect _ predictions end).
  split; [reflexivity|]. split; [|split; [|split; [|split]]].
  - rewrite length_map.
    assert (Hn : 0 < Qof_nat (List.length predictions)).
    { apply Qof_nat_pos. destruct predictions; [congruence | cbn; lia]. }
    pose proof (RiskModelMore.Qof_nat_nonneg
                  (count (fun s => Qle_bool 0.5 s) (map risk_score predictions))) as H0.
    pose proof (RiskModelMore.Qof_nat_le _ _
                  (count_le (fun s => Qle_bool 0.5 s) (map risk_score predictions)))
      as H1.
    rewrite length_map in H1.
    split; [apply Qle_shift_div_l | apply Qle_shift_div_r]; lra.
  - destruct (filter (fun a => a) (map snd matched)); split; congruence.
  - intros tpr fnr.
    destruct (filter (fun a => a) (map snd matched)) as [|b bs] eqn:E; [discriminate|].
    intros H1 H2. injection H1 as <-. injection H2 as <-.
    change (S (List.length bs)) with (List.length (b :: bs)).
    rewrite <- E. rewrite (count_filter_map (fun a => a) snd matched).
    pose proof (count_split (fun pa : Q * bool => Qle_bool 0.5 (fst pa))
                  (fun a => snd a) matched) as Hsplit.
    cbv beta in Hsplit.
    assert (Hpos : 0 < Qof_nat (count (fun a => snd a) matched)).
    { apply Qof_nat_pos.
      rewrite <- (count_filter_map (fun a => a) snd matched), E. cbn. lia. }
    rewrite <- Hsplit in Hpos |- *. rewrite Qof_nat_add in Hpos |- *.
    field. lra.
  - intro fpr.
    destruct (filter negb (map snd matched)) as [|b bs] eqn:E; [discriminate|].
    intro H. injection H as <-.
    change (S (List.length bs)) with (List.length (b :: bs)).
    rewrite <- E. rewrite (count_filter_map negb snd matched).
    assert (Hle : (count (fun pa : Q * bool => Qle_bool 0.5 (fst pa) && negb (snd pa))
                     matched
                   <= count (fun a => negb (snd a)) matched)%nat).
    { rewrite <- (count_split (fun pa : Q * bool => Qle_bool 0.5 (fst pa))
                    (fun a => negb (snd a)) matched). lia. }
    assert (Hpos : 0 < Qof_nat (count (fun a => negb (snd a)) matched)).
    { apply Qof_nat_pos.
      rewrite <- (count_filter_map negb snd matched), E. cbn. lia. }
    pose proof (RiskModelMore.Qof_nat_le _ _ Hle).
    pose proof (RiskModelMore.Qof_nat_nonneg
                  (count (fun pa : Q * bool => Qle_bool 0.5 (fst pa) && negb (snd pa))
                     matched)).
    split; [apply Qle_shift_div_l | apply Qle_shift_div_r]; lra.
  - intro Hom. subst matched. rewrite Hom. cbn. repeat split.
Qed.
End GroupStatistics.

Lemma group_statistics_of_rates_witness :
  Samples.two_students <> [] /\
  0 <= positive_rate (group_statistics_of Samples.no_fn [] "all" Samples.two_students)
    <= 1.
Proof.
  assert (H : Samples.two_students <> []) by discriminate.
  split; [exact H|].
  exact (proj1 (proj2 (group_statistics_of_rates Samples.no_fn [] "all"
                         Samples.two_students H))).
Defined.

(** ** Groups *)

Lemma list_sum_map_add {A} (f g : A -> nat) (l : list A) :
  list_sum (map (fun a => f a + g a)%nat l)
  = (list_sum (map f l) + list_sum (map g l))%nat.
Proof.
  unfold list_sum.
  induction l as [|a l IH]; cbn [map fold_right]; [reflexivity|]. rewrite IH. lia.
Qed.

Lemma one_hit (v : string) (vals : list string) :
  NoDup vals ->
  list_sum (map (fun u => if String.eqb v u then 1 else 0)%nat vals)
  = if existsb (String.eqb v) vals then 1%nat else 0%nat.
Proof.
  unfold list_sum.
  induction 1 as [|u vals Hu Hnd IH]; cbn [map fold_right existsb]; [reflexivity|].
  rewrite IH. destruct (String.eqb_spec v u) as [->|_]; cbn [orb]; [|reflexivity].
  destruct (existsb (String.eqb u) vals) eqn:E; [|reflexivity].
  apply BiasDetectionFacts.existsb_eqb_In in E. contradiction.
Qed.

Lemma group_sizes_sum (a : ProtectedAttribute) (vals : list string)
    (ps : list prediction) :
  NoDup vals ->
  list_sum (map (fun v => List.length (Spec.members_of ps a v)) vals)
  = count (fun p => match demographic p a with
                    | Some v => existsb (String.eqb v) vals
                    | None => false
                    end) ps.
Proof.
  intro Hnd. unfold Spec.members_of, count.
  induction ps as [|p ps IH]; cbn [filter List.length].
  - clear Hnd. unfold list_sum.
    induction vals as [|v vals IHv]; cbn [map fold_right]; [reflexivity|].
    rewrite IHv. reflexivity.
  - rewrite (map_ext _ (fun v => (if Spec.carries a v p then 1 else 0)
                                 + List.length (filter (Spec.carries a v) ps))%nat)
      by (intro v; destruct (Spec.carries a v p); reflexivity).
    rewrite list_sum_map_add, IH. unfold Spec.carries at 1.
    destruct (demographic p a) as [v|].
    + rewrite (one_hit v vals Hnd).
      destruct (existsb (String.eqb v) vals); cbn [List.length]; lia.
    + replace (list_sum (map (fun _ : string => 0%nat) vals)) with 0%nat; [reflexivity|].
      clear. unfold list_sum.
      induction vals as [|v vals IHv]; cbn [map fold_right]; [reflexivity|].
      rewrite <- IHv. reflexivity.
Qed.

Lemma dict_get_table {V} (M : string -> V) (vals : list string) (v : string) :
  In v vals -> dict_get (map (fun u => (u, M u)) vals) v = Some (M v).
Proof.
  induction vals as [|u vals IH]; cbn [In map dict_get]; [tauto|].
  destruct (String.eqb_spec u v) as [->|Hne]; [reflexivity|].
  intros [E|H]; [congruence | exact (IH H)].
Qed.

(** X23. For every attribute [_group_by_demographics] builds a partition
    of the predictions that carry a value for it: the group keys are
    distinct, the group of a value holds exactly the predictions carrying
    that value (in batch order) and is not empty, every such prediction is
    found in the group of its value, and the group sizes add up to the
    number of predictions that carry a value. *)
Theorem group_by_demographics_partition (predictions : list prediction)
    (a : ProtectedAttribute) :
  exists groups,
    dict_get (_group_by_demographics predictions) (ProtectedAttribute_value a)
    = Some groups
    /\ NoDup (dict_keys groups)
    /\ (forall v members, In (v, members) groups ->
          members <> [] /\ members = filter (Spec.carries a v) predictions)
    /\ (forall p v, In p predictions -> demographic p a = Some v ->
          exists members, dict_get groups v = Some members /\ In p members)
    /\ list_sum (map (fun kv => List.length (snd kv)) groups)
       = count (Spec.has_value a) predictions.
Proof.
  eexists. split; [apply BiasDetectionFacts.group_by_demographics_get|].
  pose proof (BiasDetectionFacts.group_values_NoDup predictions a) as Hnd.
  split; [|split; [|split]].
  - unfold dict_keys. rewrite map_map. cbn [fst]. rewrite map_id. exact Hnd.
  - intros v members Hin. apply in_map_iff in Hin.
    destruct Hin as (u & E & Hu). injection E as <- <-.
    split; [|reflexivity].
    apply BiasDetectionFacts.group_values_In in Hu. destruct Hu as (p & Hp & Hd).
    intro Hempty.
    assert (Hin : In p (Spec.members_of predictions a u)).
    { apply filter_In. split; [exact Hp|].
      unfold Spec.carries. rewrite Hd. apply String.eqb_refl. }
    rewrite Hempty in Hin. exact Hin.
  - intros p v Hp Hd. exists (Spec.members_of predictions a v). split.
    + apply dict_get_table. apply BiasDetectionFacts.group_values_In.
      exists p. tauto.
    + apply filter_In. split; [exact Hp|].
      unfold Spec.carries. rewrite Hd. apply String.eqb_refl.
  - rewrite map_map. cbn [snd]. rewrite (group_sizes_sum a _ predictions Hnd).
    unfold count. f_equal. apply filter_ext_in. intros p Hp.
    unfold Spec.has_value. destruct (demographic p a) as [v|] eqn:Hd; [|reflexivity].
    apply BiasDetectionFacts.existsb_eqb_In, BiasDetectionFacts.group_values_In.
    exists p. tauto.
Qed.

(** ** The report *)

Section Report.
Variables sqrt norm_cdf : Q -> Q.
Variables fmt_1f fmt_2f : Q -> string.

(** X22. In the report of [analyze_bias] the total is the size of the
    batch, the overall severity is that of its own fairness results, and a
    review is required exactly when some significant result has severity
    high or critical. *)
Theorem analyze_bias_requires_review (tenant_id model_version : string)
    (predictions : list prediction) (outcomes : option (list (string * bool))) :
  let report := analyze_bias sqrt norm_cdf fmt_1f fmt_2f tenant_id model_version
                  predictions outcomes in
  total_predictions report = List.length predictions
  /\ overall_bias_severity report = _determine_overall_severity (fairness_results report)
  /\ (requires_review report = true
      <-> exists r, In r (fairness_results report) /\ is_significant r = true
                    /\ (severity r = HIGH \/ severity r = CRITICAL)).
Proof.
  intro report. subst report. unfold analyze_bias.
  destruct (fold_left
              (analyze_attribute sqrt norm_cdf fmt_1f fmt_2f
                 (_group_by_demographics predictions) (outcome_map_of outcomes))
              ProtectedAttribute_members ([], [])) as [results stats].
  cbn [total_predictions overall_bias_severity requires_review fairness_results].
  split; [reflexivity|]. split; [reflexivity|].
  destruct (overall_severity_is_maximum results) as [Hmax Hwit].
  split.
  - intro H. apply orb_prop in H.
    destruct Hwit as [E|(r & Hr & Hs & E)].
    + rewrite E in H. cbn in H. destruct H; discriminate.
    + exists r. split; [exact Hr|]. split; [exact Hs|]. rewrite E.
      destruct (_determine_overall_severity results); cbn in H;
        destruct H; try discriminate; tauto.
  - intros (r & Hr & Hs & Hsev). specialize (Hmax r Hr Hs).
    destruct (_determine_overall_severity results);
      destruct Hsev as [E|E]; rewrite E in Hmax; cbn in Hmax; try lia; reflexivity.
Qed.
Lemma valid_groups_need_members (f : string -> nat) (vals : list string) :
  (MINIMUM_GROUP_SIZE * count (fun v => MINIMUM_GROUP_SIZE <=? f v) vals
   <= list_sum (map f vals))%nat.
Proof.
  unfold count, list_sum, MINIMUM_GROUP_SIZE.
  induction vals as [|v vals IH]; cbn [filter map fold_right List.length]; [lia|].
  destruct (Nat.leb_spec 30 (f v)); cbn [List.length]; lia.
Qed.

Lemma small_batch_few_groups (predictions : list prediction) (a : ProtectedAttribute) :
  (List.length predictions < 60)%nat ->
  (Spec.valid_group_count predictions a < 2)%nat.
Proof.
  intro Hsmall. unfold Spec.valid_group_count.
  pose proof (valid_groups_need_members
                (fun v => List.length (Spec.members_of predictions a v))
                (Spec.group_values predictions a)) as Hneed.
  rewrite (group_sizes_sum a _ predictions
             (BiasDetectionFacts.group_values_NoDup predictions a)) in Hneed.
  pose proof (count_le (fun p => match demographic p a with
                                 | Some v => existsb (String.eqb v)
                                               (Spec.group_values predictions a)
                                 | None => false
                                 end) predictions) as Hle.
  unfold MINIMUM_GROUP_SIZE in *. lia.
Qed.

(** X24. A batch of fewer than 60 predictions cannot hold two groups of 30
    for any attribute: its report has no fairness result and no group
    statistics, overall severity none, and requires no review. *)
Theorem analyze_bias_small_batch (tenant_id model_version : string)
    (predictions : list prediction) (outcomes : option (list (string * bool))) :
  (List.length predictions < 60)%nat ->
  let report := analyze_bias sqrt norm_cdf fmt_1f fmt_2f tenant_id model_version
                  predictions outcomes in
  fairness_results report = []
  /\ (forall a, dict_get (group_statistics report) (ProtectedAttribute_value a) = None)
  /\ overall_bias_severity report = NONE
  /\ requires_review report = false.
Proof.
  intros Hsmall report. subst report. unfold analyze_bias.
  pose proof (fun a =>
    BiasDetectionFacts.analyze_fold_untouched sqrt norm_cdf fmt_1f fmt_2f predictions
      (outcome_map_of outcomes) a ProtectedAttribute_members ([], [])
      (small_batch_few_groups predictions a Hsmall)
      (conj (fun r (H : In r []) => match H with end) eq_refl)) as Hfold.
  destruct (fold_left
              (analyze_attribute sqrt norm_cdf fmt_1f fmt_2f
                 (_group_by_demographics predictions) (outcome_map_of outcomes))
              ProtectedAttribute_members ([], [])) as [results stats].
  cbn [fairness_results group_statistics overall_bias_severity requires_review].
  assert (Hnil : results = []).
  { destruct results as [|r results]; [reflexivity|].
    destruct (Hfold (attribute r)) as [H _]. exfalso.
    apply (H r); [left; reflexivity | reflexivity]. }
  subst results. split; [reflexivity|]. split; [|split; reflexivity].
  intro a. exact (proj2 (Hfold a)).
Qed.
End Report.

Lemma analyze_bias_small_batch_witness :
  (List.length Samples.one_valid_group < 60)%nat /\
  fairness_results
    (analyze_bias Samples.no_fn Samples.no_fn Samples.no_text Samples.no_text
       "tenant" "1.0.0" Samples.one_valid_group None) = [].
Proof.
  assert (H : (List.length Samples.one_valid_group < 60)%nat) by (vm_compute; lia).
  split; [exact H|].
  exact (proj1 (analyze_bias_small_batch Samples.no_fn Samples.no_fn Samples.no_text
                  Samples.no_text "tenant" "1.0.0" Samples.one_valid_group None H)).
Defined.

End BiasDetectionMore.

(** * Binary64: order and arithmetic facts *)

Module Binary64Facts.
Import Binary64.

Lemma SFcompare_antisym (a b : spec_float) :
  SFcompare b a = option_map CompOpp (SFcompare a b).
Proof.
  destruct a as [sa|sa| |sa ma ea], b as [sb|sb| |sb mb eb]; cbn;
    try reflexivity;
    try (destruct sa; reflexivity); try (destruct sb; reflexivity);
    try (destruct sa, sb; reflexivity).
  destruct sa, sb; cbn; try reflexivity;
    rewrite (Z.compare_antisym ea eb);
    change (Pos.compare_cont Eq mb ma) with (Pos.compare mb ma);
    change (Pos.compare_cont Eq ma mb) with (Pos.compare ma mb);
    rewrite (Pos.compare_antisym ma mb);
    destruct (Z.compare ea eb); cbn; try reflexivity;
    destruct (Pos.compare ma mb); reflexivity.
Qed.

Lemma SFleb_trans (a b c : spec_float) :
  SFleb a b = true -> SFleb b c = true -> SFleb a c = true.
Proof.
  unfold SFleb.
  destruct a as [sa|sa| |sa ma ea], b as [sb|sb| |sb mb eb], c as [sc|sc| |sc mc ec];
    cbn; try discriminate; try reflexivity;
    try (destruct sa; cbn; try discriminate; try reflexivity);
    try (destruct sb; cbn; try discriminate; try reflexivity);
    try (destruct sc; cbn; try discriminate; try reflexivity);
    change (Pos.compare_cont Eq) with Pos.compare;
    repeat match goal with
    | |- context [Z.compare ?x ?y] => destruct (Z.compare_spec x y)
    | |- context [Pos.compare ?x ?y] => destruct (Pos.compare_spec x y)
    end; cbn; try discriminate; try reflexivity; intros; lia.
Qed.

Lemma leb_trans (x y z : float) :
  PrimFloat.leb x y = true -> PrimFloat.leb y z = true -> PrimFloat.leb x z = true.
Proof. rewrite !leb_spec. apply SFleb_trans. Qed.

Lemma ltb_leb (x y : float) :
  PrimFloat.ltb x y = true -> PrimFloat.leb x y = true.
Proof.
  rewrite ltb_spec, leb_spec. unfold SFltb, SFleb.
  destruct (SFcompare (Prim2SF x) (Prim2SF y)) as [[]|]; congruence.
Qed.

Lemma ltb_asym (x y : float) :
  PrimFloat.ltb x y = true -> PrimFloat.ltb y x = false.
Proof.
  rewrite !ltb_spec. unfold SFltb.
  rewrite (SFcompare_antisym (Prim2SF x) (Prim2SF y)).
  destruct (SFcompare (Prim2SF x) (Prim2SF y)) as [[]|]; cbn; congruence.
Qed.

Lemma SFcompare_number (a b : spec_float) :
  a <> S754_nan -> b <> S754_nan -> SFcompare a b <> None.
Proof.
  destruct a, b; cbn; try congruence; repeat match goal with s : bool |- _ => destruct s end;
    congruence.
Qed.

Lemma not_ltb_leb (x y : float) :
  number x -> number y -> PrimFloat.ltb x y = false -> PrimFloat.leb y x = true.
Proof.
  unfold number. rewrite ltb_spec, leb_spec. unfold SFltb, SFleb. intros Hx Hy.
  rewrite (SFcompare_antisym (Prim2SF x) (Prim2SF y)).
  pose proof (SFcompare_number _ _ Hx Hy).
  destruct (SFcompare (Prim2SF x) (Prim2SF y)) as [[]|]; cbn; congruence.
Qed.

Lemma ltb_number (x y : float) :
  PrimFloat.ltb x y = true -> number x /\ number y.
Proof.
  unfold number. rewrite ltb_spec. unfold SFltb.
  destruct (Prim2SF x), (Prim2SF y); cbn; split; congruence.
Qed.

Lemma leb_number (x y : float) :
  PrimFloat.leb x y = true -> number x /\ number y.
Proof.
  unfold number. rewrite leb_spec. unfold SFleb.
  destruct (Prim2SF x), (Prim2SF y); cbn; split; congruence.
Qed.

(** Rounding a non-negative mantissa never gives NaN. *)
Lemma shr_1_nonneg (mrs : shr_record) :
  (0 <= shr_m mrs)%Z -> (0 <= shr_m (shr_1 mrs))%Z.
Proof.
  destruct mrs as [m r s]. cbn. destruct m as [|p|p]; cbn; try lia.
  - destruct p; cbn; lia.
Qed.

Lemma iter_pos_shr_1_nonneg (p : positive) (mrs : shr_record) :
  (0 <= shr_m mrs)%Z -> (0 <= shr_m (iter_pos shr_1 p mrs))%Z.
Proof.
  revert mrs. induction p as [p IH|p IH|]; intros mrs H; cbn.
  - apply IH, IH, shr_1_nonneg, H.
  - apply IH, IH, H.
  - apply shr_1_nonneg, H.
Qed.

Lemma shr_fexp_nonneg (prec emax m e : Z) (l : location) :
  (0 <= m)%Z -> (0 <= shr_m (fst (shr_fexp prec emax m e l)))%Z.
Proof.
  intros H. unfold shr_fexp, shr.
  assert (H0 : (0 <= shr_m (shr_record_of_loc m l))%Z)
    by (destruct l as [|[]]; exact H).
  destruct (fexp prec emax (Zdigits2 m + e) - e)%Z; cbn [fst]; try exact H0.
  apply iter_pos_shr_1_nonneg, H0.
Qed.

Lemma round_nearest_even_nonneg (m : Z) (l : location) :
  (0 <= m)%Z -> (0 <= round_nearest_even m l)%Z.
Proof.
  intros H. destruct l as [|[]]; cbn; try lia. destruct (Z.even m); lia.
Qed.

Lemma binary_round_aux_number (prec emax : Z) (s : bool) (m e : Z) (l : location) :
  (0 <= m)%Z -> binary_round_aux prec emax s m e l <> S754_nan.
Proof.
  intros H. unfold binary_round_aux.
  pose proof (shr_fexp_nonneg prec emax m e l H) as H1.
  destruct (shr_fexp prec emax m e l) as [mrs' e']. cbn [fst] in H1.
  pose proof (shr_fexp_nonneg prec emax _ e' loc_Exact
                (round_nearest_even_nonneg _ (loc_of_shr_record mrs') H1)) as H2.
  destruct (shr_fexp prec emax _ e' loc_Exact) as [mrs'' e'']. cbn [fst] in H2.
  destruct (shr_m mrs''); try lia; try congruence.
  destruct (e'' <=? emax - prec)%Z; congruence.
Qed.

Lemma binary_normalize_number (prec emax m e : Z) (szero : bool) :
  binary_normalize prec emax m e szero <> S754_nan.
Proof.
  unfold binary_normalize, binary_round.
  destruct m; try congruence;
    destruct (shl_align _ _ _); apply binary_round_aux_number; lia.
Qed.

Lemma mul_number (x w : float) :
  number x -> nonzero_finite w = true -> number (x * w)%float.
Proof.
  unfold number, nonzero_finite. rewrite mul_spec. unfold SF64mul, SFmul.
  destruct (Prim2SF x), (Prim2SF w); try congruence.
  intros _ _. apply binary_round_aux_number. lia.
Qed.

Lemma one_sub_number (x : float) :
  number x -> number (1 - x)%float.
Proof.
  unfold number. rewrite sub_spec. unfold SF64sub, SFsub.
  replace (Prim2SF 1%float) with (S754_finite false 4503599627370496 (-52))
    by (vm_compute; reflexivity).
  destruct (Prim2SF x); try congruence.
  intros _. apply binary_normalize_number.
Qed.

(** *** The descending sort *)

Section SortDesc.
Context {A : Type} (key : A -> float).

Lemma insert_desc64_perm (x : A) (l : list A) :
  Permutation (insert_desc key x l) (x :: l).
Proof.
  induction l as [|y l IH]; cbn [insert_desc]; [reflexivity|].
  destruct (PrimFloat.ltb (key x) (key y)); [|reflexivity].
  rewrite IH. apply perm_swap.
Qed.

Lemma sort_desc64_perm (l : list A) : Permutation (sort_desc key l) l.
Proof.
  induction l as [|x l IH]; cbn [sort_desc fold_right]; [reflexivity|].
  fold (sort_desc key l). rewrite insert_desc64_perm. constructor. exact IH.
Qed.

Lemma sort_desc64_In (l : list A) (x : A) : In x (sort_desc key l) <-> In x l.
Proof.
  split; apply Permutation_in; [|symmetry]; apply sort_desc64_perm.
Qed.

Lemma insert_desc64_sorted (x : A) (l : list A) :
  number (key x) -> Forall (fun y => number (key y)) l ->
  descending key l -> descending key (insert_desc key x l).
Proof.
  unfold descending. intros Hx Hn.
  induction 1 as [|y l Hl IH Hy]; cbn [insert_desc].
  - repeat constructor.
  - inversion Hn as [|? ? Hny Hnl]; subst.
    destruct (PrimFloat.ltb (key x) (key y)) eqn:E.
    + constructor; [exact (IH Hnl)|].
      apply (Permutation_Forall (Permutation_sym (insert_desc64_perm x l))).
      constructor; [apply ltb_leb, E | exact Hy].
    + apply (not_ltb_leb _ _ Hx Hny) in E. constructor.
      * constructor; assumption.
      * constructor; [exact E|].
        eapply Forall_impl; [|exact Hy]. cbn. intros b Hb.
        exact (leb_trans _ _ _ Hb E).
Qed.

Lemma sort_desc64_sorted (l : list A) :
  Forall (fun y => number (key y)) l -> descending key (sort_desc key l).
Proof.
  induction 1 as [|x l Hx Hl IH]; cbn [sort_desc fold_right].
  - constructor.
  - apply insert_desc64_sorted; [exact Hx | | exact IH].
    apply (Permutation_Forall (Permutation_sym (sort_desc64_perm l))). exact Hl.
Qed.

Lemma In_skipn (n : nat) (l : list A) (b : A) : In b (skipn n l) -> In b l.
Proof.
  revert l. induction n as [|n IH]; intros [|x l]; cbn [skipn]; auto.
  intro H. right. exact (IH l H).
Qed.

(** A prefix of a descending list dominates the rest. *)
Lemma descending_firstn (n : nat) (l : list A) :
  descending key l ->
  forall a b, In a (firstn n l) -> In b (skipn n l) ->
              PrimFloat.leb (key b) (key a) = true.
Proof.
  unfold descending. intros H. revert n.
  induction H as [|x l Hl IH Hx]; intros n a b Ha Hb.
  - destruct n; contradiction.
  - destruct n as [|n]; [contradiction|]. cbn [firstn skipn] in Ha, Hb.
    destruct Ha as [<-|Ha].
    + rewrite Forall_forall in Hx. apply Hx.
      exact (In_skipn n l b Hb).
    + exact (IH n a b Ha Hb).
Qed.
End SortDesc.

Lemma collectM_In {A B} (f : A -> result (option B)) (l : list A) (out : list B) :
  collectM f l = Return out ->
  forall b, In b out <-> exists a, In a l /\ f a = Return (Some b).
Proof.
  revert out. induction l as [|a l IH]; cbn [collectM]; intros out H b.
  - injection H as <-. split; [contradiction | intros (a & [] & _)].
  - destruct (f a) as [o|e] eqn:Ea; [|discriminate]. cbn [bind] in H.
    destruct (collectM f l) as [bs|e]; [|discriminate]. cbn [bind] in H.
    injection H as <-. specialize (IH bs eq_refl b).
    destruct o as [b0|].
    + cbn [In]. rewrite IH. split.
      * intros [E|(a' & Ha' & E)].
        -- subst b0. exists a. split; [left; reflexivity | exact Ea].
        -- exists a'. split; [right; exact Ha' | exact E].
      * intros (a' & [E0|Ha'] & E).
        -- subst a'. left. congruence.
        -- right. exists a'. split; assumption.
    + rewrite IH. split.
      * intros (a' & Ha' & E). exists a'. split; [right; exact Ha' | exact E].
      * intros (a' & [E0|Ha'] & E).
        -- subst a'. congruence.
        -- exists a'. split; assumption.
Qed.

Lemma collectM_returns {A B} (f : A -> result (option B)) (l : list A) :
  (forall a, In a l -> exists o, f a = Return o) ->
  exists out, collectM f l = Return out.
Proof.
  induction l as [|a l IH]; cbn [collectM]; intros H.
  - eexists. reflexivity.
  - destruct (H a (or_introl eq_refl)) as (o & ->). cbn [bind].
    destruct IH as (bs & ->); [intros; apply H; right; assumption|].
    cbn [bind]. eexists. reflexivity.
Qed.

Lemma collectM_length {A B} (f : A -> result (option B)) (l : list A) (out : list B) :
  collectM f l = Return out -> (List.length out <= List.length l)%nat.
Proof.
  revert out. induction l as [|a l IH]; cbn [collectM]; intros out E.
  - injection E as <-. apply Nat.le_refl.
  - destruct (f a) as [o|]; [|discriminate]. cbn [bind] in E.
    destruct (collectM f l) as [bs|]; [|discriminate]. cbn [bind] in E.
    injection E as <-. specialize (IH bs eq_refl).
    destruct o; cbn [List.length]; lia.
Qed.

Lemma collect_length {A B} (f : A -> option B) (l : list A) :
  (List.length (collect f l) <= List.length l)%nat.
Proof.
  induction l as [|a l IH]; cbn [collect List.length]; [lia|].
  destruct (f a); cbn [List.length]; lia.
Qed.

End Binary64Facts.

Module RiskModel64Facts.
Import Binary64 RiskModel64 Binary64Facts.

(** The catalog's numbers, as the doubles the source's literals denote. *)
Example RISK_FEATURES64_weights :
  map importance_weight RISK_FEATURES
  = [0.15; 0.12; 0.08; 0.07; 0.05; 0.11; 0.10; 0.09; 0.06; 0.04; 0.08; 0.04; 0.03;
     0.02; 0.01]%float.
Proof. vm_compute. reflexivity. Qed.

Lemma RISK_FEATURES64_catalog (fd : FeatureDefinition) :
  In fd RISK_FEATURES ->
  exists fd0, In fd0 RiskModel.RISK_FEATURES /\ fd = binary64 fd0.
Proof.
  unfold RISK_FEATURES. rewrite in_map_iff. intros (fd0 & E & H).
  exists fd0. split; [exact H | symmetry; exact E].
Qed.

Lemma RISK_FEATURES64_names (fd fd' : FeatureDefinition) :
  In fd RISK_FEATURES -> In fd' RISK_FEATURES -> name fd = name fd' -> fd = fd'.
Proof.
  intros H H' E.
  destruct (RISK_FEATURES64_catalog fd H) as (fd0 & H0 & ->).
  destruct (RISK_FEATURES64_catalog fd' H') as (fd0' & H0' & ->).
  cbn [name binary64] in E.
  rewrite (RiskModelFacts.RISK_FEATURES_names fd0 fd0' H0 H0' E). reflexivity.
Qed.

Lemma RISK_FEATURES64_weight_finite (fd : FeatureDefinition) :
  In fd RISK_FEATURES -> nonzero_finite (importance_weight fd) = true.
Proof.
  assert (H : forallb (fun fd => nonzero_finite (importance_weight fd)) RISK_FEATURES
              = true) by (vm_compute; reflexivity).
  rewrite forallb_forall in H. apply H.
Qed.

Lemma py_int_returns (x : float) :
  isfinite x = true -> exists n, py_int x = Return n.
Proof.
  unfold isfinite, py_int. destruct (Prim2SF x); try discriminate; eexists; reflexivity.
Qed.

Section Ranking.
Variable str_int : Z -> string.
Variable str_float : float -> string.

Lemma risk_factor64_of_Some (features : features_t) (fd : FeatureDefinition)
    (rf : RiskFactor) :
  risk_factor_of str_int str_float features fd = Return (Some rf) ->
  exists value,
    features_get features (name fd) = Some value
    /\ gtb (_normalize_risk_contribution fd value) 0.3 = true
    /\ rf_feature rf = name fd
    /\ rf_category rf = category fd
    /\ rf_current_value rf = value
    /\ rf_contribution rf
       = (_normalize_risk_contribution fd value * importance_weight fd)%float
    /\ rf_severity rf
       = if gtb (_normalize_risk_contribution fd value) 0.7 then "high"
         else if gtb (_normalize_risk_contribution fd value) 0.5 then "medium"
         else "low".
Proof.
  unfold risk_factor_of.
  destruct (features_get features (name fd)) as [value|]; [|discriminate].
  cbv zeta.
  destruct (gtb (_normalize_risk_contribution fd value) 0.3) eqn:E; [|discriminate].
  match goal with |- context [bind ?m _] => destruct m as [rec|e] end;
    [|discriminate].
  cbn [bind]. intro H. injection H as <-.
  exists value.
  cbn [rf_feature rf_category rf_current_value rf_contribution rf_severity].
  repeat split; try reflexivity; exact E.
Qed.

Lemma risk_factor64_of_None (features : features_t) (fd : FeatureDefinition)
    (value : float) :
  features_get features (name fd) = Some value ->
  risk_factor_of str_int str_float features fd = Return None ->
  gtb (_normalize_risk_contribution fd value) 0.3 = false.
Proof.
  intros Ev. unfold risk_factor_of. rewrite Ev. cbv zeta.
  destruct (gtb (_normalize_risk_contribution fd value) 0.3) eqn:E; [|reflexivity].
  match goal with |- context [bind ?m _] => destruct m as [rec|e] end;
    cbn [bind]; discriminate.
Qed.

(** The loop body returns whenever the value it reads is finite. *)
Lemma risk_factor_of_returns (features : features_t) (fd : FeatureDefinition) :
  (forall value, features_get features (name fd) = Some value ->
                 isfinite value = true) ->
  exists o, risk_factor_of str_int str_float features fd = Return o.
Proof.
  intros Hfin. unfold risk_factor_of.
  destruct (features_get features (name fd)) as [value|]; [|eexists; reflexivity].
  cbv zeta.
  destruct (gtb (_normalize_risk_contribution fd value) 0.3); [|eexists; reflexivity].
  destruct (py_int_returns value (Hfin value eq_refl)) as (n & En).
  unfold render_value. rewrite En. cbn [bind].
  destruct (recommendation_template fd) as [t|]; [destruct (String.eqb t EmptyString)|];
    cbn [bind]; eexists; reflexivity.
Qed.

Lemma protective_factor64_of_Some (features : features_t) (fd : FeatureDefinition)
    (pf : ProtectiveFactor) :
  protective_factor_of features fd = Some pf ->
  exists value,
    features_get features (name fd) = Some value
    /\ PrimFloat.ltb (_normalize_risk_contribution fd value) 0.3 = true
    /\ pf_feature pf = name fd
    /\ pf_category pf = category fd
    /\ pf_current_value pf = value
    /\ pf_contribution pf
       = ((1 - _normalize_risk_contribution fd value) * importance_weight fd)%float.
Proof.
  unfold protective_factor_of.
  destruct (features_get features (name fd)) as [value|]; [|discriminate].
  cbv zeta.
  destruct (PrimFloat.ltb (_normalize_risk_contribution fd value) 0.3) eqn:E;
    [|discriminate].
  intro H. injection H as <-.
  exists value. cbn [pf_feature pf_category pf_current_value pf_contribution].
  repeat split; try reflexivity; exact E.
Qed.

Lemma protective_factor64_of_None (features : features_t) (fd : FeatureDefinition)
    (value : float) :
  features_get features (name fd) = Some value ->
  protective_factor_of features fd = None ->
  PrimFloat.ltb (_normalize_risk_contribution fd value) 0.3 = false.
Proof.
  intros Ev. unfold protective_factor_of. rewrite Ev. cbv zeta.
  destruct (PrimFloat.ltb (_normalize_risk_contribution fd value) 0.3) eqn:E;
    [discriminate | reflexivity].
Qed.

(** No weighted contribution is NaN, so the comparisons of the sort form
    a total preorder. *)
Lemma risk_factor_number (features : features_t) (fd : FeatureDefinition)
    (rf : RiskFactor) :
  In fd RISK_FEATURES ->
  risk_factor_of str_int str_float features fd = Return (Some rf) ->
  number (rf_contribution rf).
Proof.
  intros Hfd H.
  destruct (risk_factor64_of_Some _ _ _ H) as (value & _ & Hc & _ & _ & _ & -> & _).
  apply mul_number; [|apply RISK_FEATURES64_weight_finite, Hfd].
  unfold gtb in Hc. apply ltb_number in Hc. apply Hc.
Qed.

Lemma protective_factor_number (features : features_t) (fd : FeatureDefinition)
    (pf : ProtectiveFactor) :
  In fd RISK_FEATURES ->
  protective_factor_of features fd = Some pf ->
  number (pf_contribution pf).
Proof.
  intros Hfd H.
  destruct (protective_factor64_of_Some _ _ _ H) as (value & _ & Hc & _ & _ & _ & ->).
  apply mul_number; [|apply RISK_FEATURES64_weight_finite, Hfd].
  apply one_sub_number. apply ltb_number in Hc. apply Hc.
Qed.
(** C2. For finite feature values [_identify_risk_factors] returns, and a
    catalog feature present in the map is a risk factor exactly when its
    contribution, the double the source computes, exceeds 0.3; its
    severity is high above 0.7, medium above 0.5, low otherwise, and its
    weighted contribution is [contribution * importance_weight].  It is a
    protective factor exactly when its contribution is below 0.3, scored
    [(1 - contribution) * importance_weight].  Both lists are in descending
    order of their score; the prediction keeps the first 5 risk factors
    and the first 3 protective factors, and no factor left out scores
    higher than one that is kept. *)
Theorem identify_factors_ranking (features : features_t) (risk_score : float) :
  (forall fd value,
      In fd RISK_FEATURES -> features_get features (name fd) = Some value ->
      isfinite value = true) ->
  exists risk,
    _identify_risk_factors str_int str_float features risk_score = Return risk
    /\ let prot := _identify_protective_factors features in
       (forall fd value,
           In fd RISK_FEATURES -> features_get features (name fd) = Some value ->
           let c := _normalize_risk_contribution fd value in
           ((exists rf, In rf risk /\ rf_feature rf = name fd) <-> gtb c 0.3 = true)
           /\ (forall rf, In rf risk -> rf_feature rf = name fd ->
                  rf_contribution rf = (c * importance_weight fd)%float
                  /\ rf_severity rf
                     = if gtb c 0.7 then "high"
                       else if gtb c 0.5 then "medium" else "low")
           /\ ((exists pf, In pf prot /\ pf_feature pf = name fd)
               <-> PrimFloat.ltb c 0.3 = true)
           /\ (forall pf, In pf prot -> pf_feature pf = name fd ->
                  pf_contribution pf = ((1 - c) * importance_weight fd)%float))
       /\ descending rf_contribution risk
       /\ descending pf_contribution prot
       /\ predict_risk_factors str_int str_float features risk_score
          = Return {| top_risk_factors := firstn 5 risk;
                      protective_factors := firstn 3 prot |}
       /\ (forall a b, In a (firstn 5 risk) -> In b (skipn 5 risk) ->
              PrimFloat.leb (rf_contribution b) (rf_contribution a) = true)
       /\ (forall a b, In a (firstn 3 prot) -> In b (skipn 3 prot) ->
              PrimFloat.leb (pf_contribution b) (pf_contribution a) = true).
Proof.
  intros Hfin. unfold predict_risk_factors, _identify_risk_factors.
  destruct (collectM_returns (risk_factor_of str_int str_float features) RISK_FEATURES)
    as (factors & Efactors).
  { intros fd Hfd. apply risk_factor_of_returns. intros value. apply Hfin, Hfd. }
  rewrite Efactors. cbn [bind].
  exists (sort_desc rf_contribution factors). split; [reflexivity|].
  set (prot := _identify_protective_factors features).
  pose proof (collectM_In _ _ _ Efactors) as Hfactors.
  assert (Sr : descending rf_contribution (sort_desc rf_contribution factors)).
  { apply sort_desc64_sorted. apply Forall_forall. intros rf Hin.
    apply Hfactors in Hin. destruct Hin as (fd & Hfd & E).
    exact (risk_factor_number _ _ _ Hfd E). }
  assert (Sp : descending pf_contribution prot).
  { apply sort_desc64_sorted. apply Forall_forall. intros pf Hin.
    apply collect_In in Hin. destruct Hin as (fd & Hfd & E).
    exact (protective_factor_number _ _ _ Hfd E). }
  split; [|split; [exact Sr|split; [exact Sp|split; [reflexivity|split]]]].
  - intros fd value Hfd Hv. set (c := _normalize_risk_contribution fd value).
    assert (Hrisk : forall rf, In rf (sort_desc rf_contribution factors) ->
              rf_feature rf = name fd ->
              risk_factor_of str_int str_float features fd = Return (Some rf)).
    { intros rf Hin Hname. apply sort_desc64_In, Hfactors in Hin.
      destruct Hin as (fd' & Hfd' & Hrf).
      destruct (risk_factor64_of_Some _ _ _ Hrf) as (v' & _ & _ & Hn & _).
      rewrite (RISK_FEATURES64_names fd fd' Hfd Hfd') by congruence. exact Hrf. }
    assert (Hprot : forall pf, In pf prot -> pf_feature pf = name fd ->
              protective_factor_of features fd = Some pf).
    { intros pf Hin Hname. apply sort_desc64_In, collect_In in Hin.
      destruct Hin as (fd' & Hfd' & Hpf).
      destruct (protective_factor64_of_Some _ _ _ Hpf) as (v' & _ & _ & Hn & _).
      rewrite (RISK_FEATURES64_names fd fd' Hfd Hfd') by congruence. exact Hpf. }
    split; [|split; [|split]].
    + split.
      * intros (rf & Hin & Hname).
        destruct (risk_factor64_of_Some _ _ _ (Hrisk rf Hin Hname)) as (v' & Ev & Hc & _).
        subst c. congruence.
      * intro Hc.
        destruct (risk_factor_of_returns features fd) as ([rf|] & E).
        -- intros v' Ev. exact (Hfin fd v' Hfd Ev).
        -- exists rf. split.
           ++ apply sort_desc64_In, Hfactors. exists fd. split; assumption.
           ++ destruct (risk_factor64_of_Some _ _ _ E) as (_ & _ & _ & Hn & _). exact Hn.
        -- pose proof (risk_factor64_of_None _ _ _ Hv E). subst c. congruence.
    + intros rf Hin Hname.
      destruct (risk_factor64_of_Some _ _ _ (Hrisk rf Hin Hname))
        as (v' & Ev & _ & _ & _ & _ & Hcontrib & Hsev).
      assert (v' = value) by congruence. subst v'. split; assumption.
    + split.
      * intros (pf & Hin & Hname).
        destruct (protective_factor64_of_Some _ _ _ (Hprot pf Hin Hname))
          as (v' & Ev & Hc & _).
        subst c. congruence.
      * intro Hc.
        destruct (protective_factor_of features fd) as [pf|] eqn:E.
        -- exists pf. split.
           ++ apply sort_desc64_In, collect_In. exists fd. split; assumption.
           ++ destruct (protective_factor64_of_Some _ _ _ E) as (_ & _ & _ & Hn & _).
              exact Hn.
        -- pose proof (protective_factor64_of_None _ _ _ Hv E). subst c. congruence.
    + intros pf Hin Hname.
      destruct (protective_factor64_of_Some _ _ _ (Hprot pf Hin Hname))
        as (v' & Ev & _ & _ & _ & _ & Hcontrib).
      assert (v' = value) by congruence. subst v'. exact Hcontrib.
  - intros a b. apply descending_firstn. exact Sr.
  - intros a b. apply descending_firstn. exact Sp.
Qed.
End Ranking.

Lemma identify_factors_ranking_witness :
  exists risk,
    _identify_risk_factors Samples64.no_digits Samples64.no_text
      (Samples64.one_feature "avg_session_duration" 12) 0.5 = Return risk
    /\ map rf_feature risk = ["avg_session_duration"].
Proof.
  assert (H : forall fd value,
             In fd RISK_FEATURES ->
             features_get (Samples64.one_feature "avg_session_duration" 12) (name fd)
             = Some value ->
             isfinite value = true).
  { intros fd value _. unfold features_get, Samples64.one_feature. cbn [dict_get].
    destruct (String.eqb "avg_session_duration" (name fd)); [|discriminate].
    intro E. injection E as <-. vm_compute. reflexivity. }
  destruct (identify_factors_ranking Samples64.no_digits Samples64.no_text
              (Samples64.one_feature "avg_session_duration" 12) 0.5 H)
    as (risk & E & _).
  exists risk. split; [exact E|].
  vm_compute in E. injection E as <-. reflexivity.
Defined.

Example RISK_FEATURES64_thresholds :
  map (fun fd => (threshold_low fd, threshold_high fd)) RISK_FEATURES
  = [(Some 0.4, Some 0.7); (Some (-0.1), Some 0.05); (Some 2, Some 5);
     (Some 0.4, Some 0.7); (Some (-0.2), Some 0.0); (Some 3, Some 7);
     (Some 2, Some 5); (Some 0.5, Some 0.8); (Some 0.1, Some 0.3);
     (Some 5, Some 15); (Some 3, Some 8); (Some 0.3, Some 0.6);
     (Some 0.3, Some 0.6); (Some 2, Some 6); (Some 0.1, Some 0.5)]%float.
Proof. vm_compute. reflexivity. Qed.

(** The high-risk fixture of the tests: the five factors kept. *)
Example high_risk_top_factors64 :
  match predict_risk_factors Samples64.no_digits Samples64.no_text
          Samples64.high_risk_features 0.9 with
  | Return factors =>
      map rf_feature (top_risk_factors factors)
      = ["current_mastery"; "mastery_trend_7d"; "days_since_last_session";
         "session_frequency_7d"; "completion_rate"]
      /\ protective_factors factors = []
  | Raise _ => False
  end.
Proof. vm_compute. split; reflexivity. Qed.

(** The contribution of [avg_session_duration = 12] is
    [1 - 7/10 = 0.30000000000000004], above the cut; that of
    [current_mastery = 0.61] is just below it. *)
Example avg_session_duration_12 :
  _normalize_risk_contribution
    (binary64 (RiskModel.feature "avg_session_duration" RiskModel.ENGAGEMENT
                 "Average time spent per session in minutes"
                 "low_is_risk" 5 15 0.04
                 "Encourage sustained engagement with appropriate breaks")) 12
  = 0.30000000000000004%float.
Proof. vm_compute. reflexivity. Qed.

Example near_cut_factors :
  (exists rf, _identify_risk_factors Samples64.no_digits Samples64.no_text
                (Samples64.one_feature "avg_session_duration" 12) 0.5 = Return [rf])
  /\ (exists rf, _identify_risk_factors Samples64.no_digits Samples64.no_text
                   (Samples64.one_feature "days_since_last_session" 4.2) 0.5
                 = Return [rf])
  /\ map pf_feature
       (_identify_protective_factors (Samples64.one_feature "current_mastery" 0.61))
     = ["current_mastery"].
Proof.
  split; [eexists; vm_compute; reflexivity|].
  split; [eexists; vm_compute; reflexivity|].
  vm_compute. reflexivity.
Qed.

(** An infinite value of a feature that counts as a risk makes
    [int(value)] fail while the recommendation is rendered. *)
Example infinite_value_raises :
  _identify_risk_factors Samples64.no_digits Samples64.no_text
    (Samples64.one_feature "skill_gaps_count" PrimFloat.infinity) 0.5
  = Raise (OverflowError "cannot convert float infinity to integer").
Proof. vm_compute. reflexivity. Qed.

(** *** Further properties of the explanation *)

Section Factors.
Variable str_int : Z -> string.
Variable str_float : float -> string.

(** X8. Every risk factor and every protective factor belongs to a
    catalog feature that has a value in the feature map, and carries that
    feature's name, category and value; its score is a number, never NaN.
    No feature is both a risk factor and a protective factor, and neither
    list is longer than the catalog. *)
Theorem identify_factors_sound (features : features_t) (risk_score : float)
    (risk : list RiskFactor) :
  _identify_risk_factors str_int str_float features risk_score = Return risk ->
  let prot := _identify_protective_factors features in
  (forall rf, In rf risk ->
     exists fd, In fd RISK_FEATURES /\ rf_feature rf = name fd
                /\ rf_category rf = category fd
                /\ features_get features (name fd) = Some (rf_current_value rf)
                /\ number (rf_contribution rf))
  /\ (forall pf, In pf prot ->
        exists fd, In fd RISK_FEATURES /\ pf_feature pf = name fd
                   /\ pf_category pf = category fd
                   /\ features_get features (name fd) = Some (pf_current_value pf)
                   /\ number (pf_contribution pf))
  /\ (forall rf pf, In rf risk -> In pf prot -> rf_feature rf <> pf_feature pf)
  /\ (List.length risk <= List.length RISK_FEATURES)%nat
  /\ (List.length prot <= List.length RISK_FEATURES)%nat.
Proof.
  unfold _identify_risk_factors.
  destruct (collectM (risk_factor_of str_int str_float features) RISK_FEATURES)
    as [factors|e] eqn:Efactors; [|discriminate].
  cbn [bind]. intro H. injection H as <-. cbv zeta.
  set (prot := _identify_protective_factors features).
  pose proof (collectM_In _ _ _ Efactors) as Hfactors.
  assert (Hrisk : forall rf, In rf (sort_desc rf_contribution factors) ->
            exists fd value,
              In fd RISK_FEATURES /\ features_get features (name fd) = Some value
              /\ gtb (_normalize_risk_contribution fd value) 0.3 = true
              /\ rf_feature rf = name fd /\ rf_category rf = category fd
              /\ rf_current_value rf = value /\ number (rf_contribution rf)).
  { intros rf Hin. apply sort_desc64_In, Hfactors in Hin.
    destruct Hin as (fd & Hfd & E).
    destruct (risk_factor64_of_Some _ _ _ _ _ E) as (value & Hv & Hc & Hn & Hcat & Hval & _).
    exists fd, value. repeat split; try assumption.
    exact (risk_factor_number _ _ _ _ _ Hfd E). }
  assert (Hprot : forall pf, In pf prot ->
            exists fd value,
              In fd RISK_FEATURES /\ features_get features (name fd) = Some value
              /\ PrimFloat.ltb (_normalize_risk_contribution fd value) 0.3 = true
              /\ pf_feature pf = name fd /\ pf_category pf = category fd
              /\ pf_current_value pf = value /\ number (pf_contribution pf)).
  { intros pf Hin. apply sort_desc64_In, collect_In in Hin.
    destruct Hin as (fd & Hfd & E).
    destruct (protective_factor64_of_Some _ _ _ E) as (value & Hv & Hc & Hn & Hcat & Hval & _).
    exists fd, value. repeat split; try assumption.
    exact (protective_factor_number _ _ _ Hfd E). }
  split; [|split; [|split; [|split]]].
  - intros rf Hin.
    destruct (Hrisk rf Hin) as (fd & value & Hfd & Hv & _ & Hn & Hcat & Hval & Hnum).
    exists fd. rewrite Hval. repeat split; assumption.
  - intros pf Hin.
    destruct (Hprot pf Hin) as (fd & value & Hfd & Hv & _ & Hn & Hcat & Hval & Hnum).
    exists fd. rewrite Hval. repeat split; assumption.
  - intros rf pf Hr Hp Hname.
    destruct (Hrisk rf Hr) as (fd & value & Hfd & Hv & Hc & Hn & _).
    destruct (Hprot pf Hp) as (fd' & value' & Hfd' & Hv' & Hc' & Hn' & _).
    assert (fd = fd') by (apply RISK_FEATURES64_names; congruence). subst fd'.
    assert (value' = value) by congruence. subst value'.
    unfold gtb in Hc. apply ltb_asym in Hc. congruence.
  - rewrite (Permutation_length (sort_desc64_perm rf_contribution factors)).
    exact (collectM_length _ _ _ Efactors).
  - unfold prot, _identify_protective_factors.
    rewrite (Permutation_length (sort_desc64_perm pf_contribution _)).
    apply collect_length.
Qed.
End Factors.

Lemma identify_factors_sound_witness :
  exists rf,
    _identify_risk_factors Samples64.no_digits Samples64.no_text
      (Samples64.one_feature "days_since_last_session" 4.2) 0.5 = Return [rf]
    /\ number (rf_contribution rf).
Proof.
  destruct (_identify_risk_factors Samples64.no_digits Samples64.no_text
              (Samples64.one_feature "days_since_last_session" 4.2) 0.5)
    as [[|rf [|]]|] eqn:E; try (vm_compute in E; discriminate E).
  exists rf. split; [reflexivity|].
  destruct (proj1 (identify_factors_sound Samples64.no_digits Samples64.no_text
                     (Samples64.one_feature "days_since_last_session" 4.2) 0.5 [rf] E)
              rf (or_introl eq_refl)) as (fd & _ & _ & _ & _ & H).
  exact H.
Defined.

(** X4. Against a previous score [_calculate_trend] reports the change
    [current - previous], the double the source computes; the trend is
    increasing exactly when the change is above 0.05, decreasing exactly
    when it is below -0.05 and stable otherwise.  Without a previous score
    the trend is stable and no change is reported.  From 0.60 to 0.65 the
    change is 0.050000000000000044 and the trend is increasing. *)
Theorem calculate_trend_band (current previous : float) :
  let change := (current - previous)%float in
  let outcome := _calculate_trend current (Some previous) in
  snd outcome = Some change
  /\ (fst outcome = RiskModel.INCREASING <-> gtb change 0.05 = true)
  /\ (fst outcome = RiskModel.DECREASING <-> PrimFloat.ltb change (-0.05) = true)
  /\ (fst outcome = RiskModel.STABLE
      <-> gtb change 0.05 = false /\ PrimFloat.ltb change (-0.05) = false)
  /\ _calculate_trend current None = (RiskModel.STABLE, None)
  /\ _calculate_trend 0.65 (Some 0.60%float)
     = (RiskModel.INCREASING, Some 0.050000000000000044%float).
Proof.
  intros change outcome.
  assert (Hex : gtb change 0.05 = true -> PrimFloat.ltb change (-0.05) = true -> False).
  { unfold gtb. intros H1 H2. apply ltb_leb in H1. apply ltb_leb in H2.
    pose proof (leb_trans _ _ _ H1 H2) as H. vm_compute in H. discriminate H. }
  assert (Hi : _calculate_trend 0.65 (Some 0.60%float)
               = (RiskModel.INCREASING, Some 0.050000000000000044%float))
    by (vm_compute; reflexivity).
  subst outcome. unfold _calculate_trend at 1 2 3 4 5. fold change.
  destruct (gtb change 0.05) eqn:E1; [|destruct (PrimFloat.ltb change (-0.05)) eqn:E2];
    cbn [fst snd];
    (split; [reflexivity|]); (split; [|split; [|split; [|split; [reflexivity|exact Hi]]]]);
    split; intros; try reflexivity; try discriminate;
    try (exfalso; apply Hex; first [reflexivity | assumption]);
    try (destruct H; discriminate); try (split; reflexivity).
Qed.

End RiskModel64Facts.

Module BiasDetection64Facts.
Import Binary64 BiasDetection64 Binary64Facts.
Import BiasDetection(BiasSeverity, NONE, LOW, MODERATE, HIGH, CRITICAL).

(** The tables, as the doubles the source's literals denote. *)
Example BIAS_THRESHOLDS_disparate_impact :
  BIAS_THRESHOLDS BiasDetection.DISPARATE_IMPACT
  = Some [("low", 0.90); ("moderate", 0.85); ("high", 0.80); ("critical", 0.70)]%float.
Proof. vm_compute. reflexivity. Qed.


Lemma get_severity_di_ladder (x : float) :
  _get_severity_di x
  = if PrimFloat.leb x 0.70 then CRITICAL
    else if PrimFloat.leb x 0.80 then HIGH
    else if PrimFloat.leb x 0.85 then MODERATE
    else if PrimFloat.leb x 0.90 then LOW
    else NONE.
Proof.
  unfold _get_severity_di. rewrite BIAS_THRESHOLDS_disparate_impact.
  unfold within. cbn [dict_get]. cbv [String.eqb Ascii.eqb Bool.eqb]. reflexivity.
Qed.

Lemma get_severity_di64_table (x : float) : inverted_table x (_get_severity_di x).
Proof.
  rewrite get_severity_di_ladder.
  destruct (PrimFloat.leb x 0.70) eqn:E1; [exact E1|].
  destruct (PrimFloat.leb x 0.80) eqn:E2; [split; assumption|].
  destruct (PrimFloat.leb x 0.85) eqn:E3; [split; assumption|].
  destruct (PrimFloat.leb x 0.90) eqn:E4; [split; assumption|].
  exact E4.
Qed.

Lemma leb_070_080 (x : float) :
  PrimFloat.leb x 0.70 = true -> PrimFloat.leb x 0.80 = true.
Proof. intro H. apply (leb_trans _ _ _ H). vm_compute. reflexivity. Qed.

Lemma leb_080_085 (x : float) :
  PrimFloat.leb x 0.80 = true -> PrimFloat.leb x 0.85 = true.
Proof. intro H. apply (leb_trans _ _ _ H). vm_compute. reflexivity. Qed.

Lemma leb_085_090 (x : float) :
  PrimFloat.leb x 0.85 = true -> PrimFloat.leb x 0.90 = true.
Proof. intro H. apply (leb_trans _ _ _ H). vm_compute. reflexivity. Qed.

(** The table gives every ratio one severity. *)
Lemma inverted_table64_functional (x : float) (s t : BiasSeverity) :
  inverted_table x s -> inverted_table x t -> s = t.
Proof.
  pose proof (leb_070_080 x). pose proof (leb_080_085 x). pose proof (leb_085_090 x).
  destruct s, t; cbn [inverted_table]; intros; try reflexivity;
    repeat match goal with H : _ /\ _ |- _ => destruct H end;
    repeat match goal with
    | H : ?a = true -> _, H' : ?a = true |- _ => specialize (H H')
    end; congruence.
Qed.

Lemma gtb_truthy (x : float) : gtb x 0 = true -> truthy x = true.
Proof.
  unfold gtb, truthy, PrimFloat.zero. rewrite ltb_spec, eqb_spec. unfold SFltb, SFeqb.
  rewrite (SFcompare_antisym (Prim2SF 0) (Prim2SF x)).
  destruct (SFcompare (Prim2SF 0) (Prim2SF x)) as [[]|]; cbn; congruence.
Qed.

Section Evaluators.
Variables fmt_1f fmt_2f : float -> string.

(** C7. With a positive reference rate the ratio is
    [comparison / reference], the double the source computes; when it is
    positive the severity is the entry of the inverted table for
    [min(ratio, 1/ratio)], and otherwise (a comparison rate of 0) it is
    critical; the result is significant unless the severity is none.
    Rates 0.50 and 0.35 give ratio 0.70 and severity critical. *)
Theorem evaluate_disparate_impact_table (attribute : BiasDetection.ProtectedAttribute)
    (reference comparison : GroupStatistics) :
  gtb (positive_rate reference) 0 = true ->
  let r := (positive_rate comparison / positive_rate reference)%float in
  let result := _evaluate_disparate_impact fmt_1f fmt_2f attribute reference comparison in
  ratio result = Some r
  /\ (gtb r 0 = true ->
      severity result = _get_severity_di (py_min r (1 / r))
      /\ inverted_table (py_min r (1 / r)) (severity result)
      /\ forall s, inverted_table (py_min r (1 / r)) s -> severity result = s)
  /\ (gtb r 0 = false -> severity result = CRITICAL)
  /\ is_significant result
     = negb (BiasDetection.BiasSeverity_eqb (severity result) NONE)
  /\ (positive_rate reference = 0.50%float -> positive_rate comparison = 0.35%float ->
      r = 0.70%float /\ severity result = CRITICAL).
Proof.
  intros Href r result.
  assert (Hsev : severity result
                 = _get_severity_di
                     (if truthy r && gtb r 0 then py_min r (1 / r) else 0)%float).
  { subst result. unfold _evaluate_disparate_impact. cbn [severity].
    rewrite Href. reflexivity. }
  split; [|split; [|split; [|split]]].
  - subst result. unfold _evaluate_disparate_impact. cbn [ratio].
    rewrite Href. reflexivity.
  - intro Hr. rewrite Hsev, Hr, (gtb_truthy r Hr). cbn [andb].
    split; [reflexivity|]. split; [apply get_severity_di64_table|].
    intros s Hs.
    exact (inverted_table64_functional _ _ _ (get_severity_di64_table _) Hs).
  - intro Hr. rewrite Hsev, Hr, andb_false_r. vm_compute. reflexivity.
  - reflexivity.
  - intros E1 E2. subst r. rewrite Hsev, E1, E2. split; vm_compute; reflexivity.
Qed.
End Evaluators.

Lemma evaluate_disparate_impact_table_witness :
  gtb (positive_rate (Samples64.group_with_rate "reference" 100 0.50)) 0 = true
  /\ severity (_evaluate_disparate_impact Samples64.no_text Samples64.no_text
                 BiasDetection.RACE_ETHNICITY
                 (Samples64.group_with_rate "reference" 100 0.50)
                 (Samples64.group_with_rate "comparison" 100 0.35)) = CRITICAL.
Proof.
  assert (H : gtb (positive_rate (Samples64.group_with_rate "reference" 100 0.50)) 0
              = true) by (vm_compute; reflexivity).
  split; [exact H|].
  exact (proj2 (proj2 (proj2 (proj2 (proj2
    (evaluate_disparate_impact_table Samples64.no_text Samples64.no_text
       BiasDetection.RACE_ETHNICITY
       (Samples64.group_with_rate "reference" 100 0.50)
       (Samples64.group_with_rate "comparison" 100 0.35) H)))) eq_refl eq_refl)).
Defined.

(** Rates 10/50 and 7/50: the ratio is [0.70000000000000007], just above
    the critical bound, and its inverse rounds to [0.7]. *)
Example rates_10_and_7_of_50 :
  let a := Samples64.group_of_50 "a" 10 in
  let b := Samples64.group_of_50 "b" 7 in
  let ab := _evaluate_disparate_impact Samples64.no_text Samples64.no_text
              BiasDetection.GENDER a b in
  let ba := _evaluate_disparate_impact Samples64.no_text Samples64.no_text
              BiasDetection.GENDER b a in
  ratio ab = Some 0.70000000000000007%float /\ severity ab = HIGH
  /\ severity ba = CRITICAL.
Proof. vm_compute. repeat split. Qed.

(** *** Further properties of the pairwise evaluators *)


Section Pairwise.
Variable norm_cdf : float -> float.
Variables fmt_1f fmt_2f : float -> string.

(** X17. A disparate-impact result has no p-value, reports the absolute
    difference of the two rates and is significant exactly when its
    severity is not none.  The severity depends on which group is the
    reference: for rates 10/50 and 7/50 it is high with the first group as
    the reference and critical with the second. *)
Theorem evaluate_disparate_impact_reference_dependent :
  (forall attribute reference comparison,
      let result :=
        _evaluate_disparate_impact fmt_1f fmt_2f attribute reference comparison in
      p_value result = None
      /\ difference result
         = PrimFloat.abs (positive_rate reference - positive_rate comparison)
      /\ (is_significant result = true <-> severity result <> NONE))
  /\ (let a := Samples64.group_of_50 "a" 10 in
      let b := Samples64.group_of_50 "b" 7 in
      severity (_evaluate_disparate_impact fmt_1f fmt_2f BiasDetection.GENDER a b) = HIGH
      /\ severity (_evaluate_disparate_impact fmt_1f fmt_2f BiasDetection.GENDER b a)
         = CRITICAL).
Proof.
  split.
  - intros attribute reference comparison result. subst result.
    unfold _evaluate_disparate_impact.
    cbn [p_value difference is_significant severity].
    split; [reflexivity|]. split; [reflexivity|].
    match goal with |- context [_get_severity_di ?x] => destruct (_get_severity_di x) end;
      cbn; split; intros; congruence.
  - cbv zeta. split; vm_compute; reflexivity.
Qed.

End Pairwise.

(** Rates 0.3 and 0.2: the difference is [0.099999999999999978], below
    the moderate bound. *)
Example parity_rates_03_02 :
  match _evaluate_statistical_parity Samples64.no_fn Samples64.no_text Samples64.no_text
          BiasDetection.GENDER
          (Samples64.group_with_rate "a" 100 0.3) (Samples64.group_with_rate "b" 100 0.2)
  with
  | Return r => difference r = 0.099999999999999978%float /\ severity r = LOW
  | Raise _ => False
  end.
Proof. vm_compute. split; reflexivity. Qed.

Example parity_empty_group :
  _evaluate_statistical_parity Samples64.no_fn Samples64.no_text Samples64.no_text
    BiasDetection.GENDER
    (Samples64.group_with_rate "a" 0 0.3) (Samples64.group_with_rate "b" 100 0.2)
  = Raise (ZeroDivisionError "division by zero").
Proof. vm_compute. reflexivity. Qed.
End BiasDetection64Facts.
